(** * SpendWise: expense policy evaluation, visibility and currency conversion

    A shallow embedding of the decision logic of the SpendWise application:
    the Express/SQLite server ([server.js]), the React expense context
    ([ExpenseContext.tsx]), the submission form ([AddExpense.tsx]), the
    policy page ([ExpensePolicy.tsx]), the fraud heuristics ([utils/ai.ts],
    [utils/fraud.ts]) and the currency converter ([utils/currency.ts]).

    Conventions of the embedding.
    - A JavaScript [Date] is its time value: milliseconds since the epoch, as
      a [Z].  An invalid date is [None].  Local time is UTC plus a fixed
      offset [tza] (milliseconds); daylight saving is outside the model.
    - Money amounts of expenses and policies (JS numbers, SQLite REAL) are
      decimal values with two fractional digits, held as an integer number of
      hundredths; binary floating point rounding is outside the model.  The
      sums of hundredths are the sums of the code where the amounts are
      whole units of at most 15 digits, and the policy decision is stated
      there; the totals of the summaries are stated over an addition of
      which nothing is assumed.
    - The amounts and rates of the currency converter are exact rationals:
      the properties say which rates a conversion uses and which operations
      it applies, and no identity of the arithmetic.
    - SQL tables are lists of rows in insertion order; TEXT columns are
      strings compared bytewise, as SQLite's default collation does. *)

From Stdlib Require Import ZArith List String Ascii Bool Lia QArith DecimalString.
Import ListNotations.

Local Open Scope string_scope.
Local Open Scope Z_scope.

(** ** Strings and number formatting *)

Module Text.

(** Decimal numeral of an integer, with a minus sign when negative. *)
Definition showInt (n : Z) : string := NilZero.string_of_int (Z.to_int n).

Definition pad2 (n : Z) : string :=
  if n <? 10 then "0" ++ showInt n else showInt n.

Definition pad3 (n : Z) : string :=
  if n <? 10 then "00" ++ showInt n
  else if n <? 100 then "0" ++ showInt n else showInt n.

Definition pad4 (n : Z) : string :=
  if n <? 1000 then "0" ++ pad3 n else showInt n.

Definition pad6 (n : Z) : string :=
  if n <? 10000 then "00" ++ pad4 n
  else if n <? 100000 then "0" ++ showInt n else showInt n.

Definition signOf (h : Z) : string := if h <? 0 then "-" else "".

(** [Number.prototype.toString] of an amount held in hundredths: the
    shortest decimal, without trailing zeros (for magnitudes below 10^21,
    where JavaScript turns to the exponent notation). *)
Definition numToString (h : Z) : string :=
  let a := Z.abs h in
  let i := a / 100 in
  let f := a mod 100 in
  if f =? 0 then signOf h ++ showInt i
  else if f mod 10 =? 0 then signOf h ++ showInt i ++ "." ++ showInt (f / 10)
  else signOf h ++ showInt i ++ "." ++ pad2 f.

(** [Number.prototype.toFixed(2)] of an amount held in hundredths (for
    magnitudes below 10^21, where JavaScript turns to the exponent
    notation). *)
Definition toFixed2 (h : Z) : string :=
  let a := Z.abs h in
  signOf h ++ showInt (a / 100) ++ "." ++ pad2 (a mod 100).

(** [String.prototype.toLowerCase], on ASCII letters. *)
Definition lowerChar (c : ascii) : ascii :=
  let n := N_of_ascii c in
  if ((65 <=? n) && (n <=? 90))%N then ascii_of_N (n + 32) else c.

Fixpoint toLowerCase (s : string) : string :=
  match s with
  | EmptyString => EmptyString
  | String c r => String (lowerChar c) (toLowerCase r)
  end.

(** [String.prototype.includes]. *)
Definition includes (s sub : string) : bool :=
  match index 0 sub s with Some _ => true | None => false end.

Definition isSpace (c : ascii) : bool :=
  let n := N_of_ascii c in
  ((n =? 32) || ((9 <=? n) && (n <=? 13)))%N.

Fixpoint trimStart (s : string) : string :=
  match s with
  | EmptyString => EmptyString
  | String c r => if isSpace c then trimStart r else s
  end.

Fixpoint trimEnd (s : string) : string :=
  match s with
  | EmptyString => EmptyString
  | String c r =>
      match trimEnd r with
      | EmptyString => if isSpace c then EmptyString else String c EmptyString
      | r' => String c r'
      end
  end.

(** [String.prototype.trim], on ASCII white space. *)
Definition trim (s : string) : string := trimEnd (trimStart s).

(** [Array.prototype.join]. *)
Definition join (sep : string) (l : list string) : string := concat sep l.

Definition digit (c : ascii) : option Z :=
  let n := Z.of_N (N_of_ascii c) in
  if (48 <=? n) && (n <=? 57) then Some (n - 48) else None.

(** Truthiness of an optional string: absent and empty are falsy. *)
Definition truthyS (s : option string) : bool :=
  match s with Some v => negb (v =? "")%string | None => false end.

(** Truthiness of an optional number: absent (NULL, undefined) and zero are
    falsy. *)
Definition truthyN (n : option Z) : bool :=
  match n with Some v => negb (v =? 0) | None => false end.

(** [s || d] on an optional string. *)
Definition orElseS (s : option string) (d : string) : string :=
  match s with Some v => if (v =? "")%string then d else v | None => d end.

(** [s || null] on an optional string. *)
Definition orNull (s : option string) : option string :=
  match s with Some v => if (v =? "")%string then None else Some v | None => None end.

End Text.

(** ** ECMAScript time values and calendar arithmetic *)

Module JSDate.

Definition msPerDay : Z := 86400000.
Definition msPerHour : Z := 3600000.
Definition msPerMinute : Z := 60000.
Definition msPerSecond : Z := 1000.

Definition Day (t : Z) : Z := t / msPerDay.
Definition TimeWithinDay (t : Z) : Z := t mod msPerDay.

Definition DaysInYear (y : Z) : Z :=
  if (y mod 4 =? 0) && (negb (y mod 100 =? 0) || (y mod 400 =? 0))
  then 366 else 365.

Definition DayFromYear (y : Z) : Z :=
  365 * (y - 1970) + (y - 1969) / 4 - (y - 1901) / 100 + (y - 1601) / 400.

(** The largest [y] with [DayFromYear y <= d]: a mean-year estimate,
    corrected by at most one year in either direction. *)
Definition YearFromDay (d : Z) : Z :=
  let y := 1970 + (400 * d) / 146097 in
  if d <? DayFromYear y then y - 1
  else if DayFromYear (y + 1) <=? d then y + 1
  else y.

Definition InLeapYear (y : Z) : Z := if DaysInYear y =? 366 then 1 else 0.

Definition DayWithinYear (d : Z) : Z := d - DayFromYear (YearFromDay d).

(** Day number, within its year, of the first day of month [m] (0 = January). *)
Definition monthStart (m leap : Z) : Z :=
  if m <=? 0 then 0
  else if m =? 1 then 31
  else if m =? 2 then 59 + leap
  else if m =? 3 then 90 + leap
  else if m =? 4 then 120 + leap
  else if m =? 5 then 151 + leap
  else if m =? 6 then 181 + leap
  else if m =? 7 then 212 + leap
  else if m =? 8 then 243 + leap
  else if m =? 9 then 273 + leap
  else if m =? 10 then 304 + leap
  else 334 + leap.

Definition MonthFromDay (d : Z) : Z :=
  let dy := DayWithinYear d in
  let leap := InLeapYear (YearFromDay d) in
  if dy <? 31 then 0
  else if dy <? 59 + leap then 1
  else if dy <? 90 + leap then 2
  else if dy <? 120 + leap then 3
  else if dy <? 151 + leap then 4
  else if dy <? 181 + leap then 5
  else if dy <? 212 + leap then 6
  else if dy <? 243 + leap then 7
  else if dy <? 273 + leap then 8
  else if dy <? 304 + leap then 9
  else if dy <? 334 + leap then 10
  else 11.

Definition DateFromDay (d : Z) : Z :=
  DayWithinYear d
  - monthStart (MonthFromDay d) (InLeapYear (YearFromDay d)) + 1.

Definition DaysInMonth (y m : Z) : Z :=
  if m =? 1 then 28 + InLeapYear y
  else if (m =? 3) || (m =? 5) || (m =? 8) || (m =? 10) then 30
  else 31.

Definition WeekDay (t : Z) : Z := (Day t + 4) mod 7.

Definition MakeTime (h m s ms : Z) : Z :=
  h * msPerHour + m * msPerMinute + s * msPerSecond + ms.

(** [MakeDay]: months outside 0..11 carry into the year, days outside the
    month carry into the neighbouring months. *)
Definition MakeDay (year month date : Z) : Z :=
  let ym := year + month / 12 in
  let mn := month mod 12 in
  DayFromYear ym + monthStart mn (InLeapYear ym) + date - 1.

Definition MakeDate (day time : Z) : Z := day * msPerDay + time.

Definition LocalTime (tza t : Z) : Z := t + tza.
Definition UTC (tza t : Z) : Z := t - tza.

(** *** Methods of [Date.prototype], on a valid time value *)

Definition getFullYear (tza t : Z) : Z := YearFromDay (Day (LocalTime tza t)).
Definition getMonth (tza t : Z) : Z := MonthFromDay (Day (LocalTime tza t)).
Definition getDate (tza t : Z) : Z := DateFromDay (Day (LocalTime tza t)).
Definition getDay (tza t : Z) : Z := WeekDay (LocalTime tza t).

Definition setDate (tza t dt : Z) : Z :=
  let l := LocalTime tza t in
  UTC tza (MakeDate (MakeDay (YearFromDay (Day l)) (MonthFromDay (Day l)) dt)
                    (TimeWithinDay l)).

Definition setHours (tza t h m s ms : Z) : Z :=
  let l := LocalTime tza t in
  UTC tza (MakeDate (Day l) (MakeTime h m s ms)).

(** [new Date(year, month, date, hours, minutes, seconds)]: local time; a
    year from 0 to 99 stands for 1900 + year. *)
Definition MakeFullYear (y : Z) : Z :=
  if (0 <=? y) && (y <=? 99) then 1900 + y else y.

Definition newDate (tza y m d h mi s : Z) : Z :=
  UTC tza (MakeDate (MakeDay (MakeFullYear y) m d) (MakeTime h mi s 0)).

(** [Date.prototype.toISOString]: the UTC fields, the year on four digits
    from 0 to 9999 and on six signed digits otherwise. *)
Definition isoYear (y : Z) : string :=
  if (0 <=? y) && (y <=? 9999) then Text.pad4 y
  else (if y <? 0 then "-" else "+") ++ Text.pad6 (Z.abs y).

Definition toISOString (t : Z) : string :=
  let d := Day t in
  let tod := TimeWithinDay t in
  isoYear (YearFromDay d) ++ "-" ++ Text.pad2 (MonthFromDay d + 1) ++ "-"
  ++ Text.pad2 (DateFromDay d) ++ "T"
  ++ Text.pad2 (tod / msPerHour) ++ ":"
  ++ Text.pad2 ((tod / msPerMinute) mod 60) ++ ":"
  ++ Text.pad2 ((tod / msPerSecond) mod 60) ++ "."
  ++ Text.pad3 (tod mod msPerSecond) ++ "Z".

(** Midnight UTC of a calendar day, when the day exists. *)
Definition dateOfFields (y m d : Z) : option Z :=
  if (1 <=? m) && (m <=? 12) && (1 <=? d) && (d <=? DaysInMonth y (m - 1))
  then Some (MakeDate (MakeDay y (m - 1) d) 0)
  else None.

(** [new Date(s)] for the date-only form [YYYY-MM-DD] that the submission
    form produces: midnight UTC of that calendar day.  Any other string is
    outside the model and reads as an invalid date, also those that the
    engine accepts (a day past the end of its month, a date with a time). *)
Definition parseDate (s : string) : option Z :=
  match s with
  | String y1 (String y2 (String y3 (String y4 (String "-"
      (String m1 (String m2 (String "-"
        (String d1 (String d2 EmptyString))))))))) =>
      match Text.digit y1, Text.digit y2, Text.digit y3, Text.digit y4,
            Text.digit m1, Text.digit m2, Text.digit d1, Text.digit d2 with
      | Some a, Some b, Some c, Some e, Some f, Some g, Some h, Some i =>
          dateOfFields (1000 * a + 100 * b + 10 * c + e) (10 * f + g)
                       (10 * h + i)
      | _, _, _, _, _, _, _, _ => None
      end
  | _ => None
  end.

End JSDate.

(** ** Exceptions *)

(** The outcome of a computation that may throw. *)
Inductive Completion (A : Type) : Type :=
| Normal (a : A)
| Throw (msg : string).

Arguments Normal {A} a.
Arguments Throw {A} msg.

Definition bindC {A B : Type} (c : Completion A) (k : A -> Completion B)
  : Completion B :=
  match c with
  | Normal a => k a
  | Throw m => Throw m
  end.

Notation "x <- c ;; k" := (bindC c (fun x => k))
  (at level 61, c at next level, right associativity).

(** ** The server ([server.js]) *)

Module Server.

Import Text JSDate.

(** A row of table [expenses]. *)
Record Expense : Type := mkExpense {
  id : string;
  userId : string;
  amount : Z;
  currency : string;
  date : string;
  category : string;
  description : string;
  receiptImage : option string;
  status : string;
  notes : option string;
  createdAt : string
}.

(** A row of table [policies]; a limit that is NULL is [None]. *)
Record Policy : Type := mkPolicy {
  p_category : string;
  maxAmount : option Z;
  dailyLimit : option Z;
  weeklyLimit : option Z;
  monthlyLimit : option Z;
  p_description : string;
  p_currency : string
}.

Record Db : Type := mkDb {
  expenses : list Expense;
  policies : list Policy
}.

(** The JSON body of [POST /api/expenses]: any field may be missing. *)
Record ExpenseBody : Type := mkBody {
  b_id : option string;
  b_userId : option string;
  b_amount : option Z;
  b_currency : option string;
  b_date : option string;
  b_category : option string;
  b_description : option string;
  b_receiptImage : option string;
  b_status : option string;
  b_notes : option string;
  b_createdAt : option string
}.

(** The responses of the handlers for expenses and policies. *)
Inductive Response : Type :=
| BadRequest (error : string)             (* 400 *)
| ServerError (error : string)            (* 500 *)
| Created (id status message : string)    (* 201 *)
| Success.                                (* 200, success: true *)

(** The policies inserted by [initializeDatabase] into an empty table
    (limits in hundredths). *)
Definition defaultPolicies : list Policy :=
  [mkPolicy "Office Supplies" None None (Some 250000) (Some 1000000)
     "Items for office use including stationery, small equipment, etc." "INR";
   mkPolicy "Food & Entertainment" None None (Some 125000) (Some 500000)
     "Meals, client entertainment, and team events." "INR";
   mkPolicy "Travelling" None None (Some 250000) (Some 1000000)
     "Transportation costs including airfare, train, taxi, etc." "INR";
   mkPolicy "Accommodation" None None (Some 125000) (Some 500000)
     "Hotel and lodging expenses while on business trips." "INR";
   mkPolicy "Client & Project Expenses" None None (Some 2500000)
     (Some 10000000) "Expenses directly related to client projects." "INR";
   mkPolicy "Subscriptions" None None (Some 1250000) (Some 5000000)
     "Software, services, and publication subscriptions." "INR"].

(** [db.get('SELECT * FROM policies WHERE category = ?')]. *)
Definition getPolicy (db : Db) (cat : string) : option Policy :=
  find (fun p => (p_category p =? cat)%string) (policies db).

(** [SUM(amount)]: NULL over no rows. *)
Definition sqlSum (l : list Z) : option Z :=
  match l with
  | [] => None
  | _ => Some (fold_left Z.add l 0)
  end.

(** The aggregate query of the weekly and of the monthly check; [date] is a
    TEXT column and both bounds are bound as text. *)
Definition inWindow (uid cat lo hi cur : string) (e : Expense) : bool :=
  (userId e =? uid)%string && (category e =? cat)%string
  && String.leb lo (date e) && String.leb (date e) hi
  && (currency e =? cur)%string.

Definition totalAmount (db : Db) (uid cat lo hi cur : string) : option Z :=
  sqlSum (map amount (filter (inWindow uid cat lo hi cur) (expenses db))).

(** [x || 0]. *)
Definition orZero (x : option Z) : Z :=
  match x with Some v => v | None => 0 end.

(** Sunday 00:00:00.000 and Saturday 23:59:59.999, local time, around the
    expense date. *)
Definition weekBounds (tza expenseDate : Z) : Z * Z :=
  let currentDate := expenseDate in
  let dayOfWeek := getDay tza currentDate in
  let startOfWeek :=
    setHours tza (setDate tza currentDate (getDate tza currentDate - dayOfWeek))
             0 0 0 0 in
  let endOfWeek :=
    setHours tza (setDate tza startOfWeek (getDate tza startOfWeek + 6))
             23 59 59 999 in
  (startOfWeek, endOfWeek).

Definition monthBounds (tza expenseDate : Z) : Z * Z :=
  let expenseMonth := getMonth tza expenseDate in
  let expenseYear := getFullYear tza expenseDate in
  (newDate tza expenseYear expenseMonth 1 0 0 0,
   newDate tza expenseYear (expenseMonth + 1) 0 23 59 59).

(** [`${policy.weeklyLimit}`]. *)
Definition showLimit (l : option Z) : string :=
  match l with Some v => numToString v | None => "null" end.

(** [policy.limit && total > policy.limit]. *)
Definition exceeds (limit : option Z) (total : Z) : bool :=
  truthyN limit && (orZero limit <? total).

Definition weeklyMessage (p : Policy) (weeklyTotal : Z) : string :=
  "Exceeds weekly limit of " ++ showLimit (weeklyLimit p) ++ " "
  ++ p_currency p ++ " (weekly total: " ++ toFixed2 weeklyTotal ++ ")".

Definition monthlyMessage (p : Policy) (monthlyTotal : Z) : string :=
  "Exceeds monthly limit of " ++ showLimit (monthlyLimit p) ++ " "
  ++ p_currency p ++ " (monthly total: " ++ toFixed2 monthlyTotal ++ ")".

(** [expense.notes ? `${expense.notes}. ${limitMessage}` : limitMessage]. *)
Definition appendNote (old : option string) (limitMessage : string) : string :=
  match old with
  | Some n => if (n =? "")%string then limitMessage
              else n ++ ". " ++ limitMessage
  | None => limitMessage
  end.

(** [weeklyTotal] and [monthlyTotal]: the sum of the query, 0 for NULL,
    plus the new amount, in hundredths. *)
Definition weeklyTotalOf (tza : Z) (db : Db) (e : Expense) (t : Z) : Z :=
  let (startOfWeek, endOfWeek) := weekBounds tza t in
  orZero (totalAmount db (userId e) (category e) (toISOString startOfWeek)
                      (toISOString endOfWeek) (currency e))
  + amount e.

Definition monthlyTotalOf (tza : Z) (db : Db) (e : Expense) (t : Z) : Z :=
  let (startOfMonth, endOfMonth) := monthBounds tza t in
  orZero (totalAmount db (userId e) (category e) (toISOString startOfMonth)
                      (toISOString endOfMonth) (currency e))
  + amount e.

(** The policy check of [POST /api/expenses]: the status and the notes it
    leaves on the expense.  [e] carries the submitted fields, with the
    submitted notes; its status is overwritten on every path.  An invalid
    date makes [toISOString] throw a RangeError. *)
Definition checkPolicy (tza : Z) (db : Db) (e : Expense)
  : Completion (string * option string) :=
  match getPolicy db (category e) with
  | None => Normal ("pending", notes e)
  | Some policy =>
      match parseDate (date e) with
      | None => Throw "RangeError: Invalid time value"
      | Some expenseDate =>
          let weeklyTotal := weeklyTotalOf tza db e expenseDate in
          let withinWeeklyLimit :=
            negb (exceeds (weeklyLimit policy) weeklyTotal) in
          let monthlyTotal := monthlyTotalOf tza db e expenseDate in
          let withinMonthlyLimit :=
            negb (exceeds (monthlyLimit policy) monthlyTotal) in
          if withinWeeklyLimit && withinMonthlyLimit then
            Normal ("approved", notes e)
          else
            let limitMessage :=
              if negb withinWeeklyLimit then weeklyMessage policy weeklyTotal
              else monthlyMessage policy monthlyTotal in
            Normal ("pending", Some (appendNote (notes e) limitMessage))
      end
  end.

(** [INSERT INTO expenses]: [id] is the primary key. *)
Definition insertExpense (db : Db) (e : Expense) : Completion Db :=
  if existsb (fun x => (id x =? id e)%string) (expenses db)
  then Throw "SQLITE_CONSTRAINT: UNIQUE constraint failed: expenses.id"
  else Normal (mkDb (expenses db ++ [e])%list (policies db)).

Definition missingFields (b : ExpenseBody) : bool :=
  negb (truthyS (b_id b)) || negb (truthyS (b_userId b))
  || negb (truthyN (b_amount b)) || negb (truthyS (b_currency b))
  || negb (truthyS (b_date b)) || negb (truthyS (b_category b))
  || negb (truthyS (b_description b)).

(** The expense object once the required fields are known to be there. *)
Definition ofBody (now : Z) (b : ExpenseBody) : Expense :=
  mkExpense (orElseS (b_id b) "") (orElseS (b_userId b) "")
            (orZero (b_amount b)) (orElseS (b_currency b) "")
            (orElseS (b_date b) "") (orElseS (b_category b) "")
            (orElseS (b_description b) "") (b_receiptImage b)
            (orElseS (b_status b) "") (b_notes b)
            (orElseS (b_createdAt b) (toISOString now)).

(** The row that the INSERT of [POST /api/expenses] stores. *)
Definition storedRow (e : Expense) (st : string) (n : option string) : Expense :=
  mkExpense (id e) (userId e) (amount e) (currency e) (date e) (category e)
            (description e) (orNull (receiptImage e)) st (orNull n)
            (createdAt e).

(** [app.post('/api/expenses')]: the response and the database afterwards. *)
Definition postExpense (tza now : Z) (db : Db) (b : ExpenseBody)
  : Response * Db :=
  if missingFields b then
    (BadRequest "Missing required expense fields", db)
  else
    let expense := ofBody now b in
    let run :=
      d <- checkPolicy tza db expense ;;
      let st := orElseS (Some (fst d)) "pending" in
      db' <- insertExpense db (storedRow expense st (snd d)) ;;
      Normal (Created (id expense) st
                (if (st =? "approved")%string
                 then "Expense approved automatically (within policy limits)"
                 else "Expense submitted for approval"),
              db') in
    match run with
    | Normal r => r
    | Throw _ => (ServerError "Server error", db)
    end.

(** [app.get('/api/expenses/user/:userId')], with the [role] query
    parameter. *)
Definition employeeVisible (e : Expense) : bool :=
  (status e =? "approved")%string || (status e =? "rejected")%string
  || ((status e =? "pending")%string && negb (status e =? "flagged")%string).

Definition getUserExpenses (db : Db) (uid : string) (role : option string)
  : list Expense :=
  match role with
  | Some "manager" => filter (fun e => (userId e =? uid)%string) (expenses db)
  | _ => filter (fun e => (userId e =? uid)%string && employeeVisible e)
                (expenses db)
  end.

(** [app.put('/api/expenses/:id')]: every column but [id], [userId] and
    [createdAt] is overwritten from the body, typed as the client's
    [Expense]. *)
Definition updateRow (eid : string) (body : Expense) (x : Expense) : Expense :=
  if (id x =? eid)%string then
    mkExpense (id x) (userId x) (amount body) (currency body) (date body)
              (category body) (description body) (orNull (receiptImage body))
              (status body) (orNull (notes body)) (createdAt x)
  else x.

Definition putExpense (db : Db) (eid : string) (body : Expense)
  : Response * Db :=
  (Success, mkDb (map (updateRow eid body) (expenses db)) (policies db)).

(** [app.put('/api/policies/:category')]. *)
Definition updatePolicyRow (cat : string) (body : Policy) (x : Policy) : Policy :=
  if (p_category x =? cat)%string then
    mkPolicy (p_category x) (maxAmount body) (dailyLimit body)
             (weeklyLimit body) (monthlyLimit body) (p_description body)
             (p_currency body)
  else x.

Definition putPolicy (db : Db) (cat : string) (body : Policy)
  : Response * Db :=
  (Success, mkDb (expenses db) (map (updatePolicyRow cat body) (policies db))).

End Server.

(** ** The browser client *)

Module Client.

Import Text JSDate Server.

Record User : Type := mkUser {
  u_id : string;
  role : string
}.

(** [isManager] of the authentication context. *)
Definition isManager (currentUser : option User) : bool :=
  match currentUser with
  | Some u => (role u =? "manager")%string
  | None => false
  end.

(** *** The fraud heuristic ([utils/ai.ts]) *)

(** [industryBenchmarks[category].averageMonthly], in hundredths. *)
Definition industryBenchmarks (cat : string) : option Z :=
  if (cat =? "Office Supplies")%string then Some 35000
  else if (cat =? "Food & Entertainment")%string then Some 80000
  else if (cat =? "Travelling")%string then Some 150000
  else if (cat =? "Accommodation")%string then Some 200000
  else if (cat =? "Client & Project Expenses")%string then Some 300000
  else if (cat =? "Subscriptions")%string then Some 70000
  else None.

Definition suspiciousKeywords : list string :=
  ["gift"; "personal"; "cash"; "advance"; "reimbursement"].

Definition dquote : string := String (ascii_of_nat 34) EmptyString.

Definition detectFraud (tza now : Z) (e : Expense) : bool * list string :=
  let amountReason :=
    match industryBenchmarks (category e) with
    | Some averageMonthly =>
        if averageMonthly * 3 <? amount e
        then ["Amount is more than 3x the average for " ++ category e]
        else []
    | None => []
    end in
  let expenseDate := parseDate (date e) in
  let weekendReason :=
    match expenseDate with
    | Some t =>
        let dayOfWeek := getDay tza t in
        if (dayOfWeek =? 0) || (dayOfWeek =? 6)
        then ["Expense submitted on a weekend"] else []
    | None => []
    end in
  let futureReason :=
    match expenseDate with
    | Some t => if now <? t then ["Expense dated in the future"] else []
    | None => []
    end in
  let keywordReason :=
    if (description e =? "")%string then []
    else
      let lowercaseDesc := toLowerCase (description e) in
      match find (fun keyword => includes lowercaseDesc keyword)
                 suspiciousKeywords with
      | Some keyword =>
          ["Description contains suspicious keyword: " ++ dquote ++ keyword
           ++ dquote]
      | None => []
      end in
  let reasons :=
    (amountReason ++ weekendReason ++ futureReason ++ keywordReason)%list in
  (negb (Nat.eqb (List.length reasons) 0), reasons).

(** *** The expense context ([ExpenseContext.tsx]) *)

(** What the form hands to [addExpense]: an expense without [id] and
    [createdAt]. *)
Record NewExpense : Type := mkNew {
  n_userId : string;
  n_amount : Z;
  n_currency : string;
  n_date : string;
  n_category : string;
  n_description : string;
  n_receiptImage : option string;
  n_notes : option string;
  n_status : string
}.

Record AddResult : Type := mkResult {
  r_id : string;
  r_status : string;
  r_message : string
}.

(** [api.addExpense]: the request to [POST /api/expenses]; a response that
    is not ok is thrown as an [Error]. *)
Definition api_addExpense (tzaS now : Z) (db : Db) (b : ExpenseBody)
  : Completion AddResult * Db :=
  match postExpense tzaS now db b with
  | (Created i st m, db') => (Normal (mkResult i st m), db')
  | (BadRequest err, db') => (Throw err, db')
  | (ServerError err, db') => (Throw err, db')
  | (Success, db') => (Throw "Error", db')
  end.

(** [addExpense] of the context.  [tzaC] and [tzaS] are the offsets of the
    browser and of the server, [uuid] is the value of
    [crypto.randomUUID()]. *)
Definition addExpense (tzaC tzaS now : Z) (uuid : string) (db : Db)
    (expense : NewExpense) : Completion AddResult * Db :=
  let tempExpense :=
    mkExpense uuid (n_userId expense) (n_amount expense) (n_currency expense)
              (n_date expense) (n_category expense) (n_description expense)
              (n_receiptImage expense) (n_status expense) (n_notes expense)
              (toISOString now) in
  let (isFraud, reasons) := detectFraud tzaC now tempExpense in
  let apiSubmission :=
    mkBody (Some (id tempExpense)) (Some (userId tempExpense))
           (Some (amount tempExpense)) (Some (currency tempExpense))
           (Some (date tempExpense)) (Some (category tempExpense))
           (Some (description tempExpense)) (receiptImage tempExpense)
           (if isFraud then Some "flagged" else None)
           (notes tempExpense) (Some (createdAt tempExpense)) in
  match api_addExpense tzaS now db apiSubmission with
  | (Normal result, db') =>
      let finalStatus := if isFraud then "flagged" else r_status result in
      (Normal (mkResult (r_id result) finalStatus
                 (if isFraud then "Expense flagged for potential fraud"
                  else r_message result)),
       db')
  | (Throw err, db') => (Throw err, db')
  end.

(** [updateExpense] and [updatePolicy] of the context: the PUT requests,
    whoever the current user is. *)
Definition updateExpense (currentUser : option User) (db : Db)
    (expense : Expense) : Completion unit * Db :=
  match putExpense db (id expense) expense with
  | (Success, db') => (Normal tt, db')
  | (_, db') => (Throw "Error", db')
  end.

Definition updatePolicy (currentUser : option User) (db : Db)
    (policy : Policy) : Completion unit * Db :=
  match putPolicy db (p_category policy) policy with
  | (Success, db') => (Normal tt, db')
  | (_, db') => (Throw "Error", db')
  end.

Definition withStatus (e : Expense) (st : string) : Expense :=
  mkExpense (id e) (userId e) (amount e) (currency e) (date e) (category e)
            (description e) (receiptImage e) st (notes e) (createdAt e).

(** [handleStatusUpdate] of the expense details page. *)
Definition handleStatusUpdate (currentUser : option User) (db : Db)
    (expense : option Expense) (newStatus : string) : Completion unit * Db :=
  match expense with
  | None => (Normal tt, db)
  | Some e =>
      if negb (isManager currentUser) then (Normal tt, db)
      else updateExpense currentUser db (withStatus e newStatus)
  end.

(** *** The list views ([PendingExpensesView.tsx], [FlaggedExpensesView.tsx]) *)

(** The state [message] of a view. *)
Record Message : Type := mkMessage {
  msg_text : string;
  msg_type : string
}.

(** [userMap[expense.userId] || 'Unknown user']. *)
Definition nameOf (userMap : string -> option string) (e : Expense) : string :=
  orElseS (userMap (userId e)) "Unknown user".

(** [handleApprove] and [handleReject] of both views and [handleClearFlag]
    of the view of flagged expenses: the message shown and the database
    afterwards.  None of them reads the role of the current user. *)
Definition handleApprove (currentUser : option User)
    (userMap : string -> option string) (db : Db) (expense : Expense)
  : Message * Db :=
  match updateExpense currentUser db (withStatus expense "approved") with
  | (Normal _, db') =>
      (mkMessage ("Expense for " ++ nameOf userMap expense
                  ++ " approved successfully") "success", db')
  | (Throw _, db') =>
      (mkMessage "Failed to approve expense. Please try again." "error", db')
  end.

Definition handleReject (currentUser : option User)
    (userMap : string -> option string) (db : Db) (expense : Expense)
  : Message * Db :=
  match updateExpense currentUser db (withStatus expense "rejected") with
  | (Normal _, db') =>
      (mkMessage ("Expense for " ++ nameOf userMap expense
                  ++ " rejected successfully") "success", db')
  | (Throw _, db') =>
      (mkMessage "Failed to reject expense. Please try again." "error", db')
  end.

Definition handleClearFlag (currentUser : option User)
    (userMap : string -> option string) (db : Db) (expense : Expense)
  : Message * Db :=
  match updateExpense currentUser db (withStatus expense "pending") with
  | (Normal _, db') =>
      (mkMessage ("Flag cleared for " ++ nameOf userMap expense
                  ++ "'s expense, now pending review") "success", db')
  | (Throw _, db') =>
      (mkMessage "Failed to clear flag. Please try again." "error", db')
  end.

(** *** The policy page ([ExpensePolicy.tsx]) *)

(** [handleEdit]: the next value of the state [editingPolicy]. *)
Definition handleEdit (currentUser : option User)
    (editingPolicy : option Policy) (policy : Policy) : option Policy :=
  if negb (isManager currentUser) then editingPolicy else Some policy.

(** [Math.round(monthly / 4)] on hundredths. *)
Definition quarterRounded (monthly : Z) : Z := 100 * ((monthly + 200) / 400).

Inductive SaveOutcome : Type :=
| NothingToSave
| Invalid (error : string)
| Saved
| SaveFailed (error : string).

(** [handleSave]: [clientPolicies] is the context's list of policies. *)
Definition handleSave (currentUser : option User) (clientPolicies : list Policy)
    (db : Db) (editingPolicy : option Policy) : SaveOutcome * Db :=
  match editingPolicy with
  | None => (NothingToSave, db)
  | Some ep =>
      if orZero (monthlyLimit ep) <=? 0 then
        (Invalid "Monthly limit must be greater than zero", db)
      else if (trim (p_description ep) =? "")%string then
        (Invalid "Description is required", db)
      else
        let toSave :=
          match find (fun p => (p_category p =? p_category ep)%string)
                     clientPolicies with
          | Some existingPolicy =>
              mkPolicy (p_category ep) (maxAmount existingPolicy)
                       (dailyLimit existingPolicy)
                       (Some (quarterRounded (orZero (monthlyLimit ep))))
                       (monthlyLimit ep) (p_description ep) (p_currency ep)
          | None => ep
          end in
        match updatePolicy currentUser db toSave with
        | (Normal _, db') => (Saved, db')
        | (Throw _, db') =>
            (SaveFailed "Failed to update policy. Please try again.", db')
        end
  end.

(** *** The submission form ([AddExpense.tsx]) *)

Section Form.

(** [formatCurrency] renders in the locale of the browser. *)
Variable formatCurrency : Z -> string -> string.

Definition validateExpenseAgainstPolicy (clientPolicies : list Policy)
    (amount : Z) (cat : string) : bool * string :=
  match find (fun p => (p_category p =? cat)%string) clientPolicies with
  | None => (true, "No policy found for this category")
  | Some policy =>
      let limit := orZero (monthlyLimit policy) in
      if amount <=? limit
      then (true, "Amount is within policy limit of "
                  ++ formatCurrency limit (p_currency policy))
      else (false, "Amount exceeds policy limit of "
                   ++ formatCurrency limit (p_currency policy))
  end.

Record FormState : Type := mkForm {
  f_amount : Z;
  f_currency : string;
  f_date : string;
  f_category : string;
  f_description : string;
  f_receiptImage : option string;
  f_fraudDetection : option (bool * list string)
}.

Record FormErrors : Type := mkErrors {
  err_amount : option string;
  err_date : option string;
  err_description : option string;
  err_policyWarning : option string
}.

Definition validateForm (now : Z) (clientPolicies : list Policy)
    (f : FormState) : FormErrors :=
  mkErrors
    (if f_amount f <=? 0 then Some "Please enter a valid amount" else None)
    (if (f_date f =? "")%string then Some "Please select a date"
     else match parseDate (f_date f) with
          | Some selectedDate =>
              if now <? selectedDate then Some "Date cannot be in the future"
              else None
          | None => None
          end)
    (if (f_description f =? "")%string
        || (Z.of_nat (String.length (trim (f_description f))) <? 5)
     then Some "Please enter a description (minimum 5 characters)" else None)
    (let (valid, message) :=
       validateExpenseAgainstPolicy clientPolicies (f_amount f) (f_category f) in
     if valid then None else Some message).

Definition isSome {A : Type} (o : option A) : bool :=
  match o with Some _ => true | None => false end.

(** The errors that stop a submission: all but the policy warning. *)
Definition hasBlockingErrors (e : FormErrors) : bool :=
  isSome (err_amount e) || isSome (err_date e) || isSome (err_description e).

Definition fraudFlagged (f : FormState) : bool :=
  match f_fraudDetection f with Some (b, _) => b | None => false end.

Definition formExpense (currentUser : User) (f : FormState)
    (errs : FormErrors) : NewExpense :=
  mkNew (u_id currentUser) (f_amount f) (f_currency f) (f_date f)
        (f_category f) (f_description f) (f_receiptImage f)
        (match f_fraudDetection f with
         | Some (true, reasons) =>
             Some ("Potential fraud detected: " ++ join ", " reasons)
         | _ =>
             match err_policyWarning errs with
             | Some w => if (w =? "")%string then None
                         else Some ("Policy limit warning: " ++ w)
             | None => None
             end
         end)
        (if fraudFlagged f then "flagged" else "pending").

(** The retry loop of [handleSubmit]: [fuel] attempts are left, the
    [k]-th attempt draws the identifier [uuid k]. *)
Fixpoint submitWithRetry (fuel : nat) (k : nat) (tzaC tzaS now : Z)
    (uuid : nat -> string) (db : Db) (expense : NewExpense)
  : Completion AddResult * Db :=
  match fuel with
  | O => (Throw "Error", db)
  | S fuel' =>
      match addExpense tzaC tzaS now (uuid k) db expense with
      | (Normal response, db') => (Normal response, db')
      | (Throw err, db') =>
          match fuel' with
          | O => (Throw err, db')
          | S _ => submitWithRetry fuel' (S k) tzaC tzaS now uuid db' expense
          end
      end
  end.

Inductive SubmitOutcome : Type :=
| Blocked (errors : FormErrors)
| Submitted (response : AddResult)
| Failed (error : string).

(** [handleSubmit]: the first attempt and up to three retries. *)
Definition handleSubmit (tzaC tzaS now : Z) (uuid : nat -> string)
    (currentUser : User) (clientPolicies : list Policy) (db : Db)
    (f : FormState) : SubmitOutcome * Db :=
  let newErrors := validateForm now clientPolicies f in
  if hasBlockingErrors newErrors then (Blocked newErrors, db)
  else
    match submitWithRetry 4 0 tzaC tzaS now uuid db
            (formExpense currentUser f newErrors) with
    | (Normal response, db') => (Submitted response, db')
    | (Throw _, db') =>
        (Failed "An error occurred while submitting the expense. Please try again.",
         db')
    end.

End Form.

End Client.

(** ** Exchange rates on the server ([server.js]) *)

Module RateServer.

Import Text JSDate.

(** A row of table [conversion_rates]. *)
Record RateRow : Type := mkRate {
  date_fetched : string;
  from_currency : string;
  to_currency : string;
  rate : Q
}.

Definition RateDb : Type := list RateRow.

(** [new Date().toISOString().split('T')[0]]. *)
Definition todayOf (now : Z) : string := substring 0 10 (toISOString now).

(** What the external rate service returned under [rates], for the three
    currencies the server reads. *)
Record ApiRates : Type := mkApiRates {
  api_USD : option Q;
  api_EUR : option Q;
  api_GBP : option Q
}.

Definition countToday (today : string) (db : RateDb) : nat :=
  List.length (filter (fun r => (date_fetched r =? today)%string) db).

(** The rows stored for one currency: the rate from INR and its inverse
    [1 / rate], an exact rational here, when the service gave a rate that
    is not zero. *)
Definition rowsFor (today cur : string) (r : option Q) : list RateRow :=
  match r with
  | Some v => if Qeq_bool v 0 then []
              else [mkRate today "INR" cur v; mkRate today cur "INR" (1 / v)%Q]
  | None => []
  end.

Definition fallbackRates (today : string) : list RateRow :=
  [mkRate today "INR" "USD" (12 # 1000);
   mkRate today "INR" "EUR" (11 # 1000);
   mkRate today "INR" "GBP" (94 # 10000);
   mkRate today "INR" "INR" 1;
   mkRate today "USD" "INR" (8316 # 100);
   mkRate today "EUR" "INR" (9091 # 100);
   mkRate today "GBP" "INR" (10638 # 100)].

(** [fetchAndStoreCurrencyRates]: [external] is the outcome of the request
    to the rate service. *)
Definition fetchAndStoreCurrencyRates (now : Z)
    (external : Completion ApiRates) (db : RateDb) : RateDb :=
  let today := todayOf now in
  if negb (Nat.eqb (countToday today db) 0) then db
  else
    match external with
    | Normal rates =>
        (db ++ rowsFor today "USD" (api_USD rates)
            ++ rowsFor today "EUR" (api_EUR rates)
            ++ rowsFor today "GBP" (api_GBP rates)
            ++ [mkRate today "INR" "INR" 1])%list
    | Throw _ => (db ++ fallbackRates today)%list
    end.

(** [db.get('SELECT rate FROM conversion_rates WHERE date_fetched = ? AND
    from_currency = ? AND to_currency = ?')]. *)
Definition getRate (db : RateDb) (today from to : string) : option Q :=
  option_map rate
    (find (fun r => (date_fetched r =? today)%string
                    && (from_currency r =? from)%string
                    && (to_currency r =? to)%string) db).

Inductive ConvertResponse : Type :=
| MissingFields                       (* 400 *)
| RateNotFound                        (* 404 *)
| Converted (rate result : Q).        (* 200 *)

(** [app.post('/api/convert-currency')]. *)
Definition postConvertCurrency (now : Z) (external : Completion ApiRates)
    (db : RateDb) (amount : Q) (fromCurrency toCurrency : string)
  : ConvertResponse * RateDb :=
  if Qeq_bool amount 0 || (fromCurrency =? "")%string
     || (toCurrency =? "")%string then (MissingFields, db)
  else
    let today := todayOf now in
    match getRate db today fromCurrency toCurrency with
    | Some r => (Converted r (amount * r)%Q, db)
    | None =>
        let db' := fetchAndStoreCurrencyRates now external db in
        match getRate db' today fromCurrency toCurrency with
        | Some r => (Converted r (amount * r)%Q, db')
        | None => (RateNotFound, db')
        end
    end.

(** The [rates] object of [app.get('/api/exchange-rates')]: rate by source
    and by target currency. *)
Definition RateTable : Type := list (string * list (string * Q)).

Fixpoint setInner (inner : list (string * Q)) (to : string) (r : Q)
  : list (string * Q) :=
  match inner with
  | [] => [(to, r)]
  | (k, v) :: rest =>
      if (k =? to)%string then (k, r) :: rest
      else (k, v) :: setInner rest to r
  end.

Fixpoint setRate (t : RateTable) (from to : string) (r : Q) : RateTable :=
  match t with
  | [] => [(from, [(to, r)])]
  | (k, inner) :: rest =>
      if (k =? from)%string then (k, setInner inner to r) :: rest
      else (k, inner) :: setRate rest from to r
  end.

Definition formatRates (rows : list RateRow) : RateTable :=
  fold_left (fun t r => setRate t (from_currency r) (to_currency r) (rate r))
            rows [].

(** The handler of [app.get('/api/exchange-rates')]; the route is
    registered after the one of [app.get('*')], see [Routing]. *)
Definition getExchangeRates (now : Z) (external : Completion ApiRates)
    (db : RateDb) : RateTable * RateDb :=
  let today := todayOf now in
  let rates := filter (fun r => (date_fetched r =? today)%string) db in
  match rates with
  | [] =>
      let db' := fetchAndStoreCurrencyRates now external db in
      (formatRates (filter (fun r => (date_fetched r =? today)%string) db'),
       db')
  | _ => (formatRates rates, db)
  end.

End RateServer.

(** ** The currency converter of the client ([utils/currency.ts]) *)

Module Currency.

Import RateServer.

Inductive Currency : Type := USD | EUR | GBP | INR.

Definition code (c : Currency) : string :=
  match c with USD => "USD" | EUR => "EUR" | GBP => "GBP" | INR => "INR" end.

Definition eqbC (a b : Currency) : bool :=
  match a, b with
  | USD, USD | EUR, EUR | GBP, GBP | INR, INR => true
  | _, _ => false
  end.

(** [Record<Currency, number>]. *)
Record Rates : Type := mkRates {
  rUSD : Q;
  rEUR : Q;
  rGBP : Q;
  rINR : Q
}.

Definition rateOf (r : Rates) (c : Currency) : Q :=
  match c with USD => rUSD r | EUR => rEUR r | GBP => rGBP r | INR => rINR r end.

Record CurrencyRates : Type := mkCurrencyRates {
  base : Currency;
  rates : Rates;
  timestamp : Z
}.

(** The module-level cache. *)
Record Cache : Type := mkCache {
  cachedRates : option CurrencyRates;
  cacheTimestamp : Z
}.

Definition CACHE_LIFETIME : Z := 3600000.

Definition defaultRates : Rates :=
  mkRates (12 # 1000) (11 # 1000) (94 # 10000) 1.

(** [data.rates[from]?.[to] || 1]. *)
Definition lookupOrOne (t : RateTable) (from to : string) : Q :=
  match find (fun p => (fst p =? from)%string) t with
  | Some (_, inner) =>
      match find (fun p => (fst p =? to)%string) inner with
      | Some (_, v) => if Qeq_bool v 0 then 1 else v
      | None => 1
      end
  | None => 1
  end.

(** [fetchCurrencyRates]: [ratesResponse] is the outcome of
    [api.getExchangeRates]. *)
Definition fetchCurrencyRates (now : Z) (ratesResponse : Completion RateTable)
    (cache : Cache) (baseCurrency : Currency) : CurrencyRates * Cache :=
  let refresh :=
    match ratesResponse with
    | Normal data =>
        let fresh :=
          mkCurrencyRates INR
            (mkRates (lookupOrOne data "INR" "USD") (lookupOrOne data "INR" "EUR")
                     (lookupOrOne data "INR" "GBP") 1)
            now in
        (fresh, mkCache (Some fresh) now)
    | Throw _ => (mkCurrencyRates INR defaultRates now, cache)
    end in
  match cachedRates cache with
  | Some c =>
      if eqbC (base c) baseCurrency
         && (now - cacheTimestamp cache <? CACHE_LIFETIME)
      then (c, cache) else refresh
  | None => refresh
  end.

(** [api.convertCurrency]: the result of an ok response; any other
    response, and a request that fails ([None]), is thrown. *)
Definition api_convertCurrency (response : option ConvertResponse)
  : Completion Q :=
  match response with
  | Some (Converted _ result) => Normal result
  | Some MissingFields => Throw "Missing required fields"
  | Some RateNotFound => Throw "Exchange rate not found"
  | None => Throw "Failed to fetch"
  end.

(** [convertCurrency]: [response] answers the request to
    [/api/convert-currency], sent only when the currencies differ. *)
Definition convertCurrency (now : Z) (response : option ConvertResponse)
    (ratesResponse : Completion RateTable) (cache : Cache)
    (amount : Q) (fromCurrency toCurrency : Currency)
  : Completion Q * Cache :=
  if eqbC fromCurrency toCurrency then (Normal amount, cache)
  else
    match api_convertCurrency response with
    | Normal result => (Normal result, cache)
    | Throw _ =>
        let (r, cache') := fetchCurrencyRates now ratesResponse cache INR in
        if negb (eqbC fromCurrency INR) && negb (eqbC toCurrency INR) then
          let amountInINR := (amount / rateOf (rates r) fromCurrency)%Q in
          (Normal (amountInINR * rateOf (rates r) toCurrency)%Q, cache')
        else if eqbC fromCurrency INR then
          (Normal (amount * rateOf (rates r) toCurrency)%Q, cache')
        else
          (Normal (amount / rateOf (rates r) fromCurrency)%Q, cache')
    end.

(** [convertExpenseAmount] of the expense context: the original amount when
    the converter throws. *)
Definition convertExpenseAmount (now : Z) (response : option ConvertResponse)
    (ratesResponse : Completion RateTable) (cache : Cache)
    (amount : Q) (expenseCurrency targetCurrency : Currency) : Q * Cache :=
  match convertCurrency now response ratesResponse cache amount
          expenseCurrency targetCurrency with
  | (Normal v, cache') => (v, cache')
  | (Throw _, cache') => (amount, cache')
  end.

End Currency.

(** ** The GET routes of the server and the request of the rates
       ([server.js], [services/api.ts]) *)

Module Routing.

Import Text RateServer.

(** The handlers that [server.js] registers with [app.get]. *)
Inductive Handler : Type :=
| Users
| CompanyUsers
| PendingUsers
| Expenses
| UserExpenses
| ExpenseById
| Policies
| PolicyByCategory
| ReactApp
| ExchangeRates.

(** The calls of [app.get], in the order in which the module makes them;
    the static files of [build] are looked up before them. *)
Definition getRoutes : list (string * Handler) :=
  [("/api/users", Users);
   ("/api/users/company/:companyName", CompanyUsers);
   ("/api/users/pending/:companyName", PendingUsers);
   ("/api/expenses", Expenses);
   ("/api/expenses/user/:userId", UserExpenses);
   ("/api/expenses/:id", ExpenseById);
   ("/api/policies", Policies);
   ("/api/policies/:category", PolicyByCategory);
   ("*", ReactApp);
   ("/api/exchange-rates", ExchangeRates)].

(** The segments of a path between its slashes. *)
Fixpoint segments (s : string) : list string :=
  match s with
  | EmptyString => [EmptyString]
  | String c r =>
      if (c =? "/")%char then EmptyString :: segments r
      else match segments r with
           | seg :: rest => String c seg :: rest
           | [] => [String c EmptyString]
           end
  end.

Definition isParam (pat : string) : bool :=
  match pat with
  | String ":" _ => true
  | _ => false
  end.

(** A path against a pattern of Express: a parameter stands for one
    segment that is not empty, the other segments are compared without
    their case, and one slash more at the end is allowed. *)
Fixpoint matchSegments (pats segs : list string) : bool :=
  match pats, segs with
  | [], [] => true
  | [], [EmptyString] => true
  | pat :: pats', seg :: segs' =>
      (if isParam pat then negb (seg =? "")%string
       else (toLowerCase pat =? toLowerCase seg)%string)
      && matchSegments pats' segs'
  | _, _ => false
  end.

Definition matches (pattern path : string) : bool :=
  (pattern =? "*")%string || matchSegments (segments pattern) (segments path).

(** The handler that answers a GET request: the first route that matches. *)
Definition dispatch (path : string) : option Handler :=
  option_map snd (find (fun r => matches (fst r) path) getRoutes).

(** What [fetch] resolves to, as far as [handleResponse] reads it: an ok
    response with a JSON body, an ok response with another body, or a
    response that is not ok, whose body is no JSON object with an [error]
    (the error pages of Express are HTML). *)
Inductive Received (A : Type) : Type :=
| OkJson (data : A)
| OkOther
| NotOk (status : Z).

Arguments OkJson {A} data.
Arguments OkOther {A}.
Arguments NotOk {A} status.

(** [handleResponse]: [response.json()] of an ok response, which rejects on
    a body that is not JSON; otherwise an error with the status. *)
Definition handleResponse {A : Type} (r : Received A) : Completion A :=
  match r with
  | OkJson data => Normal data
  | OkOther => Throw "SyntaxError"
  | NotOk status => Throw ("Error: " ++ showInt status)
  end.

(** The answer of the handler of [app.get('*')], [res.sendFile] of
    [build/index.html]: the page, or 404 where the file is missing. *)
Definition reactApp {A : Type} (indexThere : bool) : Received A :=
  if indexThere then OkOther else NotOk 404.

(** [api.getExchangeRates]: the request goes to the handler that the
    routes give for its path; with no route, Express answers 404. *)
Definition api_getExchangeRates (answerOf : Handler -> Received RateTable)
  : Completion RateTable :=
  match dispatch "/api/exchange-rates" with
  | Some h => handleResponse (answerOf h)
  | None => handleResponse (NotOk 404)
  end.

End Routing.

(** ** Accounts on the server ([server.js]) *)

Module Accounts.

Import Text.

(** A row of table [users]: [id] is the primary key, [username] and [email]
    are UNIQUE, [isActive] is an INTEGER. *)
Record UserRow : Type := mkUserRow {
  ur_id : string;
  username : string;
  password : string;
  name : string;
  email : string;
  ur_role : string;
  companyName : string;
  isActive : Z;
  preferredCurrency : string
}.

(** A user as the responses carry it: the row after [delete user.password]. *)
Record PublicUser : Type := mkPublic {
  pu_id : string;
  pu_username : string;
  pu_name : string;
  pu_email : string;
  pu_role : string;
  pu_companyName : string;
  pu_isActive : Z;
  pu_preferredCurrency : string
}.

Definition withoutPassword (u : UserRow) : PublicUser :=
  mkPublic (ur_id u) (username u) (name u) (email u) (ur_role u)
           (companyName u) (isActive u) (preferredCurrency u).

Definition setActive (u : UserRow) (a : Z) : UserRow :=
  mkUserRow (ur_id u) (username u) (password u) (name u) (email u)
            (ur_role u) (companyName u) a (preferredCurrency u).

(** [UPDATE users SET isActive = 1 WHERE id = ?]. *)
Definition activate (uid : string) (x : UserRow) : UserRow :=
  if (ur_id x =? uid)%string then setActive x 1 else x.

Inductive LoginResponse : Type :=
| Unauthorized (error : string)           (* 401 *)
| LoggedIn (user : PublicUser).           (* 200 *)

(** [app.post('/api/auth/login')]. *)
Definition login (users : list UserRow) (usr pwd : string)
  : LoginResponse * list UserRow :=
  match find (fun x => (username x =? usr)%string) users with
  | None => (Unauthorized "Invalid credentials or inactive account", users)
  | Some _ =>
      match find (fun x => (username x =? usr)%string
                           && (password x =? pwd)%string) users with
      | None => (Unauthorized "Invalid credentials or inactive account", users)
      | Some userWithPassword =>
          if (ur_role userWithPassword =? "manager")%string then
            if isActive userWithPassword =? 0 then
              (LoggedIn (withoutPassword (setActive userWithPassword 1)),
               map (activate (ur_id userWithPassword)) users)
            else (LoggedIn (withoutPassword userWithPassword), users)
          else if negb (isActive userWithPassword =? 1) then
            (Unauthorized
               "Your account has not been approved yet. Please contact your manager.",
             users)
          else (LoggedIn (withoutPassword userWithPassword), users)
      end
  end.

(** The JSON body of [POST /api/users]: any field may be missing. *)
Record UserBody : Type := mkUserBody {
  ub_id : option string;
  ub_username : option string;
  ub_password : option string;
  ub_name : option string;
  ub_email : option string;
  ub_role : option string;
  ub_companyName : option string;
  ub_preferredCurrency : option string
}.

Inductive UserResponse : Type :=
| UBadRequest (error : string)                          (* 400 *)
| UNotFound (error : string)                            (* 404 *)
| UServerError (error : string)                         (* 500 *)
| UCreated (message : string) (requiresApproval : bool) (* 201 *)
| UApproved (message userId : string) (active : Z)      (* 200 *)
| UUpdated.                                             (* 200 *)

(** [/^[^\s@]+@[^\s@]+\.[^\s@]+$/.test(s)], on ASCII white space: one [@]
    with something before it, and after it a dot that is neither the first
    nor the last character. *)
Definition plainChar (c : ascii) : bool :=
  negb (isSpace c) && negb (Ascii.eqb c "@").

Fixpoint allPlain (s : string) : bool :=
  match s with
  | EmptyString => true
  | String c r => plainChar c && allPlain r
  end.

Fixpoint dotThenMore (s : string) : bool :=
  match s with
  | EmptyString => false
  | String c r =>
      (Ascii.eqb c "." && negb (r =? "")%string) || dotThenMore r
  end.

Definition hasInnerDot (s : string) : bool :=
  match s with
  | EmptyString => false
  | String _ r => dotThenMore r
  end.

Fixpoint emailFrom (seenLocal : bool) (s : string) : bool :=
  match s with
  | EmptyString => false
  | String c r =>
      if Ascii.eqb c "@" then seenLocal && allPlain r && hasInnerDot r
      else negb (isSpace c) && emailFrom true r
  end.

Definition emailRegexTest (s : string) : bool := emailFrom false s.

(** A bound parameter that is [undefined] matches no row. *)
Definition existsWith (col : UserRow -> string) (v : option string)
    (users : list UserRow) : bool :=
  match v with
  | Some s => existsb (fun x => (col x =? s)%string) users
  | None => false
  end.

(** [INSERT INTO users], under the constraints of the table. *)
Definition insertUser (users : list UserRow) (u : UserRow)
  : Completion (list UserRow) :=
  if existsb (fun x => (ur_id x =? ur_id u)%string
                       || (username x =? username u)%string
                       || (email x =? email u)%string) users
  then Throw "SQLITE_CONSTRAINT: UNIQUE constraint failed"
  else Normal (users ++ [u])%list.

(** [app.post('/api/users')]. *)
Definition createUser (users : list UserRow) (b : UserBody)
  : UserResponse * list UserRow :=
  if existsWith email (ub_email b) users then
    (UBadRequest "Email already exists", users)
  else if existsWith username (ub_username b) users then
    (UBadRequest "Username already exists", users)
  else if negb (truthyS (ub_id b)) || negb (truthyS (ub_name b))
          || negb (truthyS (ub_username b)) || negb (truthyS (ub_password b))
          || negb (truthyS (ub_email b)) || negb (truthyS (ub_role b))
          || negb (truthyS (ub_companyName b)) then
    (UBadRequest "Missing required user fields", users)
  else if negb (emailRegexTest (orElseS (ub_email b) "")) then
    (UBadRequest "Invalid email format", users)
  else
    let role := orElseS (ub_role b) "" in
    let active := if (role =? "manager")%string then 1 else 0 in
    let row :=
      mkUserRow (orElseS (ub_id b) "") (orElseS (ub_username b) "")
                (orElseS (ub_password b) "") (orElseS (ub_name b) "")
                (orElseS (ub_email b) "") role
                (orElseS (ub_companyName b) "") active
                (orElseS (ub_preferredCurrency b) "USD") in
    match insertUser users row with
    | Throw _ => (UServerError "Server error", users)
    | Normal users' =>
        if (role =? "employee")%string then
          (UCreated
             "Employee account created successfully. Your account needs manager approval before you can log in."
             true, users')
        else (UCreated "User created successfully" false, users')
    end.

(** [app.put('/api/users/:id/approve')]. *)
Definition approveUser (users : list UserRow) (uid : string)
  : UserResponse * list UserRow :=
  match find (fun x => (ur_id x =? uid)%string) users with
  | None => (UNotFound "User not found", users)
  | Some user =>
      let users' := map (activate uid) users in
      match find (fun x => (ur_id x =? uid)%string) users' with
      | Some updatedUser =>
          (UApproved ("User " ++ username user ++ " approved successfully")
                     uid (isActive updatedUser), users')
      | None => (UServerError "Server error", users')
      end
  end.

(** [app.get('/api/users/pending/:companyName')]. *)
Definition getPendingEmployees (users : list UserRow) (company : string)
  : list PublicUser :=
  map withoutPassword
      (filter (fun x => (companyName x =? company)%string
                        && (ur_role x =? "employee")%string
                        && (isActive x =? 0)) users).

(** The body of [PUT /api/users/:id], typed as the client's [User]. *)
Record UserUpdate : Type := mkUserUpdate {
  uu_name : string;
  uu_username : string;
  uu_email : string;
  uu_role : string;
  uu_companyName : string;
  uu_isActive : bool;
  uu_preferredCurrency : string
}.

Definition updateUserRow (uid : string) (b : UserUpdate) (x : UserRow)
  : UserRow :=
  if (ur_id x =? uid)%string then
    mkUserRow (ur_id x) (uu_username b) (password x) (uu_name b) (uu_email b)
              (uu_role b) (uu_companyName b) (if uu_isActive b then 1 else 0)
              (uu_preferredCurrency b)
  else x.

(** [app.put('/api/users/:id')]: the UPDATE fails when another row holds
    the new username or the new email. *)
Definition updateUser (users : list UserRow) (uid : string) (b : UserUpdate)
  : UserResponse * list UserRow :=
  match find (fun x => (ur_id x =? uid)%string) users with
  | None => (UNotFound "User not found", users)
  | Some _ =>
      if existsb (fun x => negb (ur_id x =? uid)%string
                           && ((username x =? uu_username b)%string
                               || (email x =? uu_email b)%string)) users
      then (UServerError "Server error", users)
      else (UUpdated, map (updateUserRow uid b) users)
  end.

(** The account that the server creates when it starts, at the instant
    [now], without a manager. *)
Definition defaultManager (now : Z) : UserRow :=
  mkUserRow ("default-manager-" ++ showInt now) "admin" "admin123"
            "Admin User" "admin@spendwise.com" "manager" "SpendWise Inc." 1
            "USD".

(** [createDefaultManagerIfNeeded]: a failing INSERT is caught and
    logged. *)
Definition createDefaultManagerIfNeeded (now : Z) (users : list UserRow)
  : list UserRow :=
  let userCount :=
    List.length (filter (fun x => (ur_role x =? "manager")%string) users) in
  if Nat.eqb userCount 0 then
    match insertUser users (defaultManager now) with
    | Normal users' => users'
    | Throw _ => users
    end
  else users.

End Accounts.

(** ** Reading expenses on the server ([server.js]) *)

Module Queries.

Import Server.

(** [app.get('/api/expenses/:id')]: the row, or [None] for the answer 404. *)
Definition getExpense (db : Db) (eid : string) : option Expense :=
  find (fun x => (id x =? eid)%string) (expenses db).

End Queries.

(** ** Summaries of the expense context ([ExpenseContext.tsx]) *)

Module Summaries.

Import Text Server.

Definition categories : list string :=
  ["Office Supplies"; "Food & Entertainment"; "Travelling"; "Accommodation";
   "Client & Project Expenses"; "Subscriptions"].

Section Numbers.

(** The totals are JavaScript numbers: [number h] is the number of an
    amount of [h] hundredths and [plus] the addition of two numbers, which
    rounds.  Nothing is assumed of either. *)
Variable Num : Type.
Variable number : Z -> Num.
Variable plus : Num -> Num -> Num.

Record CategorySummary : Type := mkCategorySummary {
  cs_category : string;
  cs_total : Num;
  cs_count : nat
}.

(** [getCategorySummary]: [expenses] is the state of the context. *)
Definition getCategorySummary (expenses : list Expense)
  : list CategorySummary :=
  map (fun cat =>
         let categoryExpenses :=
           filter (fun e => (category e =? cat)%string) expenses in
         let total :=
           fold_left (fun sum e => plus sum (number (amount e)))
                     categoryExpenses (number 0) in
         mkCategorySummary cat total (List.length categoryExpenses))
      categories.

Record UserSummary : Type := mkUserSummary {
  us_userId : string;
  us_userName : string;
  us_total : Num;
  us_count : nat
}.

(** The [Map] of [getUserSummary], in insertion order: [addTo] is one turn
    of the loop, which creates the entry of a user not seen before and
    adds the expense to the entry of its user. *)
Fixpoint addTo (userMap : list UserSummary) (expense : Expense)
  : list UserSummary :=
  match userMap with
  | [] => [mkUserSummary (userId expense) ""
                         (plus (number 0) (number (amount expense))) (0 + 1)]
  | s :: rest =>
      if (us_userId s =? userId expense)%string then
        mkUserSummary (us_userId s) (us_userName s)
                      (plus (us_total s) (number (amount expense)))
                      (us_count s + 1) :: rest
      else s :: addTo rest expense
  end.

Definition getUserSummary (expenses : list Expense) : list UserSummary :=
  fold_left addTo expenses [].

End Numbers.

Arguments mkCategorySummary {Num} cs_category cs_total cs_count.
Arguments cs_category {Num} c.
Arguments cs_total {Num} c.
Arguments cs_count {Num} c.
Arguments getCategorySummary {Num} number plus expenses.
Arguments mkUserSummary {Num} us_userId us_userName us_total us_count.
Arguments us_userId {Num} u.
Arguments us_userName {Num} u.
Arguments us_total {Num} u.
Arguments us_count {Num} u.
Arguments addTo {Num} number plus userMap expense.
Arguments getUserSummary {Num} number plus expenses.

End Summaries.

(** ** The receipt heuristic ([utils/fraud.ts]) *)

Module Receipt.

Import Text.

(** [typicalMaxAmounts[category]], in hundredths. *)
Definition typicalMaxAmounts (cat : string) : option Z :=
  if (cat =? "Office Supplies")%string then Some 500000
  else if (cat =? "Food & Entertainment")%string then Some 200000
  else if (cat =? "Travelling")%string then Some 1000000
  else if (cat =? "Accommodation")%string then Some 800000
  else if (cat =? "Client & Project Expenses")%string then Some 2000000
  else if (cat =? "Subscriptions")%string then Some 500000
  else None.

Record FraudDetectionResult : Type := mkFraud {
  isFraud : bool;
  reasons : list string
}.

(** [result.isFraud = true; result.reasons.push(reason)]. *)
Definition flag (result : FraudDetectionResult) (reason : string)
  : FraudDetectionResult :=
  mkFraud true (reasons result ++ [reason])%list.

(** [detectFraudInReceipt]: [random] is the value of [Math.random()], a
    number from 0 (included) to 1 (excluded); [amount] is [None] for
    [null].  [amount > max * 1.5] is compared after doubling both sides. *)
Definition detectFraudInReceipt (random : Q) (receiptText : string)
    (amount : option Z) (cat : string) : FraudDetectionResult :=
  let result := mkFraud false [] in
  if (receiptText =? "")%string
     || (Z.of_nat (String.length receiptText) <? 20) then
    flag result "Receipt text is too short or missing"
  else
    let result :=
      if truthyN amount then
        match typicalMaxAmounts cat with
        | Some typicalMax =>
            if 3 * typicalMax <? 2 * Server.orZero amount then
              flag result
                   ("Amount is unusually high for " ++ cat ++ " category")
            else result
        | None => result
        end
      else result in
    let result :=
      if Qlt_le_dec random (5 # 100) then
        flag result "Suspicious pattern detected in receipt text"
      else result in
    result.

End Receipt.

(** ** Vocabulary of the statements and concrete inputs *)

Module Spec.

Import Server.

(** Sum of a list of amounts. *)
Definition sumZ (l : list Z) : Z := fold_right Z.add 0 l.

(** A limit that the policy check skips: NULL, or zero. *)
Definition unsetOrZero (l : option Z) : Prop := l = None \/ l = Some 0.

(** The total passes the check of limit [l]. *)
Definition within (l : option Z) (total : Z) : Prop :=
  unsetOrZero l \/ exists v, l = Some v /\ total <= v.

(** The reading that skips only a limit that is not set. *)
Definition withinConfigured (l : option Z) (total : Z) : Prop :=
  match l with
  | None => True
  | Some v => total <= v
  end.

(** The amount carried through INR with the rates [rs], each given per
    rupee. *)
Definition bridged (rs : Currency.Rates) (amount : Q)
    (from to : Currency.Currency) : Q :=
  match from, to with
  | Currency.INR, _ => (amount * Currency.rateOf rs to)%Q
  | _, Currency.INR => (amount / Currency.rateOf rs from)%Q
  | _, _ => (amount / Currency.rateOf rs from * Currency.rateOf rs to)%Q
  end.

(** Nothing usable is cached at time [now]: the next call refreshes. *)
Definition noFreshCache (now : Z) (cache : Currency.Cache) : Prop :=
  match Currency.cachedRates cache with
  | None => True
  | Some c => Currency.base c <> Currency.INR
              \/ Currency.CACHE_LIFETIME <= now - Currency.cacheTimestamp cache
  end.

(** The conversion request did not deliver a result. *)
Definition requestFailed (response : option RateServer.ConvertResponse) : Prop :=
  match response with
  | Some (RateServer.Converted _ _) => False
  | _ => True
  end.

(** The rows of one user, category and currency. *)
Definition sameKey (e x : Expense) : bool :=
  (userId x =? userId e)%string && (category x =? category e)%string
  && (currency x =? currency e)%string.

(** The days, Sunday to Saturday, of the week that holds the day of the
    instant [t], and the first and the last day of its month; days are
    counted from 1 January 1970. *)
Definition weekDays (t : Z) : Z * Z :=
  let d := JSDate.Day t in
  (d - JSDate.WeekDay t, d - JSDate.WeekDay t + 6).

Definition monthDays (t : Z) : Z * Z :=
  let d := JSDate.Day t in
  let y := JSDate.YearFromDay d in
  let m := JSDate.MonthFromDay d in
  (JSDate.MakeDay y m 1, JSDate.MakeDay y m (JSDate.DaysInMonth y m)).

(** The expense is dated on one of the days from [fst days] to
    [snd days]. *)
Definition datedIn (days : Z * Z) (x : Expense) : bool :=
  match JSDate.parseDate (date x) with
  | Some d => (fst days <=? JSDate.Day d) && (JSDate.Day d <=? snd days)
  | None => false
  end.

(** The matching prior spend: the amounts of the stored expenses of the
    user, category and currency of [e] that are dated on those days. *)
Definition priorSpend (db : Db) (e : Expense) (days : Z * Z) : Z :=
  sumZ (map amount
            (filter (fun x => sameKey e x && datedIn days x) (expenses db))).

(** The two aggregate queries for [e], dated at the instant [t], select
    among the stored rows exactly the matching expenses of its week and of
    its month. *)
Definition querySelects (tza : Z) (db : Db) (e : Expense) (t : Z) : Prop :=
  forall x, In x (expenses db) ->
    inWindow (userId e) (category e)
             (JSDate.toISOString (fst (weekBounds tza t)))
             (JSDate.toISOString (snd (weekBounds tza t))) (currency e) x
    = sameKey e x && datedIn (weekDays t) x
    /\ inWindow (userId e) (category e)
                (JSDate.toISOString (fst (monthBounds tza t)))
                (JSDate.toISOString (snd (monthBounds tza t))) (currency e) x
       = sameKey e x && datedIn (monthDays t) x.

(** The amounts that the check adds are whole units and stay below 10^13
    units: the additions of the code, on binary floating point numbers, are
    exact on them, and every number is printed with all its digits. *)
Definition wholeUnits (db : Db) (e : Expense) : Prop :=
  (forall x, In x (e :: expenses db) -> sameKey e x = true ->
             (100 | amount x))
  /\ sumZ (map (fun x => Z.abs (amount x))
               (filter (sameKey e) (e :: expenses db))) < 10 ^ 15.

(** A limit of at most 15 digits, which is printed as it is written. *)
Definition plainLimit (l : option Z) : Prop :=
  match l with
  | Some v => Z.abs v < 10 ^ 15
  | None => True
  end.

End Spec.

Module Examples.

Import Server Client.

(** A server on UTC and one five and a half hours east of it. *)
Definition utc : Z := 0.
Definition ist : Z := 19800000.

(** A server five hours west of UTC. *)
Definition west : Z := -18000000.

(** 6 March 2024, 10:00:00 UTC. *)
Definition now0 : Z := 1709719200000.

Definition uuidOf (k : nat) : string :=
  match k with
  | O => "id-0"
  | S O => "id-1"
  | S (S O) => "id-2"
  | _ => "id-3"
  end.

Definition plainFormat (h : Z) (cur : string) : string :=
  (cur ++ " " ++ Text.toFixed2 h)%string.

(** Scenario B of the specification: 9800.00 INR of travel on the first of
    March, then 500.00 INR on the fifth. *)
Definition priorTravel : Expense :=
  mkExpense "e1" "u1" 980000 "INR" "2024-03-01" "Travelling"
            "Flight to Pune" None "pending" None "2024-03-01T09:00:00.000Z".

Definition dbB : Db := mkDb [priorTravel] defaultPolicies.

Definition bodyB : ExpenseBody :=
  mkBody (Some "e2") (Some "u1") (Some 50000) (Some "INR")
         (Some "2024-03-05") (Some "Travelling") (Some "Taxi to airport")
         None None None None.

(** A weekly limit of zero next to a monthly limit of 1.00, which the
    policy page stores when the monthly limit is set to 1. *)
Definition zeroWeekly : Policy :=
  mkPolicy "Travelling" None None (Some 0) (Some 100) "Transport" "INR".

Definition dbZero : Db := mkDb [] [zeroWeekly].

Definition smallTaxi : Expense :=
  mkExpense "e3" "u1" 50 "INR" "2024-03-05" "Travelling" "Bus ticket"
            None "" None "2024-03-05T09:00:00.000Z".

(** A request with a negative amount. *)
Definition bodyNegative : ExpenseBody :=
  mkBody (Some "e4") (Some "u1") (Some (-50000)) (Some "INR")
         (Some "2024-03-05") (Some "Travelling") (Some "Taxi refund")
         None None None None.

Definition dbEmpty : Db := mkDb [] defaultPolicies.

(** An unremarkable expense whose description mentions cash. *)
Definition cashTaxi : NewExpense :=
  mkNew "u1" 10000 "INR" "2024-03-05" "Travelling" "cash for the taxi"
        None None "pending".

Definition employee : User := mkUser "u1" "employee".

Definition manager : User := mkUser "m1" "manager".

(** The travel policy as edited on the policy page, monthly limit 1.00. *)
Definition editedTravel : Policy :=
  mkPolicy "Travelling" None None (Some 250000) (Some 100) "Transport" "INR".

Definition pendingRow : Expense :=
  mkExpense "e5" "u1" 300000 "INR" "2024-03-05" "Travelling"
            "Train to Delhi" None "pending" None "2024-03-05T09:00:00.000Z".

Definition dbPending : Db := mkDb [pendingRow] defaultPolicies.

Definition generousTravel : Policy :=
  mkPolicy "Travelling" None None (Some 99999900) (Some 99999900)
           "Anything goes" "INR".

Definition mixedRows : Db :=
  mkDb [pendingRow;
        Client.withStatus pendingRow "flagged";
        Client.withStatus pendingRow "approved"] defaultPolicies.

Definition formZero : FormState :=
  mkForm 0 "INR" "2024-03-05" "Travelling" "Taxi to airport" None None.

End Examples.

(** ** Vocabulary and inputs of the further properties *)

Module Terms.

(** *** Expenses *)

(** The status that the policy check decides, when it does not throw. *)
Definition decision (tza : Z) (db : Server.Db) (e : Server.Expense)
  : option string :=
  match Server.checkPolicy tza db e with
  | Normal d => Some (fst d)
  | Throw _ => None
  end.

Definition withAmount (e : Server.Expense) (a : Z) : Server.Expense :=
  Server.mkExpense (Server.id e) (Server.userId e) a (Server.currency e)
                   (Server.date e) (Server.category e) (Server.description e)
                   (Server.receiptImage e) (Server.status e) (Server.notes e)
                   (Server.createdAt e).

(** The table of expenses with one more row at its end. *)
Definition withRow (db : Server.Db) (x : Server.Expense) : Server.Db :=
  Server.mkDb (Server.expenses db ++ [x])%list (Server.policies db).

(** The expenses of one of the six categories of the summary. *)
Definition inSummary (e : Server.Expense) : bool :=
  existsb (fun cat => (Server.category e =? cat)%string) Summaries.categories.

(** The amounts of a list of expenses added to 0 one after the other, in
    the order of the list. *)
Definition addedUp {Num : Type} (number : Z -> Num)
    (plus : Num -> Num -> Num) (l : list Server.Expense) : Num :=
  fold_left (fun sum e => plus sum (number (Server.amount e))) l (number 0).

(** The expenses of one user. *)
Definition ofUser (uid : string) (e : Server.Expense) : bool :=
  (Server.userId e =? uid)%string.

(** *** Accounts *)

(** The constraints of table [users]: ids, usernames and emails are
    pairwise distinct. *)
Definition keysUnique (users : list Accounts.UserRow) : Prop :=
  NoDup (map Accounts.ur_id users) /\ NoDup (map Accounts.username users)
  /\ NoDup (map Accounts.email users).

Definition notApproved : string :=
  "Your account has not been approved yet. Please contact your manager.".

(** *** Exchange rates *)

Import RateServer.

(** The columns under the UNIQUE constraint of table [conversion_rates]. *)
Definition rateKey (r : RateRow) : string * string * string :=
  (date_fetched r, from_currency r, to_currency r).

Definition ratesUnique (db : RateDb) : Prop := NoDup (map rateKey db).

(** Every stored rate is from INR or to INR. *)
Definition inrBased (db : RateDb) : Prop :=
  forall r, In r db -> from_currency r = "INR" \/ to_currency r = "INR".

(** The rows that a refresh appends on a day without rows. *)
Definition refreshRows (today : string) (external : Completion ApiRates)
  : list RateRow :=
  match external with
  | Normal rates =>
      (rowsFor today "USD" (api_USD rates) ++ rowsFor today "EUR" (api_EUR rates)
       ++ rowsFor today "GBP" (api_GBP rates) ++ [mkRate today "INR" "INR" 1])%list
  | Throw _ => fallbackRates today
  end.

(** The rates that the fallback of the converter can divide by. *)
Definition ratesUsable (rs : Currency.Rates) : Prop :=
  ~ Currency.rUSD rs == 0 /\ ~ Currency.rEUR rs == 0
  /\ ~ Currency.rGBP rs == 0 /\ Currency.rINR rs == 1.

(** *** Dates as text *)

(** The character of a decimal digit. *)
Definition digitChar (k : Z) : ascii := ascii_of_N (Z.to_N (48 + k)).

Definition twoDigits (n : Z) : string :=
  String (digitChar (n / 10)) (String (digitChar (n mod 10)) EmptyString).

Definition fourDigits (n : Z) : string :=
  String (digitChar (n / 1000))
    (String (digitChar ((n / 100) mod 10))
       (String (digitChar ((n / 10) mod 10))
          (String (digitChar (n mod 10)) EmptyString))).

(** Two renderings agree on the [count] numbers from [k] on. *)
Fixpoint agreeFrom (f g : Z -> string) (count : nat) (k : Z) : bool :=
  match count with
  | O => true
  | S count' => (f k =? g k)%string && agreeFrom f g count' (k + 1)
  end.

End Terms.

Module Cases.

(** A company with its manager, the sign-up of an employee and an edit of
    the manager's account. *)
Definition asha : Accounts.UserRow :=
  Accounts.mkUserRow "m1" "asha" "secret1" "Asha Rao" "asha@acme.in" "manager"
                     "Acme" 1 "INR".

Definition staff : list Accounts.UserRow := [asha].

Definition raviBody : Accounts.UserBody :=
  Accounts.mkUserBody (Some "u1") (Some "ravi") (Some "secret2")
                      (Some "Ravi Iyer") (Some "ravi@acme.in")
                      (Some "employee") (Some "Acme") None.

Definition ashaRenamed : Accounts.UserUpdate :=
  Accounts.mkUserUpdate "Asha R" "asha.rao" "asha.rao@acme.in" "manager" "Acme"
                        true "INR".

(** An answer of the rate service without a rate for GBP, and one hour
    after the instant [now0]. *)
Definition serviceRates : RateServer.ApiRates :=
  RateServer.mkApiRates (Some (12 # 1000)) (Some (11 # 1000)) None.

Definition anHourLater : Z := Examples.now0 + 3600000.

(** A browser that has cached nothing yet. *)
Definition coldCache : Currency.Cache := Currency.mkCache None 0.

(** The rates object when the server holds 0.0125 USD per INR only. *)
Definition usdOnly : RateServer.RateTable := [("INR", [("USD", 125 # 10000)])].

End Cases.

(** * Properties *)

(** ** Calendar arithmetic *)

Module JSDateFacts.

Import JSDate.

Ltac div_lia := Z.to_euclidean_division_equations; lia.

Ltac split_ifs :=
  repeat match goal with
         | |- context [if ?c then _ else _] => destruct c eqn:?
         end.

(** One case for each month [m], given [0 <= m <= 11] in the context. *)
Ltac each_month m :=
  let C := fresh "C" in
  assert (C : m = 0 \/ m = 1 \/ m = 2 \/ m = 3 \/ m = 4 \/ m = 5 \/ m = 6
              \/ m = 7 \/ m = 8 \/ m = 9 \/ m = 10 \/ m = 11) by lia;
  destruct C as
    [-> | [-> | [-> | [-> | [-> | [-> | [-> | [-> | [-> | [-> | [-> | ->]]]]]]]]]]].

Lemma DaysInYear_cases y : DaysInYear y = 365 \/ DaysInYear y = 366.
Proof.
  unfold DaysInYear.
  destruct ((y mod 4 =? 0) && (negb (y mod 100 =? 0) || (y mod 400 =? 0)));
    auto.
Qed.

Lemma InLeapYear_DaysInYear y : DaysInYear y = 365 + InLeapYear y.
Proof.
  unfold InLeapYear.
  destruct (DaysInYear_cases y) as [H | H]; rewrite H; reflexivity.
Qed.

Lemma InLeapYear_cases y : InLeapYear y = 0 \/ InLeapYear y = 1.
Proof.
  unfold InLeapYear. destruct (DaysInYear y =? 366); auto.
Qed.

Lemma DayFromYear_succ y : DayFromYear (y + 1) = DayFromYear y + DaysInYear y.
Proof.
  unfold DayFromYear, DaysInYear.
  destruct (y mod 4 =? 0) eqn:E4; destruct (y mod 100 =? 0) eqn:E100;
    destruct (y mod 400 =? 0) eqn:E400; cbn [andb orb negb];
    rewrite ?Z.eqb_eq, ?Z.eqb_neq in *; div_lia.
Qed.

Lemma DayFromYear_mono a b : a <= b -> DayFromYear a <= DayFromYear b.
Proof. intros H. unfold DayFromYear. div_lia. Qed.

(** [YearFromDay d] is the year whose days include [d]. *)
Lemma YearFromDay_spec d :
  DayFromYear (YearFromDay d) <= d < DayFromYear (YearFromDay d + 1).
Proof.
  unfold YearFromDay.
  set (y := 1970 + 400 * d / 146097).
  assert (Hlo : DayFromYear (y - 1) <= d) by (unfold DayFromYear, y; div_lia).
  assert (Hhi : d < DayFromYear (y + 2)) by (unfold DayFromYear, y; div_lia).
  destruct (d <? DayFromYear y) eqn:E1.
  - apply Z.ltb_lt in E1. replace (y - 1 + 1) with y by lia. lia.
  - apply Z.ltb_ge in E1.
    destruct (DayFromYear (y + 1) <=? d) eqn:E2.
    + apply Z.leb_le in E2. replace (y + 1 + 1) with (y + 2) by lia. lia.
    + apply Z.leb_gt in E2. lia.
Qed.

Lemma YearFromDay_unique d y :
  DayFromYear y <= d < DayFromYear (y + 1) -> YearFromDay d = y.
Proof.
  intros [H1 H2]. pose proof (YearFromDay_spec d) as [H3 H4].
  destruct (Z.lt_trichotomy (YearFromDay d) y) as [L | [E | G]]; [| exact E |].
  - pose proof (DayFromYear_mono (YearFromDay d + 1) y ltac:(lia)). lia.
  - pose proof (DayFromYear_mono (y + 1) (YearFromDay d) ltac:(lia)). lia.
Qed.

Lemma DayWithinYear_range d :
  0 <= DayWithinYear d < 365 + InLeapYear (YearFromDay d).
Proof.
  unfold DayWithinYear. pose proof (YearFromDay_spec d) as H.
  rewrite DayFromYear_succ, InLeapYear_DaysInYear in H. lia.
Qed.

Lemma MonthFromDay_range d : 0 <= MonthFromDay d <= 11.
Proof.
  unfold MonthFromDay.
  repeat match goal with |- context [if ?c then _ else _] => destruct c end;
    lia.
Qed.

(** A day of year [y], given by month and day of month, is read back as
    such. *)
Lemma fields_of_day y m k :
  0 <= m <= 11 -> 0 <= k < DaysInMonth y m ->
  let d := DayFromYear y + monthStart m (InLeapYear y) + k in
  YearFromDay d = y /\ MonthFromDay d = m /\ DateFromDay d = k + 1.
Proof.
  intros Hm Hk d.
  assert (Hy : YearFromDay d = y).
  { apply YearFromDay_unique. rewrite DayFromYear_succ, InLeapYear_DaysInYear.
    subst d. destruct (InLeapYear_cases y) as [L | L];
    each_month m; unfold DaysInMonth in Hk; rewrite L in *; cbn in Hk |- *; lia. }
  assert (Hdy : DayWithinYear d = monthStart m (InLeapYear y) + k).
  { unfold DayWithinYear. rewrite Hy. subst d. lia. }
  assert (Hmo : MonthFromDay d = m).
  { unfold MonthFromDay. rewrite Hdy, Hy.
    destruct (InLeapYear_cases y) as [L | L];
    each_month m; unfold DaysInMonth in Hk; rewrite L in *; cbn in Hk;
      cbn [monthStart Z.leb Z.eqb Z.compare Pos.compare Pos.compare_cont Pos.eqb];
      split_ifs; lia. }
  split; [exact Hy | split; [exact Hmo |]].
  unfold DateFromDay. rewrite Hmo, Hy, Hdy. lia.
Qed.

(** Rebuilding a day from its own year and month, with another day of
    month. *)
Lemma MakeDay_same_month d dt :
  MakeDay (YearFromDay d) (MonthFromDay d) dt = d - DateFromDay d + dt.
Proof.
  unfold MakeDay, DateFromDay, DayWithinYear.
  pose proof (MonthFromDay_range d) as Hm.
  rewrite Z.div_small, Z.mod_small by lia.
  rewrite Z.add_0_r. lia.
Qed.

Lemma Day_MakeDate day time :
  0 <= time < msPerDay ->
  Day (MakeDate day time) = day /\ TimeWithinDay (MakeDate day time) = time.
Proof.
  unfold Day, TimeWithinDay, MakeDate, msPerDay. intros H. div_lia.
Qed.

Lemma TimeWithinDay_range t : 0 <= TimeWithinDay t < msPerDay.
Proof. unfold TimeWithinDay, msPerDay. div_lia. Qed.

Lemma Local_UTC tza t : LocalTime tza (UTC tza t) = t.
Proof. unfold LocalTime, UTC. lia. Qed.

Lemma setDate_local tza t dt :
  Day (LocalTime tza (setDate tza t dt))
  = Day (LocalTime tza t) - getDate tza t + dt
  /\ TimeWithinDay (LocalTime tza (setDate tza t dt))
     = TimeWithinDay (LocalTime tza t).
Proof.
  unfold setDate, getDate. cbv zeta. rewrite Local_UTC, MakeDay_same_month.
  apply Day_MakeDate, TimeWithinDay_range.
Qed.

Lemma setHours_local tza t h m s ms :
  0 <= MakeTime h m s ms < msPerDay ->
  Day (LocalTime tza (setHours tza t h m s ms)) = Day (LocalTime tza t)
  /\ TimeWithinDay (LocalTime tza (setHours tza t h m s ms)) = MakeTime h m s ms.
Proof.
  intros H. unfold setHours. cbv zeta. rewrite Local_UTC.
  apply Day_MakeDate, H.
Qed.

End JSDateFacts.

(** ** The aggregation windows *)

Module WindowFacts.

Import JSDate JSDateFacts Server Examples.

Lemma local_split x : x = MakeDate (Day x) (TimeWithinDay x).
Proof. unfold MakeDate, Day, TimeWithinDay, msPerDay. div_lia. Qed.

Lemma DaysInMonth_pos y m : 28 <= DaysInMonth y m <= 31.
Proof.
  unfold DaysInMonth. destruct (InLeapYear_cases y) as [L | L]; rewrite L.
  all: split_ifs; lia.
Qed.

Lemma MakeDay_first y m :
  0 <= m <= 11 ->
  MakeDay y m 1 = DayFromYear y + monthStart m (InLeapYear y) + 0.
Proof.
  intros Hm. unfold MakeDay. rewrite Z.div_small, Z.mod_small by lia.
  replace (y + 0) with y by lia. lia.
Qed.

(** Day 0 of the next month is the last day of this one. *)
Lemma MakeDay_last y m :
  0 <= m <= 11 ->
  MakeDay y (m + 1) 0
  = DayFromYear y + monthStart m (InLeapYear y) + (DaysInMonth y m - 1).
Proof.
  intros Hm. unfold MakeDay.
  destruct (Z.eq_dec m 11) as [-> | Hne].
  - change ((11 + 1) / 12) with 1. change ((11 + 1) mod 12) with 0.
    change (monthStart 0 (InLeapYear (y + 1))) with 0.
    rewrite DayFromYear_succ, InLeapYear_DaysInYear.
    destruct (InLeapYear_cases y) as [L | L]; rewrite L; cbn; lia.
  - rewrite Z.div_small, Z.mod_small by lia.
    replace (y + 0) with y by lia.
    destruct (InLeapYear_cases y) as [L | L];
      each_month m; try lia; unfold DaysInMonth; rewrite L; cbn; lia.
Qed.

Lemma MakeFullYear_id y : y < 0 \/ 99 < y -> MakeFullYear y = y.
Proof.
  intros H. unfold MakeFullYear.
  destruct (0 <=? y) eqn:E1; destruct (y <=? 99) eqn:E2; cbn; try reflexivity.
  apply Z.leb_le in E1, E2. lia.
Qed.

(** The week bounds, in local time: the start is the Sunday on or before
    the expense date at 00:00:00.000, the end is six days later at
    23:59:59.999. *)
Lemma weekBounds_local tza t :
  let d := Day (LocalTime tza t) in
  LocalTime tza (fst (weekBounds tza t))
  = MakeDate (d - WeekDay (LocalTime tza t)) 0
  /\ LocalTime tza (snd (weekBounds tza t))
     = MakeDate (d - WeekDay (LocalTime tza t) + 6) (MakeTime 23 59 59 999).
Proof.
  intros d. unfold weekBounds. cbv zeta. cbn [fst snd].
  set (s1 := setDate tza t (getDate tza t - getDay tza t)).
  set (s := setHours tza s1 0 0 0 0).
  destruct (setDate_local tza t (getDate tza t - getDay tza t)) as [D1 _].
  fold s1 in D1.
  destruct (setHours_local tza s1 0 0 0 0) as [D2 T2];
    [unfold MakeTime, msPerDay; cbn; lia |].
  fold s in D2, T2.
  assert (Ds : Day (LocalTime tza s) = d - WeekDay (LocalTime tza t)).
  { rewrite D2, D1. unfold getDay. subst d. lia. }
  split.
  - rewrite (local_split (LocalTime tza s)), Ds, T2. reflexivity.
  - set (e1 := setDate tza s (getDate tza s + 6)).
    destruct (setDate_local tza s (getDate tza s + 6)) as [D3 _].
    fold e1 in D3.
    destruct (setHours_local tza e1 23 59 59 999) as [D4 T4];
      [unfold MakeTime, msPerDay, msPerHour, msPerMinute, msPerSecond; lia |].
    rewrite (local_split (LocalTime tza (setHours tza e1 23 59 59 999))).
    rewrite D4, T4, D3, Ds. f_equal. lia.
Qed.

Lemma monthBounds_local tza t :
  getFullYear tza t < 0 \/ 99 < getFullYear tza t ->
  let y := getFullYear tza t in
  let m := getMonth tza t in
  LocalTime tza (fst (monthBounds tza t))
  = MakeDate (DayFromYear y + monthStart m (InLeapYear y) + 0) 0
  /\ LocalTime tza (snd (monthBounds tza t))
     = MakeDate (DayFromYear y + monthStart m (InLeapYear y)
                 + (DaysInMonth y m - 1)) (MakeTime 23 59 59 0).
Proof.
  intros Hy y m. unfold monthBounds, newDate. cbv zeta. cbn [fst snd].
  fold y m. rewrite !Local_UTC, (MakeFullYear_id y Hy).
  pose proof (MonthFromDay_range (Day (LocalTime tza t))) as Hm.
  fold (getMonth tza t) in Hm. fold m in Hm.
  rewrite (MakeDay_first y m Hm), (MakeDay_last y m Hm).
  split; reflexivity.
Qed.

Lemma month_of_day d :
  let y := YearFromDay d in
  let m := MonthFromDay d in
  DayFromYear y + monthStart m (InLeapYear y) <= d
  /\ d <= DayFromYear y + monthStart m (InLeapYear y) + (DaysInMonth y m - 1).
Proof.
  intros y m. pose proof (DayWithinYear_range d) as R.
  unfold DayWithinYear in R. fold y in R.
  subst m. unfold MonthFromDay, DayWithinYear. fold y.
  destruct (InLeapYear_cases y) as [L | L]; rewrite L in *;
    unfold DaysInMonth; rewrite L;
    split_ifs; cbn [monthStart Z.leb Z.eqb Z.compare Pos.compare
                    Pos.compare_cont Pos.eqb orb];
    lia.
Qed.

Lemma time_0_range : 0 <= 0 < msPerDay.
Proof. unfold msPerDay. lia. Qed.

Lemma time_end_range ms : 0 <= ms <= 999 -> 0 <= MakeTime 23 59 59 ms < msPerDay.
Proof.
  unfold MakeTime, msPerDay, msPerHour, msPerMinute, msPerSecond. lia.
Qed.

Lemma weekday_of_start d : (d - (d + 4) mod 7 + 4) mod 7 = 0.
Proof. div_lia. Qed.

Lemma weekday_of_end d : (d - (d + 4) mod 7 + 6 + 4) mod 7 = 6.
Proof. div_lia. Qed.

Lemma start_le_instant l : MakeDate (Day l - WeekDay l) 0 <= l.
Proof. unfold MakeDate, Day, WeekDay, Day, msPerDay. div_lia. Qed.

Lemma instant_le_end l :
  l <= MakeDate (Day l - WeekDay l + 6) (MakeTime 23 59 59 999).
Proof.
  unfold MakeDate, Day, WeekDay, Day, MakeTime, msPerDay, msPerHour,
    msPerMinute, msPerSecond.
  div_lia.
Qed.

Lemma week_window tza t :
  getDay tza (fst (weekBounds tza t)) = 0
  /\ TimeWithinDay (LocalTime tza (fst (weekBounds tza t))) = 0
  /\ getDay tza (snd (weekBounds tza t)) = 6
  /\ TimeWithinDay (LocalTime tza (snd (weekBounds tza t)))
     = MakeTime 23 59 59 999
  /\ Day (LocalTime tza (snd (weekBounds tza t)))
     = Day (LocalTime tza (fst (weekBounds tza t))) + 6
  /\ fst (weekBounds tza t) <= t <= snd (weekBounds tza t).
Proof.
  destruct (weekBounds_local tza t) as [Hs He]. cbv zeta in Hs, He.
  generalize dependent (weekBounds tza t). intros w Hs He.
  set (l := LocalTime tza t) in *.
  destruct (Day_MakeDate (Day l - WeekDay l) 0 time_0_range) as [Ds Ts].
  destruct (Day_MakeDate (Day l - WeekDay l + 6) _
              (time_end_range 999 ltac:(lia))) as [De Te].
  rewrite <- Hs in Ds, Ts. rewrite <- He in De, Te.
  split; [| split; [exact Ts | split; [| split; [exact Te | split]]]].
  - unfold getDay. unfold WeekDay at 1. rewrite Ds. apply weekday_of_start.
  - unfold getDay. unfold WeekDay at 1. rewrite De. apply weekday_of_end.
  - rewrite De, Ds. reflexivity.
  - pose proof (start_le_instant l) as H1. rewrite <- Hs in H1.
    pose proof (instant_le_end l) as H2. rewrite <- He in H2.
    subst l. unfold LocalTime in H1, H2. lia.
Qed.

Lemma month_window tza t :
  getFullYear tza t < 0 \/ 99 < getFullYear tza t ->
  getFullYear tza (fst (monthBounds tza t)) = getFullYear tza t
  /\ getMonth tza (fst (monthBounds tza t)) = getMonth tza t
  /\ getDate tza (fst (monthBounds tza t)) = 1
  /\ TimeWithinDay (LocalTime tza (fst (monthBounds tza t))) = 0
  /\ getFullYear tza (snd (monthBounds tza t)) = getFullYear tza t
  /\ getMonth tza (snd (monthBounds tza t)) = getMonth tza t
  /\ getDate tza (snd (monthBounds tza t))
     = DaysInMonth (getFullYear tza t) (getMonth tza t)
  /\ TimeWithinDay (LocalTime tza (snd (monthBounds tza t)))
     = MakeTime 23 59 59 0
  /\ Day (LocalTime tza (fst (monthBounds tza t))) <= Day (LocalTime tza t)
     <= Day (LocalTime tza (snd (monthBounds tza t))).
Proof.
  intros Hy. destruct (monthBounds_local tza t Hy) as [Hs He].
  cbv zeta in Hs, He.
  generalize dependent (monthBounds tza t). intros m Hs He.
  pose proof (MonthFromDay_range (Day (LocalTime tza t))) as Hm.
  pose proof (month_of_day (Day (LocalTime tza t))) as Hd. cbv zeta in Hd.
  unfold getFullYear, getMonth, getDate in *.
  generalize dependent (MonthFromDay (Day (LocalTime tza t))).
  generalize dependent (YearFromDay (Day (LocalTime tza t))).
  generalize dependent (Day (LocalTime tza t)).
  intros d y Hy mo Hs He Hm Hd.
  pose proof (DaysInMonth_pos y mo) as Hp.
  destruct (Day_MakeDate (DayFromYear y + monthStart mo (InLeapYear y) + 0)
              0 time_0_range) as [Ds Ts].
  destruct (Day_MakeDate
              (DayFromYear y + monthStart mo (InLeapYear y)
               + (DaysInMonth y mo - 1)) _ (time_end_range 0 ltac:(lia)))
    as [De Te].
  rewrite <- Hs in Ds, Ts. rewrite <- He in De, Te.
  destruct (fields_of_day y mo 0 Hm ltac:(lia)) as (F1 & F2 & F3).
  destruct (fields_of_day y mo (DaysInMonth y mo - 1) Hm ltac:(lia))
    as (L1 & L2 & L3).
  cbv zeta in F1, F2, F3, L1, L2, L3.
  rewrite Ds, De.
  repeat split; try assumption; lia.
Qed.

(** On a server at or east of UTC, the local calendar day of the instant
    that a date-only string denotes is the day that is written. *)
Lemma written_day tza y m d t :
  dateOfFields y m d = Some t ->
  0 <= tza < msPerDay ->
  getFullYear tza t = y /\ getMonth tza t = m - 1 /\ getDate tza t = d.
Proof.
  unfold dateOfFields. intros H Hz.
  destruct ((1 <=? m) && (m <=? 12) && (1 <=? d)
            && (d <=? DaysInMonth y (m - 1))) eqn:E; [| discriminate].
  injection H as <-.
  rewrite !andb_true_iff, !Z.leb_le in E. destruct E as [[[M1 M2] D1] D2].
  assert (Hm : 0 <= m - 1 <= 11) by lia.
  assert (Hday : Day (LocalTime tza (MakeDate (MakeDay y (m - 1) d) 0))
                 = DayFromYear y + monthStart (m - 1) (InLeapYear y) + (d - 1)).
  { unfold MakeDay. rewrite Z.div_small, Z.mod_small by lia.
    replace (y + 0) with y by lia.
    unfold LocalTime, MakeDate, Day, msPerDay in *. div_lia. }
  unfold getFullYear, getMonth, getDate. rewrite Hday.
  destruct (fields_of_day y (m - 1) (d - 1) Hm ltac:(lia)) as (F1 & F2 & F3).
  cbv zeta in F1, F2, F3. rewrite F1, F2, F3. repeat split; lia.
Qed.

(** The windows around the local day of an instant.  The weekly window runs
    from Sunday 00:00:00 to the following Saturday 23:59:59 (.999) of the
    week that contains the local day of [t], and the monthly window from the
    first day 00:00:00 to the last day 23:59:59 of the month that contains
    it (outside the years 0 to 99, which the [Date] constructor maps to
    1900-1999).  The local day of [t] is the day that the expense date
    writes only on a server at or east of UTC. *)
Theorem aggregation_windows (tza t : Z) :
  let w := weekBounds tza t in
  let m := monthBounds tza t in
  (getDay tza (fst w) = 0
   /\ TimeWithinDay (LocalTime tza (fst w)) = 0
   /\ getDay tza (snd w) = 6
   /\ TimeWithinDay (LocalTime tza (snd w)) = MakeTime 23 59 59 999
   /\ Day (LocalTime tza (snd w)) = Day (LocalTime tza (fst w)) + 6
   /\ fst w <= t <= snd w)
  /\ (getFullYear tza t < 0 \/ 99 < getFullYear tza t ->
      getFullYear tza (fst m) = getFullYear tza t
      /\ getMonth tza (fst m) = getMonth tza t
      /\ getDate tza (fst m) = 1
      /\ TimeWithinDay (LocalTime tza (fst m)) = 0
      /\ getFullYear tza (snd m) = getFullYear tza t
      /\ getMonth tza (snd m) = getMonth tza t
      /\ getDate tza (snd m) = DaysInMonth (getFullYear tza t) (getMonth tza t)
      /\ TimeWithinDay (LocalTime tza (snd m)) = MakeTime 23 59 59 0
      /\ Day (LocalTime tza (fst m)) <= Day (LocalTime tza t)
         <= Day (LocalTime tza (snd m)))
  /\ (forall y mo d,
         dateOfFields y mo d = Some t -> 0 <= tza < msPerDay ->
         getFullYear tza t = y /\ getMonth tza t = mo - 1
         /\ getDate tza t = d).
Proof.
  intros w m. split; [| split].
  - exact (week_window tza t).
  - exact (month_window tza t).
  - intros y mo d. exact (written_day tza y mo d t).
Qed.

(** The theorem at 11 March 2024 on a server five and a half hours east of
    UTC. *)
Lemma aggregation_windows_witness :
  99 < getFullYear 19800000 1710115200000
  /\ getDay 19800000 (fst (weekBounds 19800000 1710115200000)) = 0
  /\ getDate 19800000 (fst (monthBounds 19800000 1710115200000)) = 1
  /\ getDate 19800000 (snd (monthBounds 19800000 1710115200000)) = 31.
Proof.
  assert (Hy : 99 < getFullYear 19800000 1710115200000)
    by (vm_compute; reflexivity).
  destruct (aggregation_windows 19800000 1710115200000) as (Hw & Hm & _).
  destruct Hw as (W1 & _).
  destruct (Hm (or_intror Hy)) as (_ & _ & M3 & _ & _ & _ & M7 & _).
  split; [exact Hy |].
  split; [exact W1 |].
  split; [exact M3 |].
  rewrite M7. vm_compute. reflexivity.
Defined.

(** C4, at an input where the code departs from it.  On a server five hours
    west of UTC the expense date 2024-03-03, a Sunday, is read as the
    instant Saturday 2 March 19:00 local time: the weekly window of the
    code runs from Sunday 25 February 00:00:00 to Saturday 2 March
    23:59:59.999, the week before the one that contains the date.  The
    expense date 2024-03-01 is read as 29 February 19:00, and its monthly
    window runs from 1 to 29 February.  Five and a half hours east of UTC
    the same dates get the week from 3 to 9 March and the month of March. *)
Theorem written_date_in_earlier_window :
  parseDate "2024-03-03" = Some 1709424000000
  /\ WeekDay 1709424000000 = 0
  /\ (let w := weekBounds west 1709424000000 in
      getDay west 1709424000000 = 6
      /\ toISOString (fst w) = "2024-02-25T05:00:00.000Z"
      /\ toISOString (snd w) = "2024-03-03T04:59:59.999Z"
      /\ (getMonth west (fst w), getDate west (fst w)) = (1, 25)
      /\ (getMonth west (snd w), getDate west (snd w)) = (2, 2))
  /\ parseDate "2024-03-01" = Some 1709251200000
  /\ (let m := monthBounds west 1709251200000 in
      toISOString (fst m) = "2024-02-01T05:00:00.000Z"
      /\ toISOString (snd m) = "2024-03-01T04:59:59.000Z"
      /\ (getMonth west (fst m), getDate west (fst m)) = (1, 1)
      /\ (getMonth west (snd m), getDate west (snd m)) = (1, 29))
  /\ (let w := weekBounds ist 1709424000000 in
      let m := monthBounds ist 1709251200000 in
      (getMonth ist (fst w), getDate ist (fst w)) = (2, 3)
      /\ (getMonth ist (snd w), getDate ist (snd w)) = (2, 9)
      /\ (getMonth ist (fst m), getDate ist (fst m)) = (2, 1)
      /\ (getMonth ist (snd m), getDate ist (snd m)) = (2, 31)).
Proof.
  cbv zeta. repeat split; vm_compute; reflexivity.
Qed.

End WindowFacts.

(** ** The policy decision *)

Module PolicyFacts.

Import Text JSDate Server Spec Examples.

Lemma fold_left_add (m : list Z) (acc : Z) :
  fold_left Z.add m acc = acc + sumZ m.
Proof.
  unfold sumZ. revert acc.
  induction m as [| x m IH]; intros acc; cbn [fold_left fold_right]; [lia |].
  rewrite IH. lia.
Qed.

Lemma sqlSum_sumZ l : orZero (sqlSum l) = sumZ l.
Proof.
  destruct l as [| a l]; [reflexivity |].
  unfold sqlSum, orZero. rewrite fold_left_add. reflexivity.
Qed.

Lemma exceeds_false_within l total : exceeds l total = false <-> within l total.
Proof.
  unfold exceeds, within, unsetOrZero, truthyN, orZero.
  destruct l as [v |].
  - destruct (Z.eqb_spec v 0) as [-> | Hv]; cbn.
    + split; auto.
    + rewrite Z.ltb_ge. split.
      * intros H. right. exists v. auto.
      * intros [[H | H] | (w & H & Hw)]; try discriminate.
        -- injection H as ->. contradiction.
        -- injection H as ->. exact Hw.
  - cbn. split; auto.
Qed.

Lemma exceeds_true_not_within l total :
  exceeds l total = true <-> ~ within l total.
Proof.
  rewrite <- exceeds_false_within. destruct (exceeds l total); split;
    congruence.
Qed.

Lemma exceeds_true_limit l total :
  exceeds l total = true -> exists v, l = Some v /\ v <> 0 /\ v < total.
Proof.
  unfold exceeds, truthyN, orZero. destruct l as [v |]; [| discriminate].
  destruct (Z.eqb_spec v 0); cbn; [discriminate |].
  rewrite Z.ltb_lt. eauto.
Qed.

(** The prior spend of each check is the plain sum over the selected rows,
    0 when there is none. *)
Lemma weeklyTotalOf_sum tza db e t :
  weeklyTotalOf tza db e t
  = sumZ (map amount
            (filter (inWindow (userId e) (category e)
                       (toISOString (fst (weekBounds tza t)))
                       (toISOString (snd (weekBounds tza t))) (currency e))
                    (expenses db)))
    + amount e.
Proof.
  unfold weeklyTotalOf. destruct (weekBounds tza t) as [s f].
  unfold totalAmount. rewrite sqlSum_sumZ. reflexivity.
Qed.

Lemma monthlyTotalOf_sum tza db e t :
  monthlyTotalOf tza db e t
  = sumZ (map amount
            (filter (inWindow (userId e) (category e)
                       (toISOString (fst (monthBounds tza t)))
                       (toISOString (snd (monthBounds tza t))) (currency e))
                    (expenses db)))
    + amount e.
Proof.
  unfold monthlyTotalOf. destruct (monthBounds tza t) as [s f].
  unfold totalAmount. rewrite sqlSum_sumZ. reflexivity.
Qed.

(** With a policy for the category, the decision follows the two totals
    that the queries give: [approved] exactly when each passes its limit, a
    limit that is unset or zero being skipped. *)
Lemma decision_of_totals (tza : Z) (db : Db) (e : Expense) (policy : Policy)
    (t : Z) :
  getPolicy db (category e) = Some policy ->
  parseDate (date e) = Some t ->
  let wt := weeklyTotalOf tza db e t in
  let mt := monthlyTotalOf tza db e t in
  exists st n,
    checkPolicy tza db e = Normal (st, n)
    /\ (st = "approved"
        <-> within (weeklyLimit policy) wt /\ within (monthlyLimit policy) mt)
    /\ (st = "approved" \/ st = "pending")
    /\ (st = "approved" -> n = notes e)
    /\ (~ within (weeklyLimit policy) wt ->
        exists v, weeklyLimit policy = Some v /\ v < wt
          /\ n = Some (appendNote (notes e)
                         ("Exceeds weekly limit of " ++ numToString v ++ " "
                          ++ p_currency policy ++ " (weekly total: "
                          ++ toFixed2 wt ++ ")")))
    /\ (within (weeklyLimit policy) wt -> ~ within (monthlyLimit policy) mt ->
        exists v, monthlyLimit policy = Some v /\ v < mt
          /\ n = Some (appendNote (notes e)
                         ("Exceeds monthly limit of " ++ numToString v ++ " "
                          ++ p_currency policy ++ " (monthly total: "
                          ++ toFixed2 mt ++ ")"))).
Proof.
  intros Hp Hd wt mt.
  unfold checkPolicy. rewrite Hp, Hd.
  fold wt mt.
  destruct (exceeds (weeklyLimit policy) wt) eqn:Ew;
    destruct (exceeds (monthlyLimit policy) mt) eqn:Em; cbn [negb andb].
  - apply exceeds_true_not_within in Ew as Nw.
    destruct (exceeds_true_limit _ _ Ew) as (v & Hv & _ & Hlt).
    eexists _, _. split; [reflexivity |].
    repeat split; try tauto; try discriminate; auto.
    intros _. exists v. unfold weeklyMessage, showLimit. rewrite Hv. auto.
  - apply exceeds_true_not_within in Ew as Nw.
    destruct (exceeds_true_limit _ _ Ew) as (v & Hv & _ & Hlt).
    eexists _, _. split; [reflexivity |].
    repeat split; try tauto; try discriminate; auto.
    intros _. exists v. unfold weeklyMessage, showLimit. rewrite Hv. auto.
  - apply exceeds_false_within in Ew as Ww.
    apply exceeds_true_not_within in Em as Nm.
    destruct (exceeds_true_limit _ _ Em) as (v & Hv & _ & Hlt).
    eexists _, _. split; [reflexivity |].
    repeat split; try tauto; try discriminate; auto.
    intros _ _. exists v. unfold monthlyMessage, showLimit. rewrite Hv. auto.
  - apply exceeds_false_within in Ew as Ww.
    apply exceeds_false_within in Em as Wm.
    eexists _, _. split; [reflexivity |].
    repeat split; try tauto; auto.
Qed.

(** Where the queries select the matching expenses of the week and of the
    month, the totals of the code are the prior spend of the specification
    plus the new amount. *)
Lemma totals_of_selected_rows tza db e t :
  querySelects tza db e t ->
  weeklyTotalOf tza db e t = priorSpend db e (weekDays t) + amount e
  /\ monthlyTotalOf tza db e t = priorSpend db e (monthDays t) + amount e.
Proof.
  intros Hq. rewrite weeklyTotalOf_sum, monthlyTotalOf_sum.
  unfold priorSpend. split; do 3 f_equal; apply filter_ext_in;
    intros x Hx; apply (Hq x Hx).
Qed.




End PolicyFacts.

(** ** Submission, aggregation and visibility on the server *)

Module ServerFacts.

Import Text JSDate Server Spec Examples.

Lemma id_storedRow e st n : id (storedRow e st n) = id e.
Proof. reflexivity. Qed.

Lemma postExpense_created tza now db b st n :
  missingFields b = false ->
  checkPolicy tza db (ofBody now b) = Normal (st, n) ->
  st <> "" ->
  existsb (fun x => (id x =? id (ofBody now b))%string) (expenses db) = false ->
  postExpense tza now db b
  = (Created (id (ofBody now b)) st
       (if (st =? "approved")%string
        then "Expense approved automatically (within policy limits)"
        else "Expense submitted for approval"),
     mkDb (expenses db ++ [storedRow (ofBody now b) st n]) (policies db)).
Proof.
  intros Hm Hc Hst Hid. unfold postExpense. rewrite Hm, Hc.
  cbn [bindC fst snd]. unfold insertExpense.
  assert (Ho : orElseS (Some st) "pending" = st).
  { unfold orElseS. destruct (String.eqb_spec st ""); congruence. }
  rewrite Ho, id_storedRow, Hid. reflexivity.
Qed.

(** C3. Without a policy for the category the decision is [pending], it
    adds no note (the notes are the submitted ones) and nothing is thrown;
    with an identifier that is not yet stored, the request is answered
    with 201 and the row is stored as pending. *)
Theorem no_policy_pending (tza now : Z) (db : Db) (b : ExpenseBody) :
  missingFields b = false ->
  getPolicy db (category (ofBody now b)) = None ->
  checkPolicy tza db (ofBody now b) = Normal ("pending", b_notes b)
  /\ (existsb (fun x => (id x =? id (ofBody now b))%string) (expenses db)
      = false ->
      postExpense tza now db b
      = (Created (id (ofBody now b)) "pending" "Expense submitted for approval",
         mkDb (expenses db
               ++ [storedRow (ofBody now b) "pending" (b_notes b)])
              (policies db))
      /\ status (storedRow (ofBody now b) "pending" (b_notes b)) = "pending"
      /\ notes (storedRow (ofBody now b) "pending" (b_notes b))
         = orNull (b_notes b)).
Proof.
  intros Hm Hp.
  assert (Hc : checkPolicy tza db (ofBody now b) = Normal ("pending", b_notes b)).
  { unfold checkPolicy. rewrite Hp. reflexivity. }
  split; [exact Hc |].
  intros Hid. split; [| split; reflexivity].
  rewrite (postExpense_created tza now db b "pending" (b_notes b) Hm Hc);
    [reflexivity | discriminate | exact Hid].
Qed.

(** The theorem on a request for a category that has no policy. *)
Lemma no_policy_pending_witness :
  fst (postExpense utc now0 dbEmpty
         (mkBody (Some "e9") (Some "u1") (Some 99900) (Some "INR")
                 (Some "2024-03-05") (Some "Training") (Some "Rocq course")
                 None None None None))
  = Created "e9" "pending" "Expense submitted for approval".
Proof.
  destruct (no_policy_pending utc now0 dbEmpty
              (mkBody (Some "e9") (Some "u1") (Some 99900) (Some "INR")
                      (Some "2024-03-05") (Some "Training")
                      (Some "Rocq course") None None None None)
              eq_refl eq_refl) as [_ H].
  destruct (H eq_refl) as [Hpost _]. rewrite Hpost. reflexivity.
Defined.

(** A text is smaller than any proper extension of it: a date-only text
    is below every timestamp of its own day. *)
Lemma extension_is_greater d rest :
  rest <> "" -> String.leb (d ++ rest) d = false.
Proof.
  intros Hr. unfold String.leb.
  induction d as [| a d IH]; cbn.
  - destruct rest; [congruence | reflexivity].
  - unfold Ascii.compare. rewrite N.compare_refl. exact IH.
Qed.

(** A row dated on the day of the lower bound is not selected, unless the
    bound is that date-only text itself. *)
Lemma boundary_day_excluded uid cat hi cur e rest :
  rest <> "" -> inWindow uid cat (date e ++ rest) hi cur e = false.
Proof.
  intros Hr. unfold inWindow.
  rewrite (extension_is_greater (date e) rest Hr).
  rewrite !andb_false_r. reflexivity.
Qed.

(** C5, at the failing input.  On a server on UTC the expense of 9800.00
    dated 1 March 2024 has the user, category and currency of the new one
    and its date lies inside the monthly window, yet the query leaves it
    out: the date-only text is smaller than the ISO text of the first
    instant of the month.  The monthly total is 500.00, not 10300.00, and
    the new expense is approved.  (Five and a half hours east of UTC the
    lower bound is a text of the day before, and the same request is left
    pending on a total of 10300.00.) *)
Theorem first_day_not_counted :
  sameKey (ofBody now0 bodyB) priorTravel = true
  /\ parseDate (date priorTravel) = Some 1709251200000
  /\ parseDate (date (ofBody now0 bodyB)) = Some 1709596800000
  /\ fst (monthBounds utc 1709596800000) <= 1709251200000
     <= snd (monthBounds utc 1709596800000)
  /\ toISOString (fst (monthBounds utc 1709596800000))
     = "2024-03-01T00:00:00.000Z"
  /\ String.leb "2024-03-01T00:00:00.000Z" (date priorTravel) = false
  /\ monthlyTotalOf utc dbB (ofBody now0 bodyB) 1709596800000 = 50000
  /\ fst (postExpense utc now0 dbB bodyB)
     = Created "e2" "approved"
         "Expense approved automatically (within policy limits)"
  /\ monthlyTotalOf ist dbB (ofBody now0 bodyB) 1709596800000 = 1030000
  /\ fst (postExpense ist now0 dbB bodyB)
     = Created "e2" "pending" "Expense submitted for approval".
Proof.
  repeat split; try reflexivity; vm_compute; discriminate.
Qed.

(** C8, as stated, fails on the server: a request with amount -500.00
    passes the check of the required fields, is evaluated against the
    policy, approved and stored. *)
Lemma negative_amount_accepted :
  postExpense utc now0 dbEmpty bodyNegative
  = (Created "e4" "approved"
       "Expense approved automatically (within policy limits)",
     mkDb [mkExpense "e4" "u1" (-50000) "INR" "2024-03-05" "Travelling"
             "Taxi refund" None "approved" None "2024-03-06T10:00:00.000Z"]
          defaultPolicies).
Proof. vm_compute. reflexivity. Qed.

(** C10. A query with role [employee] returns exactly the user's rows
    whose status is approved, rejected or pending, hence none that is
    flagged; a query with role [manager] returns all rows of the user. *)
Theorem employee_sees_no_flagged (db : Db) (uid : string) :
  (forall e, In e (getUserExpenses db uid (Some "employee"))
             <-> In e (expenses db) /\ userId e = uid
                 /\ (status e = "approved" \/ status e = "rejected"
                     \/ status e = "pending"))
  /\ (forall e, In e (getUserExpenses db uid (Some "employee"))
                -> status e <> "flagged")
  /\ (forall e, In e (getUserExpenses db uid (Some "manager"))
                <-> In e (expenses db) /\ userId e = uid).
Proof.
  assert (V : forall e, employeeVisible e = true
                        <-> status e = "approved" \/ status e = "rejected"
                            \/ status e = "pending").
  { intros e. unfold employeeVisible.
    destruct (String.eqb_spec (status e) "approved") as [-> | Ha];
      [cbn; tauto |].
    destruct (String.eqb_spec (status e) "rejected") as [-> | Hr];
      [cbn; tauto |].
    destruct (String.eqb_spec (status e) "pending") as [-> | Hpe];
      [cbn; tauto |].
    cbn. split; [discriminate | tauto]. }
  assert (E : forall e, In e (getUserExpenses db uid (Some "employee"))
                        <-> In e (expenses db) /\ userId e = uid
                            /\ (status e = "approved" \/ status e = "rejected"
                                \/ status e = "pending")).
  { intros e. unfold getUserExpenses. cbn.
    rewrite filter_In, andb_true_iff, String.eqb_eq, V. tauto. }
  split; [exact E | split].
  - intros e He. apply E in He as (_ & _ & [H | [H | H]]); rewrite H;
      discriminate.
  - intros e. unfold getUserExpenses. cbn.
    rewrite filter_In, String.eqb_eq. tauto.
Qed.

(** The theorem on a table that holds a pending, a flagged and an approved
    expense of the user. *)
Lemma employee_sees_no_flagged_witness :
  map status (getUserExpenses mixedRows "u1" (Some "employee"))
  = ["pending"; "approved"]
  /\ map status (getUserExpenses mixedRows "u1" (Some "manager"))
     = ["pending"; "flagged"; "approved"]
  /\ forall e, In e (getUserExpenses mixedRows "u1" (Some "employee"))
               -> status e <> "flagged".
Proof.
  split; [reflexivity | split; [reflexivity |]].
  exact (proj1 (proj2 (employee_sees_no_flagged mixedRows "u1"))).
Defined.

End ServerFacts.

(** ** The client: fraud flag, form validation, manager-only actions *)

Module ClientFacts.

Import Text JSDate Server Client Spec Examples.

Lemma checkPolicy_status tza db e st n :
  checkPolicy tza db e = Normal (st, n) -> st = "approved" \/ st = "pending".
Proof.
  unfold checkPolicy. destruct (getPolicy db (category e)) as [p |].
  - destruct (parseDate (date e)) as [t |]; [| discriminate].
    destruct (negb (exceeds (weeklyLimit p) (weeklyTotalOf tza db e t))
              && negb (exceeds (monthlyLimit p) (monthlyTotalOf tza db e t)));
      intros H; injection H as <- _; auto.
  - intros H; injection H as <- _; auto.
Qed.

(** Whatever status a request carries, the status that the handler stores
    and answers is the one of the policy check. *)
Lemma post_status tza now db b i st m db' :
  postExpense tza now db b = (Created i st m, db') ->
  (st = "approved" \/ st = "pending")
  /\ exists row, expenses db' = (expenses db ++ [row])%list /\ status row = st.
Proof.
  unfold postExpense. destruct (missingFields b); [discriminate |].
  destruct (checkPolicy tza db (ofBody now b)) as [[st0 n0] | msg] eqn:Hc;
    cbn [bindC fst snd]; [| discriminate].
  apply checkPolicy_status in Hc.
  assert (Ho : orElseS (Some st0) "pending" = st0)
    by (destruct Hc as [-> | ->]; reflexivity).
  rewrite Ho. unfold insertExpense.
  destruct (existsb _ (expenses db)); cbn [bindC]; [discriminate |].
  intros H. injection H as _ <- _ <-. split; [exact Hc |].
  eexists. split; reflexivity.
Qed.

(** No request is stored as flagged: the handler overwrites the status
    that was submitted. *)
Lemma post_never_flagged tza now db b i st m db' :
  postExpense tza now db b = (Created i st m, db') ->
  st <> "flagged"
  /\ exists row, expenses db' = (expenses db ++ [row])%list
                 /\ status row <> "flagged".
Proof.
  intros H.
  destruct (post_status tza now db b i st m db' H) as [Hs (row & Hr & Hst)].
  split.
  - destruct Hs as [-> | ->]; discriminate.
  - exists row. split; [exact Hr |].
    rewrite Hst. destruct Hs as [-> | ->]; discriminate.
Qed.

(** C1, at the failing input.  The heuristic flags the expense for the
    word cash and the client sends status [flagged]; the server runs the
    weekly and the monthly check all the same and stores the expense as
    approved, while the client reports [flagged]. *)
Theorem fraud_flag_overwritten :
  detectFraud ist now0
    (mkExpense "id-0" "u1" 10000 "INR" "2024-03-05" "Travelling"
               "cash for the taxi" None "pending" None
               "2024-03-06T10:00:00.000Z")
  = (true, ["Description contains suspicious keyword: " ++ dquote ++ "cash"
            ++ dquote])
  /\ addExpense ist ist now0 "id-0" dbEmpty cashTaxi
     = (Normal (mkResult "id-0" "flagged" "Expense flagged for potential fraud"),
        mkDb [mkExpense "id-0" "u1" 10000 "INR" "2024-03-05" "Travelling"
                "cash for the taxi" None "approved" None
                "2024-03-06T10:00:00.000Z"]
             defaultPolicies)
  /\ fst (postExpense ist now0 dbEmpty
            (mkBody (Some "id-0") (Some "u1") (Some 10000) (Some "INR")
                    (Some "2024-03-05") (Some "Travelling")
                    (Some "cash for the taxi") None (Some "flagged") None
                    (Some "2024-03-06T10:00:00.000Z")))
     = Created "id-0" "approved"
         "Expense approved automatically (within policy limits)".
Proof. repeat split; vm_compute; reflexivity. Qed.

Section FormFacts.

Variable formatCurrency : Z -> string -> string.

Lemma validateForm_amount now pols f :
  f_amount f <= 0 ->
  err_amount (validateForm formatCurrency now pols f)
  = Some "Please enter a valid amount".
Proof.
  intros H. unfold validateForm. cbn [err_amount].
  apply Z.leb_le in H. rewrite H. reflexivity.
Qed.

Lemma handleSubmit_blocked tzaC tzaS now uuid user pols db f :
  f_amount f <= 0 ->
  handleSubmit formatCurrency tzaC tzaS now uuid user pols db f
  = (Blocked (validateForm formatCurrency now pols f), db).
Proof.
  intros H. unfold handleSubmit, hasBlockingErrors.
  rewrite (validateForm_amount now pols f H). reflexivity.
Qed.

End FormFacts.

Lemma missing_amount_rejected tza now db b :
  b_amount b = Some 0 \/ b_amount b = None ->
  postExpense tza now db b = (BadRequest "Missing required expense fields", db).
Proof.
  intros H. unfold postExpense.
  assert (M : missingFields b = true).
  { unfold missingFields.
    assert (T : truthyN (b_amount b) = false)
      by (destruct H as [-> | ->]; reflexivity).
    rewrite T. cbn. rewrite !orb_true_r. reflexivity. }
  rewrite M. reflexivity.
Qed.

(** C8, amended.  The server rejects a request whose amount is zero or
    missing with 400, before the policy check, and stores nothing; the
    form rejects an amount that is zero or negative before any request is
    sent. *)
Theorem nonpositive_amount_rejected :
  (forall tza now db b,
      b_amount b = Some 0 \/ b_amount b = None ->
      postExpense tza now db b
      = (BadRequest "Missing required expense fields", db))
  /\ (forall formatCurrency tzaC tzaS now uuid user pols db f,
         f_amount f <= 0 ->
         handleSubmit formatCurrency tzaC tzaS now uuid user pols db f
         = (Blocked (validateForm formatCurrency now pols f), db)
         /\ err_amount (validateForm formatCurrency now pols f)
            = Some "Please enter a valid amount").
Proof.
  split.
  - exact missing_amount_rejected.
  - intros. split.
    + apply handleSubmit_blocked. assumption.
    + apply validateForm_amount. assumption.
Qed.

(** The theorem on a request with amount 0 and on the form with amount 0. *)
Lemma nonpositive_amount_rejected_witness :
  postExpense utc now0 dbEmpty
    (mkBody (Some "e7") (Some "u1") (Some 0) (Some "INR") (Some "2024-03-05")
            (Some "Travelling") (Some "Taxi to airport") None None None None)
  = (BadRequest "Missing required expense fields", dbEmpty)
  /\ snd (handleSubmit plainFormat ist ist now0 uuidOf employee
            defaultPolicies dbEmpty formZero) = dbEmpty.
Proof.
  destruct nonpositive_amount_rejected as [Hs Hf]. split.
  - apply Hs. left. reflexivity.
  - destruct (Hf plainFormat ist ist now0 uuidOf employee defaultPolicies
                 dbEmpty formZero) as [H _].
    + cbn. lia.
    + rewrite H. reflexivity.
Defined.

(** A weekly limit of zero is what the policy page stores when a manager
    sets the monthly limit to 1.00. *)
Example policy_page_stores_zero_weekly :
  getPolicy (snd (handleSave (Some manager) defaultPolicies dbEmpty
                    (Some editedTravel))) "Travelling"
  = Some zeroWeekly.
Proof. reflexivity. Qed.

(** C9, as stated, fails: with an employee as current user the update of
    an expense and the update of a policy both succeed and change the
    stored rows. *)
Lemma employee_update_applied :
  isManager (Some employee) = false
  /\ updateExpense (Some employee) dbPending (withStatus pendingRow "approved")
     = (Normal tt, mkDb [withStatus pendingRow "approved"] defaultPolicies)
  /\ getPolicy (snd (updatePolicy (Some employee) dbPending generousTravel))
               "Travelling"
     = Some generousTravel
  /\ fst (updatePolicy (Some employee) dbPending generousTravel) = Normal tt.
Proof. repeat split; vm_compute; reflexivity. Qed.

(** After the PUT request of an expense, the row of that id holds the
    status of the body; after the one of a policy, the row of that category
    holds the monthly limit and the description of the body. *)
Lemma put_row_is_read (l : list Expense) (eid : string) (body old : Expense) :
  find (fun x => (id x =? eid)%string) l = Some old ->
  exists row,
    find (fun x => (id x =? eid)%string) (map (updateRow eid body) l)
    = Some row
    /\ status row = status body.
Proof.
  induction l as [| a l IH]; cbn [find map]; [discriminate |].
  destruct (id a =? eid)%string eqn:E.
  - intros _. exists (updateRow eid body a).
    unfold updateRow. rewrite E. cbn [id]. rewrite E. split; reflexivity.
  - unfold updateRow at 1. rewrite E, E. exact IH.
Qed.

Lemma put_policy_is_read (l : list Policy) (cat : string) (body old : Policy) :
  find (fun x => (p_category x =? cat)%string) l = Some old ->
  exists row,
    find (fun x => (p_category x =? cat)%string)
         (map (updatePolicyRow cat body) l) = Some row
    /\ monthlyLimit row = monthlyLimit body
    /\ p_description row = p_description body.
Proof.
  induction l as [| a l IH]; cbn [find map]; [discriminate |].
  destruct (p_category a =? cat)%string eqn:E.
  - intros _. exists (updatePolicyRow cat body a).
    unfold updatePolicyRow. rewrite E. cbn [p_category]. rewrite E.
    repeat split.
  - unfold updatePolicyRow at 1. rewrite E, E. exact IH.
Qed.

(** What [handleSave] sends for the policy under edit. *)
Lemma handleSave_sends currentUser pols db p :
  0 < orZero (monthlyLimit p) ->
  trim (p_description p) <> "" ->
  exists saved,
    handleSave currentUser pols db (Some p)
    = (Saved,
       mkDb (expenses db)
            (map (updatePolicyRow (p_category p) saved) (policies db)))
    /\ monthlyLimit saved = monthlyLimit p
    /\ p_description saved = p_description p
    /\ p_currency saved = p_currency p.
Proof.
  intros Hl Hd. unfold handleSave.
  apply Z.leb_gt in Hl. rewrite Hl.
  apply String.eqb_neq in Hd. rewrite Hd.
  destruct (find (fun q => (p_category q =? p_category p)%string) pols)
    as [existing |]; eexists; (split; [reflexivity |]); repeat split.
Qed.

(** C9, amended.  No update raises an authorization error: the updates of
    the context apply the request of any user.  On the details page and on
    the policy page the handlers test the role: for a user who is not a
    manager [handleStatusUpdate] and [handleEdit] return without a request
    and without an error, nothing is there for [handleSave] to save, and
    the stored expense and policy are unchanged; for a manager
    [handleStatusUpdate] stores the new status, and [handleSave] after
    [handleEdit] stores the monthly limit and the description of a valid
    edit.  [handleApprove], [handleReject] and [handleClearFlag] of the
    list views test no role and store the new status for every user. *)
Theorem manager_gate_is_in_the_pages (currentUser : option User) (db : Db) :
  (forall e, fst (updateExpense currentUser db e) = Normal tt)
  /\ (forall p, fst (updatePolicy currentUser db p) = Normal tt)
  /\ (isManager currentUser = false ->
      (forall e st, handleStatusUpdate currentUser db e st = (Normal tt, db))
      /\ (forall editing p, handleEdit currentUser editing p = editing)
      /\ (forall pols p,
             handleSave currentUser pols db (handleEdit currentUser None p)
             = (NothingToSave, db)))
  /\ (isManager currentUser = true ->
      (forall e st,
          handleStatusUpdate currentUser db (Some e) st
          = (Normal tt,
             mkDb (map (updateRow (id e) (withStatus e st)) (expenses db))
                  (policies db))
          /\ (forall old, Queries.getExpense db (id e) = Some old ->
               exists row,
                 Queries.getExpense
                   (snd (handleStatusUpdate currentUser db (Some e) st))
                   (id e) = Some row
                 /\ status row = st))
      /\ (forall editing p, handleEdit currentUser editing p = Some p)
      /\ (forall pols p,
             0 < orZero (monthlyLimit p) ->
             trim (p_description p) <> "" ->
             let done :=
               handleSave currentUser pols db
                          (handleEdit currentUser None p) in
             fst done = Saved
             /\ expenses (snd done) = expenses db
             /\ (forall old, getPolicy db (p_category p) = Some old ->
                  exists row,
                    getPolicy (snd done) (p_category p) = Some row
                    /\ monthlyLimit row = monthlyLimit p
                    /\ p_description row = p_description p)))
  /\ (forall userMap e,
         let stored st :=
           mkDb (map (updateRow (id e) (withStatus e st)) (expenses db))
                (policies db) in
         snd (handleApprove currentUser userMap db e) = stored "approved"
         /\ msg_type (fst (handleApprove currentUser userMap db e))
            = "success"
         /\ snd (handleReject currentUser userMap db e) = stored "rejected"
         /\ msg_type (fst (handleReject currentUser userMap db e))
            = "success"
         /\ snd (handleClearFlag currentUser userMap db e) = stored "pending"
         /\ msg_type (fst (handleClearFlag currentUser userMap db e))
            = "success"
         /\ (forall old st, Queries.getExpense db (id e) = Some old ->
              exists row,
                Queries.getExpense (stored st) (id e) = Some row
                /\ status row = st)).
Proof.
  split; [reflexivity |]. split; [reflexivity |].
  split; [| split].
  - intros Hm. repeat split.
    + intros [e |] st; unfold handleStatusUpdate; [rewrite Hm |]; reflexivity.
    + intros editing p. unfold handleEdit. rewrite Hm. reflexivity.
    + intros pols p. unfold handleEdit. rewrite Hm. reflexivity.
  - intros Hm. split; [| split].
    + intros e st. unfold handleStatusUpdate. rewrite Hm. cbn [negb].
      split; [reflexivity |]. intros old Ho.
      apply (put_row_is_read _ _ (withStatus e st)) in Ho.
      exact Ho.
    + intros editing p. unfold handleEdit. rewrite Hm. reflexivity.
    + intros pols p Hl Hd done.
      assert (He : handleEdit currentUser None p = Some p)
        by (unfold handleEdit; rewrite Hm; reflexivity).
      destruct (handleSave_sends currentUser pols db p Hl Hd)
        as (saved & Hs & S1 & S2 & _).
      unfold done. rewrite He, Hs. cbn [fst snd expenses].
      split; [reflexivity |]. split; [reflexivity |].
      intros old Ho.
      destruct (put_policy_is_read _ _ saved old Ho) as (row & R1 & R2 & R3).
      exists row. split; [exact R1 |]. split; congruence.
  - intros userMap e stored. repeat split.
    intros old st Ho.
    apply (put_row_is_read _ _ (withStatus e st)) in Ho. exact Ho.
Qed.

(** The theorem with the employee and with the manager as current user. *)
Lemma manager_gate_is_in_the_pages_witness :
  handleStatusUpdate (Some employee) dbPending (Some pendingRow) "approved"
  = (Normal tt, dbPending)
  /\ handleSave (Some employee) defaultPolicies dbPending
       (handleEdit (Some employee) None generousTravel)
     = (NothingToSave, dbPending)
  /\ fst (handleSave (Some manager) defaultPolicies dbPending
            (handleEdit (Some manager) None generousTravel)) = Saved
  /\ snd (handleApprove (Some employee) (fun _ => None) dbPending pendingRow)
     = mkDb [withStatus pendingRow "approved"] defaultPolicies.
Proof.
  destruct (manager_gate_is_in_the_pages (Some employee) dbPending)
    as (_ & _ & H & _ & L).
  destruct (H eq_refl) as (H1 & _ & H3).
  destruct (manager_gate_is_in_the_pages (Some manager) dbPending)
    as (_ & _ & _ & M & _).
  destruct (M eq_refl) as (_ & _ & M3).
  destruct (M3 defaultPolicies generousTravel) as (M4 & _);
    [reflexivity | discriminate |].
  destruct (L (fun _ => None) pendingRow) as (L1 & _).
  split; [apply H1 |]. split; [apply H3 |]. split; [exact M4 |].
  rewrite L1. reflexivity.
Defined.

End ClientFacts.

(** ** The currency converter *)

Module CurrencyFacts.

Import RateServer Currency Spec.

Lemma eqbC_spec a b : reflect (a = b) (eqbC a b).
Proof. destruct a, b; constructor; congruence. Qed.

(** C7. Converting an amount into its own currency returns the amount
    itself, without any request and for each of the four currencies. *)
Theorem convert_same_currency (now : Z) (response : option ConvertResponse)
    (ratesResponse : Completion RateTable) (cache : Cache) (amount : Q)
    (c : Currency) :
  convertCurrency now response ratesResponse cache amount c c
  = (Normal amount, cache).
Proof. unfold convertCurrency. destruct c; reflexivity. Qed.

(** Scenario E of the specification on the server: with no rate stored
    and the rate service failing, the refresh stores the fixed rows and 100
    USD are 8316 INR; no row is stored for a pair without INR. *)
Example server_refresh_stores_fixed_rows :
  fst (postConvertCurrency Examples.now0 (Throw "Network Error") []
         (100 # 1) "USD" "INR")
  = Converted (8316 # 100) ((100 # 1) * (8316 # 100))
  /\ fst (postConvertCurrency Examples.now0 (Throw "Network Error") []
            (100 # 1) "USD" "EUR")
     = RateNotFound.
Proof. split; reflexivity. Qed.


Lemma requestFailed_throws response :
  requestFailed response -> exists m, api_convertCurrency response = Throw m.
Proof.
  destruct response as [[| | r x] |]; cbn; intros H; try contradiction;
    eauto.
Qed.

Lemma refresh_when_stale now ratesResponse cache :
  noFreshCache now cache ->
  fetchCurrencyRates now ratesResponse cache INR
  = match ratesResponse with
    | Normal data =>
        let fresh :=
          mkCurrencyRates INR
            (mkRates (lookupOrOne data "INR" "USD")
                     (lookupOrOne data "INR" "EUR")
                     (lookupOrOne data "INR" "GBP") 1)
            now in
        (fresh, mkCache (Some fresh) now)
    | Throw _ => (mkCurrencyRates INR defaultRates now, cache)
    end.
Proof.
  unfold noFreshCache, fetchCurrencyRates.
  destruct (cachedRates cache) as [c |]; [| reflexivity].
  intros [Hb | Ht].
  - destruct (eqbC_spec (base c) INR) as [E | _]; [contradiction | reflexivity].
  - apply Z.ltb_ge in Ht. rewrite Ht, andb_false_r. reflexivity.
Qed.

Lemma convert_bridged now response ratesResponse cache amount from to :
  from <> to -> requestFailed response ->
  fst (convertCurrency now response ratesResponse cache amount from to)
  = Normal (bridged (rates (fst (fetchCurrencyRates now ratesResponse cache INR)))
                    amount from to).
Proof.
  intros Hne Hf. unfold convertCurrency.
  destruct (eqbC_spec from to) as [E | _]; [contradiction |].
  destruct (requestFailed_throws response Hf) as [m ->].
  destruct (fetchCurrencyRates now ratesResponse cache INR) as [r cache'].
  cbn [fst]. destruct from, to; try contradiction; reflexivity.
Qed.

Lemma server_not_found now external db amount f t :
  Qeq_bool amount 0 = false -> f <> "" -> t <> "" ->
  getRate db (todayOf now) f t = None ->
  getRate (fetchAndStoreCurrencyRates now external db) (todayOf now) f t = None ->
  postConvertCurrency now external db amount f t
  = (RateNotFound, fetchAndStoreCurrencyRates now external db).
Proof.
  intros Ha Hf Ht H1 H2. unfold postConvertCurrency.
  apply String.eqb_neq in Hf, Ht. rewrite Ha, Hf, Ht. cbn [orb].
  rewrite H1, H2. reflexivity.
Qed.



End CurrencyFacts.

(** * Further properties *)

(** ** The store of expenses and policies *)

Module StoreFacts.

Import Text JSDate Server Queries Spec Terms Examples.

Lemma truthyS_Some s : truthyS s = true -> s = Some (orElseS s "").
Proof.
  destruct s as [v|]; cbn; [|discriminate].
  destruct (v =? "")%string; cbn; [discriminate|reflexivity].
Qed.

Lemma truthyN_Some n : truthyN n = true -> n = Some (orZero n).
Proof. destruct n; cbn; [reflexivity|discriminate]. Qed.

Lemma missingFields_false b :
  missingFields b = false ->
  b_id b = Some (orElseS (b_id b) "") /\
  b_userId b = Some (orElseS (b_userId b) "") /\
  b_amount b = Some (orZero (b_amount b)) /\
  b_currency b = Some (orElseS (b_currency b) "") /\
  b_date b = Some (orElseS (b_date b) "") /\
  b_category b = Some (orElseS (b_category b) "") /\
  b_description b = Some (orElseS (b_description b) "").
Proof.
  unfold missingFields. intros H.
  repeat (apply orb_false_iff in H; destruct H as [H ?]).
  repeat match goal with
         | K : negb _ = false |- _ => apply negb_false_iff in K
         end.
  repeat split; auto using truthyS_Some, truthyN_Some.
Qed.

(** What the handler does, path by path. *)
Lemma postExpense_cases tza now db b :
  (exists err, postExpense tza now db b = (BadRequest err, db)) \/
  (exists err, postExpense tza now db b = (ServerError err, db)) \/
  (exists st n,
      missingFields b = false /\
      checkPolicy tza db (ofBody now b) = Normal (st, n) /\
      existsb (fun x => (id x =? id (ofBody now b))%string) (expenses db) = false /\
      postExpense tza now db b =
      (Created (id (ofBody now b)) (orElseS (Some st) "pending")
               (if (orElseS (Some st) "pending" =? "approved")%string
                then "Expense approved automatically (within policy limits)"
                else "Expense submitted for approval"),
       withRow db (storedRow (ofBody now b) (orElseS (Some st) "pending") n))).
Proof.
  unfold postExpense.
  destruct (missingFields b) eqn:M; [left; eauto|].
  destruct (checkPolicy tza db (ofBody now b)) as [[st n]|m] eqn:C; cbn [bindC];
    [|right; left; eauto].
  unfold insertExpense. cbn [fst snd].
  rewrite !(ServerFacts.id_storedRow).
  destruct (existsb _ (expenses db)) eqn:X; cbn [bindC];
    [right; left; eauto|].
  right; right. exists st, n. repeat split; auto.
Qed.

Lemma existsb_id_false (l : list Expense) i :
  existsb (fun x => (id x =? i)%string) l = false <-> ~ In i (map id l).
Proof.
  induction l as [|x l IH]; cbn; [tauto|].
  rewrite orb_false_iff, IH.
  destruct (String.eqb_spec (id x) i); intuition congruence.
Qed.

Lemma find_id_none (l : list Expense) i :
  ~ In i (map id l) -> find (fun x => (id x =? i)%string) l = None.
Proof.
  induction l as [|x l IH]; cbn; [reflexivity|]. intros H.
  destruct (String.eqb_spec (id x) i); [tauto|]. apply IH. tauto.
Qed.

Lemma find_app_id (l : list Expense) x j :
  find (fun y => (id y =? j)%string) (l ++ [x])%list =
  match find (fun y => (id y =? j)%string) l with
  | Some y => Some y
  | None => if (id x =? j)%string then Some x else None
  end.
Proof.
  induction l as [|y l IH]; cbn; [reflexivity|].
  destruct (id y =? j)%string; [reflexivity|exact IH].
Qed.

(** X1.  A request to POST /api/expenses either stores exactly one row, at
    the end of the table, or changes nothing: on 201 the new row carries
    the submitted id, user, amount, currency, date, category and
    description and the status of the response, which is approved or
    pending, its id was not in the table before, and the policies are
    untouched; on any other answer the database is as it was. *)
Theorem post_stores_one_row_or_nothing (tza now : Z) (db : Db)
    (b : ExpenseBody) :
  match postExpense tza now db b with
  | (Created i st m, db') =>
      exists row,
        db' = withRow db row
        /\ ~ In i (map id (expenses db))
        /\ id row = i /\ status row = st
        /\ (st = "approved" \/ st = "pending")
        /\ b_id b = Some (id row) /\ b_userId b = Some (userId row)
        /\ b_amount b = Some (amount row)
        /\ b_currency b = Some (currency row)
        /\ b_date b = Some (date row)
        /\ b_category b = Some (category row)
        /\ b_description b = Some (description row)
  | (_, db') => db' = db
  end.
Proof.
  destruct (postExpense_cases tza now db b)
    as [[err ->] | [[err ->] | (st & n & M & C & X & ->)]]; try reflexivity.
  apply missingFields_false in M.
  destruct M as (Hi & Hu & Ha & Hc & Hd & Hg & Hs).
  pose proof (ClientFacts.checkPolicy_status _ _ _ _ _ C) as St.
  assert (Ho : orElseS (Some st) "pending" = st)
    by (destruct St as [-> | ->]; reflexivity).
  rewrite Ho.
  exists (storedRow (ofBody now b) st n).
  split; [reflexivity|].
  split; [apply existsb_id_false; exact X|].
  cbn [storedRow ofBody id userId amount currency date category description
       status].
  repeat split; auto.
Qed.

(** X2.  The created expense can be read back: after 201 the lookup of the
    new id gives the stored row, the id was not to be found before, and the
    lookup of every other id answers as before; after any other answer
    every lookup answers as before. *)
Theorem created_expense_is_found (tza now : Z) (db : Db) (b : ExpenseBody) :
  match postExpense tza now db b with
  | (Created i st m, db') =>
      getExpense db i = None
      /\ (exists row, getExpense db' i = Some row /\ id row = i
                      /\ status row = st /\ b_amount b = Some (amount row)
                      /\ b_userId b = Some (userId row))
      /\ forall j, j <> i -> getExpense db' j = getExpense db j
  | (_, db') => forall j, getExpense db' j = getExpense db j
  end.
Proof.
  destruct (postExpense_cases tza now db b)
    as [[err ->] | [[err ->] | (st & n & M & C & X & ->)]]; try reflexivity.
  apply missingFields_false in M.
  destruct M as (Hi & Hu & Ha & Hc & Hd & Hg & Hs).
  apply existsb_id_false in X.
  unfold getExpense, withRow. cbn [expenses].
  split; [apply find_id_none; exact X|].
  split.
  - eexists. rewrite find_app_id, (find_id_none _ _ X).
    rewrite ServerFacts.id_storedRow, String.eqb_refl.
    split; [reflexivity|]. cbn [storedRow ofBody id status amount userId].
    repeat split; auto.
  - intros j Hj. rewrite find_app_id.
    destruct (find _ (expenses db)); [reflexivity|].
    rewrite ServerFacts.id_storedRow.
    destruct (String.eqb_spec (id (ofBody now b)) j); [congruence|reflexivity].
Qed.

Lemma map_id_updateRow eid body l :
  map id (map (updateRow eid body) l) = map id l.
Proof.
  rewrite map_map. apply map_ext. intros x. unfold updateRow.
  destruct (id x =? eid)%string; reflexivity.
Qed.

(** X3.  The primary key of the table of expenses is an invariant of the
    write handlers: when the ids are pairwise distinct they are so after
    POST /api/expenses and after PUT /api/expenses/:id, and PUT keeps the
    ids in their order. *)
Theorem expense_ids_stay_unique (tza now : Z) (db : Db) (b : ExpenseBody)
    (eid : string) (body : Expense) :
  NoDup (map id (expenses db)) ->
  NoDup (map id (expenses (snd (postExpense tza now db b))))
  /\ NoDup (map id (expenses (snd (putExpense db eid body))))
  /\ map id (expenses (snd (putExpense db eid body))) = map id (expenses db).
Proof.
  intros N. split; [|cbn; rewrite map_id_updateRow; auto].
  destruct (postExpense_cases tza now db b)
    as [[err ->] | [[err ->] | (st & n & M & C & X & ->)]]; try exact N.
  cbn [snd withRow expenses]. rewrite map_app. cbn [map].
  rewrite ServerFacts.id_storedRow.
  apply existsb_id_false in X.
  apply NoDup_app; [exact N | repeat constructor; intros [] | ].
  intros a Ha [<- | []]. exact (X Ha).
Qed.

(** The theorem on the table of scenario B, for the request of scenario B
    and an update of the stored row. *)
Lemma expense_ids_stay_unique_witness :
  NoDup (map id (expenses dbB))
  /\ NoDup (map id (expenses (snd (postExpense utc now0 dbB bodyB))))
  /\ NoDup (map id (expenses (snd (putExpense dbB "e1" pendingRow)))).
Proof.
  assert (N : NoDup (map id (expenses dbB))).
  { cbn. constructor; [intros [] | constructor]. }
  split; [exact N|].
  destruct (expense_ids_stay_unique utc now0 dbB bodyB "e1" pendingRow N)
    as (H1 & H2 & _).
  split; [exact H1 | exact H2].
Defined.

Lemma map_updateRow_absent eid body l :
  ~ In eid (map id l) -> map (updateRow eid body) l = l.
Proof.
  induction l as [|x l IH]; cbn; [reflexivity|]. intros H.
  unfold updateRow at 1.
  destruct (String.eqb_spec (id x) eid); [tauto|]. f_equal. apply IH. tauto.
Qed.

Lemma find_map_updateRow eid body l j :
  find (fun x => (id x =? j)%string) (map (updateRow eid body) l) =
  option_map (updateRow eid body) (find (fun x => (id x =? j)%string) l).
Proof.
  induction l as [|x l IH]; cbn; [reflexivity|].
  assert (E : id (updateRow eid body x) = id x)
    by (unfold updateRow; destruct (id x =? eid)%string; reflexivity).
  rewrite E. destruct (id x =? j)%string; [reflexivity|exact IH].
Qed.

Lemma find_id_some (l : list Expense) j x :
  find (fun y => (id y =? j)%string) l = Some x -> id x = j /\ In x l.
Proof.
  intros H. apply find_some in H. destruct H as [H1 H2].
  apply String.eqb_eq in H2. auto.
Qed.

(** X4.  PUT /api/expenses/:id answers success whether or not the id
    exists.  For an id that is stored, the row read back holds the amount,
    currency, date, category, description and status of the body under the
    id, user and creation time of the stored row; for an id that is not
    stored the database is unchanged.  In both cases every other id reads
    as before and the policies are untouched. *)
Theorem put_expense_then_get (db : Db) (eid : string) (body : Expense) :
  fst (putExpense db eid body) = Success
  /\ policies (snd (putExpense db eid body)) = policies db
  /\ (forall j, j <> eid ->
        getExpense (snd (putExpense db eid body)) j = getExpense db j)
  /\ match getExpense db eid with
     | Some old =>
         getExpense (snd (putExpense db eid body)) eid =
         Some (mkExpense eid (userId old) (amount body) (currency body)
                         (date body) (category body) (description body)
                         (orNull (receiptImage body)) (status body)
                         (orNull (notes body)) (createdAt old))
     | None => snd (putExpense db eid body) = db
     end.
Proof.
  unfold putExpense, getExpense. cbn [fst snd expenses policies].
  split; [reflexivity|]. split; [reflexivity|]. split.
  - intros j Hj. rewrite find_map_updateRow.
    destruct (find _ (expenses db)) as [x|] eqn:F; [|reflexivity].
    apply find_id_some in F. destruct F as [F _]. cbn. unfold updateRow.
    destruct (String.eqb_spec (id x) eid); [congruence|reflexivity].
  - destruct (find _ (expenses db)) as [old|] eqn:F.
    + rewrite find_map_updateRow, F. cbn. unfold updateRow.
      apply find_id_some in F. destruct F as [F _].
      rewrite F, String.eqb_refl. reflexivity.
    + rewrite map_updateRow_absent; [destruct db; reflexivity|].
      intros H. apply in_map_iff in H. destruct H as (x & Hx & Hin).
      apply (find_none _ _ F) in Hin. rewrite Hx, String.eqb_refl in Hin.
      discriminate.
Qed.

(** X5.  Flagging hides an expense from its owner: once a PUT has stored
    status flagged under an id, the list that any role but the manager's
    receives for any user holds no row of that id, while the manager's list
    for a user holds as many rows as before. *)
Theorem flagged_by_put_is_hidden (db : Db) (eid uid : string) (body : Expense)
    (role : option string) :
  status body = "flagged" ->
  role <> Some "manager" ->
  (forall x, In x (getUserExpenses (snd (putExpense db eid body)) uid role) ->
             id x <> eid)
  /\ List.length (getUserExpenses (snd (putExpense db eid body)) uid
                                  (Some "manager"))
     = List.length (getUserExpenses db uid (Some "manager")).
Proof.
  intros Hs Hr. split.
  - intros x Hx.
    assert (Hin : In x (filter (fun e => (userId e =? uid)%string
                                         && employeeVisible e)
                               (map (updateRow eid body) (expenses db)))).
    { revert Hx. unfold getUserExpenses, putExpense. cbn [snd expenses].
      destruct role as [r|]; [|tauto].
      destruct (String.eqb_spec r "manager") as [->|Hne]; [congruence|].
      destruct r as [|c r]; [tauto|].
      repeat (match goal with
              | |- context [match ?a with Ascii _ _ _ _ _ _ _ _ => _ end] =>
                  destruct a
              | |- context [match ?a with true => _ | false => _ end] =>
                  destruct a
              | |- context [match ?a with EmptyString => _ | String _ _ => _ end] =>
                  destruct a
              end; try tauto; try congruence). }
    apply filter_In in Hin. destruct Hin as [Hin Hv].
    apply in_map_iff in Hin. destruct Hin as (y & <- & _).
    unfold updateRow in *.
    destruct (String.eqb_spec (id y) eid) as [E|E]; [|exact E].
    exfalso. cbn [userId status] in Hv. unfold employeeVisible in Hv.
    cbn [status] in Hv. rewrite Hs in Hv. cbn in Hv.
    rewrite andb_false_r in Hv. discriminate.
  - unfold getUserExpenses, putExpense. cbn [snd expenses].
    induction (expenses db) as [|x l IH]; cbn; [reflexivity|].
    assert (E : userId (updateRow eid body x) = userId x)
      by (unfold updateRow; destruct (id x =? eid)%string; reflexivity).
    rewrite E. destruct (userId x =? uid)%string; cbn; rewrite IH; reflexivity.
Qed.

(** The theorem on a table with one pending expense, flagged by a manager. *)
Lemma flagged_by_put_is_hidden_witness :
  getUserExpenses
    (snd (putExpense dbPending "e5" (Client.withStatus pendingRow "flagged")))
    "u1" (Some "employee") = []
  /\ forall x,
       In x (getUserExpenses
               (snd (putExpense dbPending "e5"
                                (Client.withStatus pendingRow "flagged")))
               "u1" (Some "employee")) -> id x <> "e5".
Proof.
  split; [reflexivity|].
  refine (proj1 (flagged_by_put_is_hidden dbPending "e5" "u1"
                   (Client.withStatus pendingRow "flagged") (Some "employee")
                   eq_refl _)).
  discriminate.
Defined.

Lemma find_map_updatePolicyRow cat body l c :
  find (fun p => (p_category p =? c)%string) (map (updatePolicyRow cat body) l)
  = option_map (updatePolicyRow cat body)
               (find (fun p => (p_category p =? c)%string) l).
Proof.
  induction l as [|x l IH]; cbn; [reflexivity|].
  assert (E : p_category (updatePolicyRow cat body x) = p_category x)
    by (unfold updatePolicyRow; destruct (p_category x =? cat)%string;
        reflexivity).
  rewrite E. destruct (p_category x =? c)%string; [reflexivity|exact IH].
Qed.

Lemma getPolicy_put_other db cat body c :
  c <> cat -> getPolicy (snd (putPolicy db cat body)) c = getPolicy db c.
Proof.
  intros Hc. unfold getPolicy, putPolicy. cbn [snd policies].
  rewrite find_map_updatePolicyRow.
  destruct (find _ (policies db)) as [x|] eqn:F; [|reflexivity].
  apply find_some in F. destruct F as [_ F]. apply String.eqb_eq in F.
  cbn. unfold updatePolicyRow.
  destruct (String.eqb_spec (p_category x) cat); [congruence|reflexivity].
Qed.

(** X6.  PUT /api/policies/:category updates and never inserts: it answers
    success in every case, but for a category without a policy the
    database is unchanged (and the category still has no policy); for a
    category with a policy the policy read back holds the limits,
    description and currency of the body under the stored category.  The
    policies of the other categories, the expenses, and the decision of the
    policy check for an expense of any other category are as before. *)
Theorem put_policy_updates_only (db : Db) (cat : string) (body : Policy) :
  fst (putPolicy db cat body) = Success
  /\ expenses (snd (putPolicy db cat body)) = expenses db
  /\ match getPolicy db cat with
     | Some old =>
         getPolicy (snd (putPolicy db cat body)) cat =
         Some (mkPolicy cat (maxAmount body) (dailyLimit body)
                        (weeklyLimit body) (monthlyLimit body)
                        (p_description body) (p_currency body))
     | None => snd (putPolicy db cat body) = db
     end
  /\ (forall c, c <> cat ->
        getPolicy (snd (putPolicy db cat body)) c = getPolicy db c)
  /\ (forall tza e, category e <> cat ->
        checkPolicy tza (snd (putPolicy db cat body)) e = checkPolicy tza db e).
Proof.
  split; [reflexivity|]. split; [reflexivity|]. split; [|split].
  - unfold getPolicy, putPolicy. cbn [snd policies].
    destruct (find _ (policies db)) as [old|] eqn:F.
    + rewrite find_map_updatePolicyRow, F. cbn. unfold updatePolicyRow.
      apply find_some in F. destruct F as [_ F].
      rewrite F. apply String.eqb_eq in F. rewrite F. reflexivity.
    + assert (E : map (updatePolicyRow cat body) (policies db) = policies db).
      { clear -F. induction (policies db) as [|x l IH]; [reflexivity|].
        cbn in F |- *. unfold updatePolicyRow at 1.
        destruct (p_category x =? cat)%string; [discriminate|].
        f_equal. apply IH. exact F. }
      rewrite E. destruct db; reflexivity.
  - apply getPolicy_put_other.
  - intros tza e Hc. unfold checkPolicy.
    rewrite (getPolicy_put_other db cat body _ Hc). reflexivity.
Qed.

Lemma exceeds_mono l a b : a <= b -> exceeds l b = false -> exceeds l a = false.
Proof.
  unfold exceeds. intros Hab. destruct (truthyN l); cbn; [|reflexivity].
  rewrite !Z.ltb_ge. lia.
Qed.

Lemma weeklyTotalOf_withAmount tza db e a t :
  weeklyTotalOf tza db (withAmount e a) t = weeklyTotalOf tza db e t - amount e + a.
Proof.
  unfold weeklyTotalOf. destruct (weekBounds tza t). cbn [withAmount userId
    category currency amount]. lia.
Qed.

Lemma monthlyTotalOf_withAmount tza db e a t :
  monthlyTotalOf tza db (withAmount e a) t
  = monthlyTotalOf tza db e t - amount e + a.
Proof.
  unfold monthlyTotalOf. destruct (monthBounds tza t). cbn [withAmount userId
    category currency amount]. lia.
Qed.

(** X7.  The policy check is monotone in the amount: when an expense is
    approved automatically, the same expense with any smaller amount is
    approved as well, against the same stored expenses and policies. *)
Theorem smaller_amount_stays_approved (tza : Z) (db : Db) (e : Expense)
    (a : Z) :
  a <= amount e ->
  decision tza db e = Some "approved" ->
  decision tza db (withAmount e a) = Some "approved".
Proof.
  intros Ha. unfold decision, checkPolicy.
  cbn [withAmount category date notes].
  destruct (getPolicy db (category e)) as [p|]; [|cbn; discriminate].
  destruct (parseDate (date e)) as [t|]; [|discriminate].
  rewrite weeklyTotalOf_withAmount, monthlyTotalOf_withAmount.
  destruct (exceeds (weeklyLimit p) (weeklyTotalOf tza db e t)) eqn:W;
    [cbn; discriminate|].
  destruct (exceeds (monthlyLimit p) (monthlyTotalOf tza db e t)) eqn:M;
    [cbn; discriminate|].
  intros _.
  assert (W' := exceeds_mono (weeklyLimit p)
                 (weeklyTotalOf tza db e t - amount e + a)
                 (weeklyTotalOf tza db e t) ltac:(lia) W).
  assert (M' := exceeds_mono (monthlyLimit p)
                 (monthlyTotalOf tza db e t - amount e + a)
                 (monthlyTotalOf tza db e t) ltac:(lia) M).
  rewrite W', M'. reflexivity.
Qed.

(** The theorem for a bus ticket of 0.50 INR, lowered to 0.10 INR. *)
Lemma smaller_amount_stays_approved_witness :
  decision utc dbEmpty smallTaxi = Some "approved"
  /\ decision utc dbEmpty (withAmount smallTaxi 10) = Some "approved".
Proof.
  assert (D : decision utc dbEmpty smallTaxi = Some "approved")
    by (vm_compute; reflexivity).
  split; [exact D|].
  apply (smaller_amount_stays_approved utc dbEmpty smallTaxi 10);
    [cbn; lia | exact D].
Defined.

Lemma totalAmount_withRow db x uid cat lo hi cur :
  inWindow uid cat lo hi cur x = false ->
  totalAmount (withRow db x) uid cat lo hi cur = totalAmount db uid cat lo hi cur.
Proof.
  intros H. unfold totalAmount, withRow. cbn [expenses].
  rewrite filter_app. cbn [filter]. rewrite H, app_nil_r. reflexivity.
Qed.

(** X8.  Only the rows of the same user, category and currency count: a
    stored expense that differs from the submitted one in user, category
    or currency changes neither the decision nor the notes of the policy
    check, whatever its amount and date. *)
Theorem other_keys_do_not_count (tza : Z) (db : Db) (e x : Expense) :
  sameKey e x = false ->
  checkPolicy tza (withRow db x) e = checkPolicy tza db e.
Proof.
  intros K.
  assert (W : forall lo hi,
             inWindow (userId e) (category e) lo hi (currency e) x = false).
  { intros lo hi. unfold inWindow. unfold sameKey in K.
    destruct (userId x =? userId e)%string; [|reflexivity].
    destruct (category x =? category e)%string; [|reflexivity].
    cbn in K |- *. rewrite K. apply andb_false_r. }
  unfold checkPolicy.
  change (getPolicy (withRow db x) (category e)) with (getPolicy db (category e)).
  destruct (getPolicy db (category e)) as [p|]; [|reflexivity].
  destruct (parseDate (date e)) as [t|]; [|reflexivity].
  assert (Ew : weeklyTotalOf tza (withRow db x) e t = weeklyTotalOf tza db e t).
  { unfold weeklyTotalOf. destruct (weekBounds tza t).
    rewrite totalAmount_withRow by apply W. reflexivity. }
  assert (Em : monthlyTotalOf tza (withRow db x) e t = monthlyTotalOf tza db e t).
  { unfold monthlyTotalOf. destruct (monthBounds tza t).
    rewrite totalAmount_withRow by apply W. reflexivity. }
  rewrite Ew, Em. reflexivity.
Qed.

(** The theorem for scenario B with one more stored row, the travel of
    another user on the same day. *)
Lemma other_keys_do_not_count_witness :
  checkPolicy ist
    (withRow dbB (mkExpense "e9" "u2" 980000 "INR" "2024-03-05" "Travelling"
                            "Flight to Goa" None "pending" None
                            "2024-03-05T09:00:00.000Z"))
    pendingRow
  = checkPolicy ist dbB pendingRow.
Proof.
  apply (other_keys_do_not_count ist dbB pendingRow). reflexivity.
Defined.

End StoreFacts.

(** ** Accounts *)

Module AccountFacts.

Import Text Accounts Terms Cases.

(** X9.  Who can log in.  A login succeeds only for a stored account with
    the given username and password that is a manager or an employee whose
    isActive is 1, and the user of the response is active, with the id, the
    role and the username of that account.  A refused login changes
    nothing; a successful one at most activates the rows of that id. *)
Theorem login_requires_active_account (users : list UserRow)
    (usr pwd : string) :
  match login users usr pwd with
  | (LoggedIn u, users') =>
      exists row,
        In row users /\ username row = usr /\ password row = pwd
        /\ (ur_role row = "manager" \/ isActive row = 1)
        /\ pu_id u = ur_id row /\ pu_username u = usr
        /\ pu_role u = ur_role row /\ pu_isActive u <> 0
        /\ (users' = users \/ users' = map (activate (ur_id row)) users)
  | (Unauthorized _, users') => users' = users
  end.
Proof.
  unfold login.
  destruct (find (fun x => (username x =? usr)%string) users);
    [|reflexivity].
  destruct (find (fun x => (username x =? usr)%string
                           && (password x =? pwd)%string) users)
    as [row|] eqn:F; [|reflexivity].
  apply find_some in F. destruct F as [Hin F].
  apply andb_true_iff in F. destruct F as [Fu Fp].
  apply String.eqb_eq in Fu, Fp.
  destruct (String.eqb_spec (ur_role row) "manager") as [Hm|Hm].
  - destruct (Z.eqb_spec (isActive row) 0) as [Ha|Ha];
      exists row; cbn; repeat split; auto; discriminate.
  - destruct (Z.eqb_spec (isActive row) 1) as [Ha|Ha]; cbn; [|reflexivity].
    exists row. cbn. repeat split; auto. rewrite Ha. discriminate.
Qed.

Lemma map_activate_keys (key : UserRow -> string) uid l :
  (forall x a, key (setActive x a) = key x) ->
  map key (map (activate uid) l) = map key l.
Proof.
  intros K. rewrite map_map. apply map_ext. intros x. unfold activate.
  destruct (ur_id x =? uid)%string; [apply K|reflexivity].
Qed.

Lemma keysUnique_activate uid users :
  keysUnique users -> keysUnique (map (activate uid) users).
Proof.
  unfold keysUnique.
  rewrite !map_activate_keys by reflexivity. tauto.
Qed.

Lemma existsb_key_false (key : UserRow -> string) k l :
  existsb (fun x => (key x =? k)%string) l = false <-> ~ In k (map key l).
Proof.
  induction l as [|x l IH]; cbn; [tauto|].
  rewrite orb_false_iff, IH.
  destruct (String.eqb_spec (key x) k); intuition congruence.
Qed.

Lemma insertUser_fresh users u users' :
  insertUser users u = Normal users' ->
  users' = (users ++ [u])%list
  /\ ~ In (ur_id u) (map ur_id users)
  /\ ~ In (username u) (map username users)
  /\ ~ In (email u) (map email users).
Proof.
  unfold insertUser.
  destruct (existsb _ users) eqn:X; [discriminate|].
  intros H. injection H as <-. split; [reflexivity|].
  assert (A : forall x, In x users ->
              ur_id x <> ur_id u /\ username x <> username u
              /\ email x <> email u).
  { intros x Hx.
    assert (F : (ur_id x =? ur_id u)%string || (username x =? username u)%string
                || (email x =? email u)%string = false).
    { destruct ((ur_id x =? ur_id u)%string || (username x =? username u)%string
                || (email x =? email u)%string) eqn:F; [|reflexivity].
      rewrite <- X. symmetry. apply existsb_exists. exists x. auto. }
    apply orb_false_iff in F. destruct F as [F F3].
    apply orb_false_iff in F. destruct F as [F1 F2].
    apply String.eqb_neq in F1, F2, F3.
    auto. }
  repeat split; intros H; apply in_map_iff in H; destruct H as (x & Hk & Hx);
    destruct (A x Hx) as (A1 & A2 & A3); congruence.
Qed.

Lemma NoDup_snoc (l : list string) k :
  NoDup l -> ~ In k l -> NoDup (l ++ [k])%list.
Proof.
  intros N H. apply NoDup_app; [exact N | repeat constructor; intros [] |].
  intros a Ha [<- | []]. exact (H Ha).
Qed.

(** The paths of [createUser]: a refusal that stores nothing, or one new
    row at the end of the table. *)
Lemma createUser_cases users b :
  (snd (createUser users b) = users
   /\ forall m r, fst (createUser users b) <> UCreated m r)
  \/ exists row m,
       createUser users b = (UCreated m (ur_role row =? "employee")%string,
                             (users ++ [row])%list)
       /\ insertUser users row = Normal (users ++ [row])%list
       /\ ub_id b = Some (ur_id row) /\ ub_username b = Some (username row)
       /\ ub_password b = Some (password row)
       /\ ub_email b = Some (email row) /\ ub_role b = Some (ur_role row)
       /\ ub_companyName b = Some (companyName row)
       /\ isActive row = (if (ur_role row =? "manager")%string then 1 else 0)
       /\ emailRegexTest (email row) = true.
Proof.
  unfold createUser.
  destruct (existsWith email (ub_email b) users);
    [left; split; [reflexivity|discriminate]|].
  destruct (existsWith username (ub_username b) users);
    [left; split; [reflexivity|discriminate]|].
  match goal with |- context [if ?c then _ else _] => destruct c eqn:M end;
    [left; split; [reflexivity|discriminate]|].
  destruct (emailRegexTest (orElseS (ub_email b) "")) eqn:R; cbn [negb];
    [|left; split; [reflexivity|discriminate]].
  match goal with |- context [insertUser users ?r] => set (row := r) end.
  destruct (insertUser users row) as [users'|] eqn:I;
    [|left; split; [reflexivity|discriminate]].
  right. pose proof (insertUser_fresh _ _ _ I) as [-> _].
  repeat (apply orb_false_iff in M; destruct M as [M ?]).
  repeat match goal with
         | K : negb _ = false |- _ => apply negb_false_iff in K
         end.
  exists row.
  change (orElseS (ub_role b) "") with (ur_role row).
  destruct (ur_role row =? "employee")%string; eexists;
    (split; [reflexivity|]); (split; [exact I|]);
    subst row; cbn [ur_id username password email ur_role companyName isActive];
    repeat split; auto using StoreFacts.truthyS_Some.
Qed.

Lemma keysUnique_createUser users b :
  keysUnique users -> keysUnique (snd (createUser users b)).
Proof.
  intros K.
  destruct (createUser_cases users b) as [[-> _] | (row & m & -> & I & _)];
    [exact K|].
  apply insertUser_fresh in I. destruct I as (_ & I1 & I2 & I3).
  destruct K as (K1 & K2 & K3). cbn [snd]. unfold keysUnique.
  rewrite !map_app. cbn [map]. auto using NoDup_snoc.
Qed.

(** The keys after an UPDATE of the rows of one id, for a column [key]
    that the update sets to [k']. *)
Lemma NoDup_updateUserRow (key : UserRow -> string) uid b k' :
  (forall x, key (updateUserRow uid b x)
             = if (ur_id x =? uid)%string then k' else key x) ->
  forall l,
    NoDup (map ur_id l) -> NoDup (map key l) ->
    (forall x, In x l -> ur_id x <> uid -> key x <> k') ->
    NoDup (map key (map (updateUserRow uid b) l)).
Proof.
  intros K l. induction l as [|x l IH]; cbn [map]; [constructor|].
  intros Ni Nk O. inversion Ni as [|? ? Hi Ni']; subst.
  inversion Nk as [|? ? Hk Nk']; subst.
  assert (IHl := IH Ni' Nk' (fun y Hy => O y (or_intror Hy))).
  constructor; [|exact IHl].
  rewrite K. intros Hin. apply in_map_iff in Hin.
  destruct Hin as (y' & Hy' & Hin). apply in_map_iff in Hin.
  destruct Hin as (y & <- & Hy). rewrite K in Hy'.
  destruct (String.eqb_spec (ur_id x) uid) as [Ex|Ex];
    destruct (String.eqb_spec (ur_id y) uid) as [Ey|Ey].
  - apply Hi. apply in_map_iff. exists y. split; [congruence|exact Hy].
  - apply (O y (or_intror Hy) Ey). exact Hy'.
  - apply (O x (or_introl eq_refl) Ex). symmetry. exact Hy'.
  - apply Hk. apply in_map_iff. exists y. split; [exact Hy'|exact Hy].
Qed.

Lemma keysUnique_updateUser users uid b :
  keysUnique users -> keysUnique (snd (updateUser users uid b)).
Proof.
  intros K. unfold updateUser.
  destruct (find _ users); [|exact K].
  destruct (existsb _ users) eqn:X; [exact K|]. cbn [snd].
  assert (O : forall x, In x users -> ur_id x <> uid ->
                        username x <> uu_username b /\ email x <> uu_email b).
  { intros x Hx Hne.
    destruct (negb (ur_id x =? uid)%string
              && ((username x =? uu_username b)%string
                  || (email x =? uu_email b)%string)) eqn:F.
    - exfalso.
      assert (E : existsb (fun x => negb (ur_id x =? uid)%string
                     && ((username x =? uu_username b)%string
                         || (email x =? uu_email b)%string)) users = true)
        by (apply existsb_exists; exists x; split; [exact Hx|exact F]).
      rewrite X in E. discriminate.
    - apply String.eqb_neq in Hne. rewrite Hne in F. cbn in F.
      apply orb_false_iff in F. destruct F as [F1 F2].
      apply String.eqb_neq in F1, F2. auto. }
  destruct K as (K1 & K2 & K3). unfold keysUnique. repeat split.
  - replace (map ur_id (map (updateUserRow uid b) users)) with (map ur_id users);
      [exact K1|].
    rewrite map_map. apply map_ext. intros x. unfold updateUserRow.
    destruct (ur_id x =? uid)%string; reflexivity.
  - apply (NoDup_updateUserRow username uid b (uu_username b)); auto.
    + intros x. unfold updateUserRow.
      destruct (ur_id x =? uid)%string; reflexivity.
    + intros x Hx Hne. apply (O x Hx Hne).
  - apply (NoDup_updateUserRow email uid b (uu_email b)); auto.
    + intros x. unfold updateUserRow.
      destruct (ur_id x =? uid)%string; reflexivity.
    + intros x Hx Hne. apply (O x Hx Hne).
Qed.

(** X10.  The constraints of table [users] are an invariant of the account
    handlers: when ids, usernames and emails are pairwise distinct, they
    are so after POST /api/users, after PUT /api/users/:id, after the
    approval of a user and after a login. *)
Theorem account_keys_stay_unique (users : list UserRow) (b : UserBody)
    (uid : string) (upd : UserUpdate) (usr pwd : string) :
  keysUnique users ->
  keysUnique (snd (createUser users b))
  /\ keysUnique (snd (updateUser users uid upd))
  /\ keysUnique (snd (approveUser users uid))
  /\ keysUnique (snd (login users usr pwd)).
Proof.
  intros K. split; [apply keysUnique_createUser; exact K|].
  split; [apply keysUnique_updateUser; exact K|]. split.
  - unfold approveUser. destruct (find _ users); [|exact K].
    destruct (find _ (map (activate uid) users)); cbn [snd];
      apply keysUnique_activate; exact K.
  - unfold login. destruct (find _ users); [|exact K].
    destruct (find _ users) as [found|]; [|exact K].
    destruct (ur_role found =? "manager")%string.
    + destruct (isActive found =? 0); [apply keysUnique_activate|]; exact K.
    + destruct (negb (isActive found =? 1)); exact K.
Qed.

(** The theorem on a table that holds one manager. *)
Lemma account_keys_stay_unique_witness :
  keysUnique staff
  /\ keysUnique (snd (createUser staff raviBody))
  /\ keysUnique (snd (updateUser staff "m1" ashaRenamed)).
Proof.
  assert (K : keysUnique staff).
  { unfold keysUnique. cbn.
    repeat split; (constructor; [intros [] | constructor]). }
  split; [exact K|].
  destruct (account_keys_stay_unique staff raviBody "m1" ashaRenamed
              "asha" "secret1" K) as (H1 & H2 & _).
  split; [exact H1 | exact H2].
Defined.

Lemma find_snoc {A : Type} (f : A -> bool) (l : list A) (x : A) :
  find f (l ++ [x])%list =
  match find f l with
  | Some y => Some y
  | None => if f x then Some x else None
  end.
Proof.
  induction l as [|y l IH]; cbn; [reflexivity|].
  destruct (f y); [reflexivity|exact IH].
Qed.

Lemma find_key_absent (key : UserRow -> string) (g : UserRow -> bool) k l :
  ~ In k (map key l) ->
  find (fun x => (key x =? k)%string && g x) l = None.
Proof.
  induction l as [|x l IH]; cbn; [reflexivity|]. intros H.
  destruct (String.eqb_spec (key x) k); [tauto|]. cbn. apply IH. tauto.
Qed.

Lemma find_key_absent' (key : UserRow -> string) k l :
  ~ In k (map key l) -> find (fun x => (key x =? k)%string) l = None.
Proof.
  induction l as [|x l IH]; cbn; [reflexivity|]. intros H.
  destruct (String.eqb_spec (key x) k); [tauto|]. apply IH. tauto.
Qed.

Lemma map_activate_absent uid l :
  ~ In uid (map ur_id l) -> map (activate uid) l = l.
Proof.
  induction l as [|x l IH]; cbn; [reflexivity|]. intros H.
  unfold activate at 1.
  destruct (String.eqb_spec (ur_id x) uid); [tauto|]. f_equal. apply IH. tauto.
Qed.

Lemma activated_not_pending users uid c u :
  In u (getPendingEmployees (map (activate uid) users) c) -> pu_id u <> uid.
Proof.
  unfold getPendingEmployees. intros H. apply in_map_iff in H.
  destruct H as (x & <- & H). apply filter_In in H. destruct H as [H F].
  apply in_map_iff in H. destruct H as (y & <- & _).
  unfold activate in *. cbn [withoutPassword pu_id].
  destruct (String.eqb_spec (ur_id y) uid) as [E|E]; [|exact E].
  cbn in F. rewrite andb_false_r in F. discriminate.
Qed.

(** X11.  An employee who signs up has to be approved.  After a POST
    /api/users that answers 201 with requiresApproval, a login with the
    submitted username and password is refused as not approved and the
    user is in the list of pending employees of the company; the approval
    of the submitted id answers with isActive 1, after which the same login
    succeeds as that employee and no list of pending employees holds the
    id. *)
Theorem employee_signup_needs_approval (users users1 : list UserRow)
    (b : UserBody) (m uid usr pwd company : string) :
  createUser users b = (UCreated m true, users1) ->
  ub_id b = Some uid -> ub_username b = Some usr ->
  ub_password b = Some pwd -> ub_companyName b = Some company ->
  login users1 usr pwd = (Unauthorized notApproved, users1)
  /\ (exists u, In u (getPendingEmployees users1 company) /\ pu_id u = uid)
  /\ exists msg users2 u,
       approveUser users1 uid = (UApproved msg uid 1, users2)
       /\ login users2 usr pwd = (LoggedIn u, users2)
       /\ pu_id u = uid /\ pu_role u = "employee" /\ pu_isActive u = 1
       /\ forall c v, In v (getPendingEmployees users2 c) -> pu_id v <> uid.
Proof.
  intros C Hid Hu Hp Hc.
  destruct (createUser_cases users b)
    as [[_ N] | (row & m' & E & I & Bi & Bu & Bp & _ & _ & Bc & A & _)].
  { exfalso. apply (N m true). rewrite C. reflexivity. }
  rewrite E in C. injection C as _ R <-.
  apply insertUser_fresh in I. destruct I as (_ & I1 & I2 & _).
  assert (ur_id row = uid) as Eid by congruence.
  assert (username row = usr) as Eu by congruence.
  assert (password row = pwd) as Ep by congruence.
  assert (companyName row = company) as Ec by congruence.
  apply String.eqb_eq in R.
  assert (Ea : isActive row = 0) by (rewrite A, R; reflexivity).
  rewrite Eid in I1. rewrite Eu in I2.
  assert (Fu : forall l (r : UserRow),
             username r = usr -> password r = pwd -> l = users ->
             find (fun x => (username x =? usr)%string) (l ++ [r])%list = Some r
             /\ find (fun x => (username x =? usr)%string
                               && (password x =? pwd)%string) (l ++ [r])%list
                = Some r).
  { intros l r H1 H2 ->. rewrite !find_snoc.
    rewrite (find_key_absent' username usr users I2).
    rewrite (find_key_absent username _ usr users I2).
    rewrite H1, H2, !String.eqb_refl. split; reflexivity. }
  split; [|split].
  - unfold login. destruct (Fu users row Eu Ep eq_refl) as [-> ->].
    rewrite R, Ea. reflexivity.
  - exists (withoutPassword row). split; [|exact Eid].
    unfold getPendingEmployees. apply in_map. apply filter_In.
    split; [apply in_or_app; right; left; reflexivity|].
    rewrite Ec, R, Ea, String.eqb_refl. reflexivity.
  - assert (M : map (activate uid) (users ++ [row])
                = (users ++ [setActive row 1])%list).
    { rewrite map_app, (map_activate_absent uid users I1). cbn [map].
      unfold activate. rewrite Eid, String.eqb_refl. reflexivity. }
    exists ("User " ++ username row ++ " approved successfully"),
           (users ++ [setActive row 1])%list,
           (withoutPassword (setActive row 1)).
    split; [|split].
    + unfold approveUser. rewrite M, !find_snoc.
      rewrite (find_key_absent' ur_id uid users I1).
      cbn [setActive ur_id]. rewrite Eid, String.eqb_refl. reflexivity.
    + unfold login.
      destruct (Fu users (setActive row 1) Eu Ep eq_refl) as [-> ->].
      cbn [setActive ur_role isActive]. rewrite R. reflexivity.
    + cbn [withoutPassword setActive pu_id pu_role pu_isActive ur_id ur_role
           isActive].
      repeat split; auto.
      intros c v. rewrite <- M. apply activated_not_pending.
Qed.

(** The theorem for the sign-up of an employee of a company that has one
    manager. *)
Lemma employee_signup_needs_approval_witness :
  exists m users1,
    createUser staff raviBody = (UCreated m true, users1)
    /\ login users1 "ravi" "secret2" = (Unauthorized notApproved, users1)
    /\ exists msg users2 u,
         approveUser users1 "u1" = (UApproved msg "u1" 1, users2)
         /\ login users2 "ravi" "secret2" = (LoggedIn u, users2).
Proof.
  exists (match fst (createUser staff raviBody) with
          | UCreated m _ => m
          | _ => ""
          end), (snd (createUser staff raviBody)).
  split; [vm_compute; reflexivity|].
  destruct (employee_signup_needs_approval staff
              (snd (createUser staff raviBody)) raviBody
              (match fst (createUser staff raviBody) with
               | UCreated m _ => m
               | _ => ""
               end) "u1" "ravi" "secret2" "Acme"
              eq_refl eq_refl eq_refl eq_refl eq_refl)
    as (L & _ & msg & users2 & u & A & L2 & _).
  split; [exact L|].
  exists msg, users2, u. split; [exact A | exact L2].
Defined.

(** X12.  The approval of a user.  For an id that is stored the handler
    answers with isActive 1 and afterwards no list of pending employees
    holds the id, while the users of other ids are pending exactly as
    before; for an id that is not stored it answers 404 and changes
    nothing.  It never answers anything else. *)
Theorem approval_empties_pending (users : list UserRow) (uid : string) :
  match approveUser users uid with
  | (UApproved _ i a, users') =>
      i = uid /\ a = 1 /\ In uid (map ur_id users)
      /\ (forall c v, In v (getPendingEmployees users' c) -> pu_id v <> uid)
      /\ (forall c v, pu_id v <> uid ->
            (In v (getPendingEmployees users' c)
             <-> In v (getPendingEmployees users c)))
  | (UNotFound _, users') => users' = users /\ ~ In uid (map ur_id users)
  | _ => False
  end.
Proof.
  unfold approveUser.
  destruct (find (fun x => (ur_id x =? uid)%string) users) as [user|] eqn:F.
  - apply find_some in F. destruct F as [Hin F]. apply String.eqb_eq in F.
    assert (F' : exists u', find (fun x => (ur_id x =? uid)%string)
                                 (map (activate uid) users) = Some u'
                            /\ isActive u' = 1).
    { clear -Hin F. induction users as [|x l IH]; [destruct Hin|].
      cbn [map find]. unfold activate at 1 2 3.
      destruct (String.eqb_spec (ur_id x) uid) as [E|E].
      - cbn [setActive ur_id]. rewrite E, String.eqb_refl. eexists.
        split; reflexivity.
      - apply String.eqb_neq in E. rewrite E.
        destruct Hin as [->|Hin]; [|exact (IH Hin)].
        apply String.eqb_neq in E. congruence. }
    destruct F' as (u' & -> & Ha).
    split; [reflexivity|]. split; [exact Ha|].
    split; [apply in_map_iff; exists user; auto|].
    split; [intros c v; apply activated_not_pending|].
    intros c v Hv. unfold getPendingEmployees. rewrite !in_map_iff.
    split; intros (x & Hx & Hf); apply filter_In in Hf; destruct Hf as [Hf G].
    + apply in_map_iff in Hf. destruct Hf as (y & <- & Hy).
      unfold activate in *. destruct (String.eqb_spec (ur_id y) uid) as [E|E].
      * exfalso. apply Hv. rewrite <- Hx. exact E.
      * exists y. split; [exact Hx|]. apply filter_In. auto.
    + exists x. split; [exact Hx|]. apply filter_In. split; [|exact G].
      apply in_map_iff. exists x. split; [|exact Hf]. unfold activate.
      destruct (String.eqb_spec (ur_id x) uid) as [E|E]; [|reflexivity].
      exfalso. apply Hv. rewrite <- Hx. exact E.
  - split; [reflexivity|]. intros H. apply in_map_iff in H.
    destruct H as (x & Hx & Hin). apply (find_none _ _ F) in Hin.
    rewrite Hx, String.eqb_refl in Hin. discriminate.
Qed.

Lemma no_manager_count users :
  List.length (filter (fun x => (ur_role x =? "manager")%string) users) = 0%nat
  <-> forall x, In x users -> ur_role x <> "manager".
Proof.
  induction users as [|x l IH]; cbn; [tauto|].
  destruct (String.eqb_spec (ur_role x) "manager") as [E|E]; cbn.
  - split; [discriminate|]. intros H. exfalso. exact (H x (or_introl eq_refl) E).
  - rewrite IH. split; [intros H y [<-|Hy]; auto | intros H y Hy; auto].
Qed.


End AccountFacts.

(** ** The table of exchange rates *)

Module RateFacts.

Import Text JSDate RateServer Terms Examples Cases.

Lemma countToday_zero today db :
  countToday today db = 0%nat <->
  forall r, In r db -> date_fetched r <> today.
Proof.
  unfold countToday. induction db as [|x l IH]; cbn; [tauto|].
  destruct (String.eqb_spec (date_fetched x) today) as [E|E]; cbn.
  - split; [discriminate|]. intros H. exfalso. exact (H x (or_introl eq_refl) E).
  - rewrite IH. split; [intros H r [<-|Hr]; auto | intros H r Hr; auto].
Qed.

Lemma countToday_app today (a b : RateDb) :
  countToday today (a ++ b)%list = (countToday today a + countToday today b)%nat.
Proof. unfold countToday. rewrite filter_app, length_app. reflexivity. Qed.

Lemma fetch_cases now external db :
  (countToday (todayOf now) db <> 0%nat
   /\ fetchAndStoreCurrencyRates now external db = db)
  \/ (countToday (todayOf now) db = 0%nat
      /\ fetchAndStoreCurrencyRates now external db
         = (db ++ refreshRows (todayOf now) external)%list).
Proof.
  unfold fetchAndStoreCurrencyRates.
  destruct (Nat.eqb_spec (countToday (todayOf now) db) 0) as [E|E]; cbn [negb].
  - right. split; [exact E|]. destruct external; reflexivity.
  - left. auto.
Qed.

Lemma refreshRows_today today external r :
  In r (refreshRows today external) -> date_fetched r = today.
Proof.
  destruct external as [rates|m]; cbn [refreshRows].
  - unfold rowsFor. rewrite !in_app_iff.
    intros [H|[H|[H|H]]]; revert H;
      repeat match goal with
             | |- context [match ?o with Some _ => _ | None => _ end] =>
                 destruct o
             | |- context [if ?c then _ else _] => destruct c
             end; cbn; intuition (subst; reflexivity).
  - cbn. intuition (subst; reflexivity).
Qed.

Lemma refreshRows_has_INR today external :
  In (mkRate today "INR" "INR" 1) (refreshRows today external).
Proof.
  destruct external; cbn [refreshRows].
  - rewrite !in_app_iff. right; right; right. left. reflexivity.
  - cbn. tauto.
Qed.

Lemma fetch_has_today now external db :
  countToday (todayOf now) (fetchAndStoreCurrencyRates now external db) <> 0%nat.
Proof.
  destruct (fetch_cases now external db) as [[N ->] | [Z ->]]; [exact N|].
  intros H. rewrite (countToday_zero _ _) in H.
  apply (H (mkRate (todayOf now) "INR" "INR" 1)); [|reflexivity].
  apply in_or_app. right. apply refreshRows_has_INR.
Qed.

(** X14.  The rates are refreshed at most once per UTC day: a refresh
    leaves at least one row of today, so that any later refresh on the same
    day, whatever the rate service answers then, changes nothing.  A
    refresh only appends rows dated today; no stored row is changed or
    removed. *)
Theorem rates_refresh_once_a_day (now now' : Z)
    (e1 e2 : Completion ApiRates) (db : RateDb) :
  todayOf now' = todayOf now ->
  fetchAndStoreCurrencyRates now' e2 (fetchAndStoreCurrencyRates now e1 db)
  = fetchAndStoreCurrencyRates now e1 db
  /\ countToday (todayOf now) (fetchAndStoreCurrencyRates now e1 db) <> 0%nat
  /\ exists rows,
       fetchAndStoreCurrencyRates now e1 db = (db ++ rows)%list
       /\ forall r, In r rows -> date_fetched r = todayOf now.
Proof.
  intros T. pose proof (fetch_has_today now e1 db) as H.
  split; [|split; [exact H|]].
  - destruct (fetch_cases now' e2 (fetchAndStoreCurrencyRates now e1 db))
      as [[_ E] | [Z _]]; [exact E|].
    rewrite T in Z. contradiction.
  - destruct (fetch_cases now e1 db) as [[_ ->] | [_ ->]].
    + exists []. rewrite app_nil_r. split; [reflexivity|intros r []].
    + exists (refreshRows (todayOf now) e1). split; [reflexivity|].
      intros r. apply refreshRows_today.
Qed.

(** The theorem for a refresh from the service and a second one an hour
    later, when the service fails. *)
Lemma rates_refresh_once_a_day_witness :
  todayOf anHourLater = todayOf now0
  /\ fetchAndStoreCurrencyRates anHourLater (Throw "timeout")
       (fetchAndStoreCurrencyRates now0 (Normal serviceRates) [])
     = fetchAndStoreCurrencyRates now0 (Normal serviceRates) [].
Proof.
  assert (T : todayOf anHourLater = todayOf now0) by (vm_compute; reflexivity).
  split; [exact T|].
  exact (proj1 (rates_refresh_once_a_day now0 anHourLater (Normal serviceRates)
                  (Throw "timeout") [] T)).
Defined.

Lemma refreshRows_keys_NoDup today external :
  NoDup (map rateKey (refreshRows today external)).
Proof.
  destruct external as [rates|m]; cbn [refreshRows].
  - unfold rowsFor.
    destruct (api_USD rates) as [u|]; [destruct (Qeq_bool u 0)|];
      (destruct (api_EUR rates) as [e|]; [destruct (Qeq_bool e 0)|]);
      (destruct (api_GBP rates) as [g|]; [destruct (Qeq_bool g 0)|]);
      cbn; repeat constructor; cbn; intuition discriminate.
  - cbn. repeat constructor; cbn; intuition discriminate.
Qed.

Lemma ratesUnique_fetch now external db :
  ratesUnique db -> ratesUnique (fetchAndStoreCurrencyRates now external db).
Proof.
  intros U. destruct (fetch_cases now external db) as [[_ ->] | [Z ->]];
    [exact U|].
  unfold ratesUnique. rewrite map_app.
  apply NoDup_app; [exact U | apply refreshRows_keys_NoDup |].
  intros k H1 H2. apply in_map_iff in H1, H2.
  destruct H1 as (x & Hx & Inx), H2 as (y & Hy & Iny).
  apply refreshRows_today in Iny. rewrite (countToday_zero _ _) in Z.
  apply (Z x Inx). unfold rateKey in *. congruence.
Qed.

(** X15.  The UNIQUE constraint of table [conversion_rates] is an
    invariant: when no two rows share date, source and target currency,
    this still holds after a refresh, after a conversion request and after
    a request for the exchange rates, so that the INSERTs of the refresh
    never meet a stored row of the same key. *)
Theorem rate_keys_stay_unique (now : Z) (external : Completion ApiRates)
    (db : RateDb) (amount : Q) (from to : string) :
  ratesUnique db ->
  ratesUnique (fetchAndStoreCurrencyRates now external db)
  /\ ratesUnique (snd (postConvertCurrency now external db amount from to))
  /\ ratesUnique (snd (getExchangeRates now external db)).
Proof.
  intros U. pose proof (ratesUnique_fetch now external db U) as F.
  split; [exact F|]. split.
  - unfold postConvertCurrency.
    destruct (Qeq_bool amount 0 || (from =? "")%string || (to =? "")%string);
      [exact U|].
    destruct (getRate db (todayOf now) from to); [exact U|].
    destruct (getRate _ (todayOf now) from to); exact F.
  - unfold getExchangeRates.
    destruct (filter _ db); [exact F | exact U].
Qed.

(** The theorem on the empty table. *)
Lemma rate_keys_stay_unique_witness :
  ratesUnique []
  /\ ratesUnique (fetchAndStoreCurrencyRates now0 (Normal serviceRates) [])
  /\ ratesUnique (snd (postConvertCurrency now0 (Throw "timeout") [] 100
                                           "USD" "INR")).
Proof.
  assert (U : ratesUnique []) by constructor.
  split; [exact U|].
  destruct (rate_keys_stay_unique now0 (Normal serviceRates) [] 100 "USD" "INR" U)
    as (H1 & _).
  destruct (rate_keys_stay_unique now0 (Throw "timeout") [] 100 "USD" "INR" U)
    as (_ & H2 & _).
  split; [exact H1 | exact H2].
Defined.

End RateFacts.

(** ** The route of the rates *)

Module RoutingFacts.

Import Text RateServer Currency Routing Spec Examples Cases.

Lemma dispatch_before_rates path :
  dispatch path = Some ReactApp
  \/ exists h, dispatch path = Some h /\ h <> ReactApp /\ h <> ExchangeRates.
Proof.
  unfold dispatch, getRoutes. cbn [find fst].
  repeat match goal with
         | |- context [if matches ?p path then _ else _] =>
             destruct (matches p path);
             [right; eexists; cbn [option_map snd];
              split; [reflexivity | split; discriminate] |]
         end.
  left. reflexivity.
Qed.



End RoutingFacts.

(** ** The cache and the fallback of the converter *)

Module ConverterFacts.

Import RateServer Currency Spec Terms Examples Cases.

Lemma lookupOrOne_nonzero t f k : ~ lookupOrOne t f k == 0.
Proof.
  unfold lookupOrOne.
  destruct (find _ t) as [[? inner]|]; [|discriminate].
  destruct (find _ inner) as [[? v]|]; [|discriminate].
  destruct (Qeq_bool v 0) eqn:E; [discriminate|].
  intros H. apply Qeq_bool_iff in H. congruence.
Qed.

Lemma defaultRates_usable : ratesUsable defaultRates.
Proof. unfold ratesUsable. cbn. repeat split; discriminate. Qed.

(** The rates of a refresh can always be divided by. *)
Lemma refreshed_usable now ratesResponse cache :
  noFreshCache now cache ->
  ratesUsable (rates (fst (fetchCurrencyRates now ratesResponse cache INR))).
Proof.
  intros H. rewrite (CurrencyFacts.refresh_when_stale _ _ _ H).
  destruct ratesResponse; cbn [fst rates]; [|apply defaultRates_usable].
  unfold ratesUsable. cbn.
  repeat split; try apply lookupOrOne_nonzero.
Qed.

(** A second call at the same instant reads the same rates. *)
Lemma fetch_again now ratesResponse cache :
  noFreshCache now cache ->
  fetchCurrencyRates now ratesResponse
    (snd (fetchCurrencyRates now ratesResponse cache INR)) INR
  = (fst (fetchCurrencyRates now ratesResponse cache INR),
     snd (fetchCurrencyRates now ratesResponse cache INR)).
Proof.
  intros H. rewrite (CurrencyFacts.refresh_when_stale _ _ _ H).
  destruct ratesResponse as [data|m]; cbn [fst snd].
  - unfold fetchCurrencyRates. cbn [cachedRates base cacheTimestamp eqbC].
    rewrite Z.sub_diag. reflexivity.
  - rewrite (CurrencyFacts.refresh_when_stale _ _ _ H). reflexivity.
Qed.

Lemma convert_fallback now response ratesResponse cache x a b :
  a <> b -> requestFailed response ->
  convertCurrency now response ratesResponse cache x a b
  = (Normal (bridged (rates (fst (fetchCurrencyRates now ratesResponse cache INR)))
                     x a b),
     snd (fetchCurrencyRates now ratesResponse cache INR)).
Proof.
  intros N F. unfold convertCurrency.
  destruct (CurrencyFacts.eqbC_spec a b) as [E|_]; [contradiction|].
  destruct (CurrencyFacts.requestFailed_throws response F) as [m ->].
  destruct (fetchCurrencyRates now ratesResponse cache INR) as [r cache'].
  cbn [fst snd]. destruct a, b; try contradiction; reflexivity.
Qed.

(** X18.  The rates are cached for one hour: after a refresh that the
    backend answered, every call for base INR less than an hour later
    returns the same rates and leaves the cache as it is, whatever the
    backend would answer then.  A refresh that fails returns the fixed
    rates and never touches the cache, so that the next call tries again. *)
Theorem rates_cached_for_an_hour (now now' : Z) (data : RateTable)
    (cache : Cache) (later : Completion RateTable) (m : string) :
  noFreshCache now cache ->
  now <= now' < now + CACHE_LIFETIME ->
  fetchCurrencyRates now' later
    (snd (fetchCurrencyRates now (Normal data) cache INR)) INR
  = fetchCurrencyRates now (Normal data) cache INR
  /\ fetchCurrencyRates now (Throw m) cache INR
     = (mkCurrencyRates INR defaultRates now, cache).
Proof.
  intros H T. rewrite !(CurrencyFacts.refresh_when_stale _ _ _ H).
  split; [|reflexivity].
  cbn [snd]. unfold fetchCurrencyRates.
  cbn [cachedRates base cacheTimestamp eqbC andb].
  replace (now' - now <? CACHE_LIFETIME) with true; [reflexivity|].
  symmetry. apply Z.ltb_lt. lia.
Qed.

(** The theorem for a first call at 10:00 and a second one at 10:30, when
    the backend no longer answers. *)
Lemma rates_cached_for_an_hour_witness :
  fetchCurrencyRates (now0 + 1800000) (Throw "Failed to fetch")
    (snd (fetchCurrencyRates now0 (Normal usdOnly) coldCache INR)) INR
  = fetchCurrencyRates now0 (Normal usdOnly) coldCache INR
  /\ rUSD (rates (fst (fetchCurrencyRates now0 (Normal usdOnly) coldCache INR)))
     = 125 # 10000.
Proof.
  split; [|reflexivity].
  refine (proj1 (rates_cached_for_an_hour now0 (now0 + 1800000) usdOnly
                   coldCache (Throw "Failed to fetch") "Failed to fetch" _ _)).
  - exact I.
  - unfold now0, CACHE_LIFETIME. lia.
Defined.

(** X19.  The fallback of the converter divides by no zero rate.  When
    the conversion request fails and nothing usable is cached, the rates
    that the fallback multiplies and divides by are not zero (a rate that
    the backend leaves out or gives as zero is read as 1, and the fixed
    rates are not zero) and the rate of INR is 1; the result is the amount
    carried through INR with these rates, and a second call at the same
    instant, with the same answer of the backend, reads the same rates. *)
Theorem fallback_divides_by_no_zero (now : Z)
    (response : option ConvertResponse)
    (ratesResponse : Completion RateTable) (cache : Cache) (x : Q)
    (a b : Currency) :
  requestFailed response ->
  noFreshCache now cache ->
  a <> b ->
  let fetched := fetchCurrencyRates now ratesResponse cache INR in
  ratesUsable (rates (fst fetched))
  /\ convertCurrency now response ratesResponse cache x a b
     = (Normal (bridged (rates (fst fetched)) x a b), snd fetched)
  /\ fetchCurrencyRates now ratesResponse (snd fetched) INR = fetched.
Proof.
  intros F H N fetched. split; [| split].
  - exact (refreshed_usable now ratesResponse cache H).
  - exact (convert_fallback now response ratesResponse cache x a b N F).
  - unfold fetched. rewrite (fetch_again now ratesResponse cache H).
    symmetry. apply surjective_pairing.
Qed.

(** The theorem for 100 USD to INR with the backend unreachable. *)
Lemma fallback_divides_by_no_zero_witness :
  ratesUsable defaultRates
  /\ convertCurrency now0 None (Throw "Failed to fetch") coldCache 100 USD INR
     = (Normal (bridged defaultRates 100 USD INR), coldCache).
Proof.
  destruct (fallback_divides_by_no_zero now0 None (Throw "Failed to fetch")
              coldCache 100 USD INR I I ltac:(discriminate))
    as (U & C & _).
  split; [exact U | exact C].
Defined.

End ConverterFacts.

Module CrossRateFacts.

Import RateServer Currency Spec Terms RateFacts.

Lemma getRate_inrBased db today f t :
  inrBased db -> f <> "INR" -> t <> "INR" -> getRate db today f t = None.
Proof.
  intros B Nf Nt. unfold getRate.
  destruct (find _ db) as [r|] eqn:F; [|reflexivity].
  exfalso. apply find_some in F. destruct F as [Hr F].
  rewrite !andb_true_iff, !String.eqb_eq in F. destruct F as [[_ F1] F2].
  destruct (B r Hr); congruence.
Qed.

Lemma inrBased_fetch now external db :
  inrBased db -> inrBased (fetchAndStoreCurrencyRates now external db).
Proof.
  intros B. destruct (fetch_cases now external db) as [[_ ->] | [_ ->]];
    [exact B|].
  intros r Hr. apply in_app_or in Hr. destruct Hr as [Hr|Hr]; [exact (B r Hr)|].
  revert Hr. destruct external as [rates|m]; cbn [refreshRows].
  - unfold rowsFor. rewrite !in_app_iff.
    intros [H|[H|[H|H]]]; revert H;
      repeat match goal with
             | |- context [match ?o with Some _ => _ | None => _ end] =>
                 destruct o
             | |- context [if ?c then _ else _] => destruct c
             end; cbn; intuition (subst; cbn; auto).
  - cbn. intuition (subst; cbn; auto).
Qed.

(** X20.  The server serves no cross rate.  While every stored rate is
    from INR or to INR, which every refresh maintains, a conversion
    request between two currencies other than INR is never answered with a
    result, whatever the rate service gives; the converter of the client
    then takes its fallback and carries the amount through INR. *)
Theorem cross_rates_are_bridged (now now' : Z)
    (external : Completion ApiRates) (db : RateDb) (x : Q) (a b : Currency)
    (ratesResponse : Completion RateTable) (cache : Cache) :
  inrBased db -> a <> INR -> b <> INR -> a <> b ->
  requestFailed
    (Some (fst (postConvertCurrency now external db x (code a) (code b))))
  /\ inrBased (snd (postConvertCurrency now external db x (code a) (code b)))
  /\ fst (convertCurrency now'
            (Some (fst (postConvertCurrency now external db x (code a)
                                            (code b))))
            ratesResponse cache x a b)
     = Normal (bridged
                 (rates (fst (fetchCurrencyRates now' ratesResponse cache INR)))
                 x a b).
Proof.
  intros B Na Nb Nab.
  assert (Ca : code a <> "INR") by (destruct a; try discriminate; contradiction).
  assert (Cb : code b <> "INR") by (destruct b; try discriminate; contradiction).
  pose proof (inrBased_fetch now external db B) as B'.
  assert (R : requestFailed
                (Some (fst (postConvertCurrency now external db x (code a)
                                                (code b))))
              /\ inrBased (snd (postConvertCurrency now external db x (code a)
                                                    (code b)))).
  { unfold postConvertCurrency.
    destruct (Qeq_bool x 0 || (code a =? "")%string || (code b =? "")%string);
      [split; [exact I|exact B]|].
    rewrite (getRate_inrBased db _ _ _ B Ca Cb).
    rewrite (getRate_inrBased _ _ _ _ B' Ca Cb).
    split; [exact I|exact B']. }
  destruct R as [R1 R2]. split; [exact R1|]. split; [exact R2|].
  apply CurrencyFacts.convert_bridged; assumption.
Qed.

(** The theorem for 100 USD to EUR on a server without stored rates. *)
Lemma cross_rates_are_bridged_witness :
  fst (postConvertCurrency Examples.now0 (Normal Cases.serviceRates) [] 100
                           "USD" "EUR") = RateNotFound
  /\ fst (convertCurrency Examples.now0
            (Some (fst (postConvertCurrency Examples.now0
                          (Normal Cases.serviceRates) [] 100
                          (code USD) (code EUR))))
            (Throw "Failed to fetch") (mkCache None 0) 100 USD EUR)
     = Normal (bridged defaultRates 100 USD EUR).
Proof.
  split; [vm_compute; reflexivity|].
  refine (proj2 (proj2 (cross_rates_are_bridged Examples.now0 Examples.now0
                          (Normal Cases.serviceRates) [] 100 USD EUR
                          (Throw "Failed to fetch") (mkCache None 0)
                          _ _ _ _)));
    try discriminate.
  intros r [].
Defined.

End CrossRateFacts.

(** ** The fraud heuristics *)

Module FraudFacts.

Import Text JSDate Server Client Receipt.

Lemma toLowerCase_app a b : toLowerCase (a ++ b) = toLowerCase a ++ toLowerCase b.
Proof. induction a as [|c a IH]; cbn; [reflexivity|]. rewrite IH. reflexivity. Qed.

Lemma toLowerCase_length a : String.length (toLowerCase a) = String.length a.
Proof. induction a as [|c a IH]; cbn; [reflexivity|]. rewrite IH. reflexivity. Qed.

Lemma substring_prefix k b : substring 0 (String.length k) (k ++ b) = k.
Proof. induction k as [|c k IH]; cbn; [destruct b; reflexivity|]. rewrite IH. reflexivity. Qed.

Lemma substring_skip a n s :
  substring (String.length a) n (a ++ s) = substring 0 n s.
Proof. induction a as [|c a IH]; cbn; [reflexivity|exact IH]. Qed.

(** [includes] finds a string wherever it occurs. *)
Lemma includes_middle a k b : k <> "" -> includes (a ++ k ++ b) k = true.
Proof.
  intros N. unfold includes.
  destruct (index 0 k (a ++ k ++ b)) eqn:E; [reflexivity|].
  exfalso.
  apply (index_correct3 0 (String.length a) k (a ++ k ++ b) E N);
    [apply Nat.le_0_l|].
  rewrite substring_skip. apply substring_prefix.
Qed.

Lemma app_not_empty a k b : k <> "" -> (a ++ k ++ b =? "")%string = false.
Proof.
  intros N. destruct a; cbn; [|reflexivity].
  destruct k; [contradiction|reflexivity].
Qed.

(** X21.  The keyword rule of the fraud heuristic reads the description
    without regard to case and finds a keyword wherever it stands: an
    expense whose description holds gift, personal, cash, advance or
    reimbursement, in any mix of upper and lower case, between any other
    text, is flagged, with a reason that names a suspicious keyword. *)
Theorem keyword_is_found_in_any_case (tza now : Z) (e : Expense)
    (pre w post : string) :
  description e = pre ++ w ++ post ->
  In (toLowerCase w) suspiciousKeywords ->
  fst (detectFraud tza now e) = true
  /\ exists k,
       In k suspiciousKeywords
       /\ In ("Description contains suspicious keyword: " ++ dquote ++ k
              ++ dquote)
             (snd (detectFraud tza now e)).
Proof.
  intros D K.
  assert (W : w <> "").
  { intros ->. cbn in K. intuition discriminate. }
  assert (L : toLowerCase w <> "").
  { destruct w; [contradiction|discriminate]. }
  unfold detectFraud. rewrite D, (app_not_empty pre w post W).
  rewrite !toLowerCase_app.
  destruct (find (fun keyword =>
                    includes (toLowerCase pre ++ toLowerCase w
                              ++ toLowerCase post) keyword)
                 suspiciousKeywords) as [k|] eqn:F.
  - apply find_some in F. destruct F as [Hk _].
    cbn [fst snd]. split.
    + rewrite !length_app. cbn [List.length].
      rewrite !Nat.add_succ_r. reflexivity.
    + exists k. split; [exact Hk|].
      rewrite !in_app_iff. right; right; right. left. reflexivity.
  - exfalso. apply (find_none _ _ F) in K.
    rewrite includes_middle in K by exact L. discriminate.
Qed.

(** The theorem for a description that mentions Cash in the middle. *)
Lemma keyword_is_found_in_any_case_witness :
  fst (detectFraud Examples.utc Examples.now0
         (mkExpense "e7" "u1" 10000 "INR" "2024-03-05" "Travelling"
                    "Paid in Cash to the driver" None "pending" None ""))
  = true.
Proof.
  refine (proj1 (keyword_is_found_in_any_case Examples.utc Examples.now0
                   (mkExpense "e7" "u1" 10000 "INR" "2024-03-05" "Travelling"
                      "Paid in Cash to the driver" None "pending" None "")
                   "Paid in " "Cash" " to the driver" eq_refl _)).
  cbn. tauto.
Defined.

(** The heuristic on a text of 20 characters or more. *)
Lemma receipt_long random receiptText amount cat :
  (20 <= String.length receiptText)%nat ->
  detectFraudInReceipt random receiptText amount cat
  = let high :=
        truthyN amount
        && match typicalMaxAmounts cat with
           | Some typicalMax => 3 * typicalMax <? 2 * orZero amount
           | None => false
           end in
    let drawn := if Qlt_le_dec random (5 # 100) then true else false in
    mkFraud (high || drawn)
            ((if high
              then [("Amount is unusually high for " ++ cat
                     ++ " category")%string]
              else [])
             ++ (if drawn
                 then ["Suspicious pattern detected in receipt text"]
                 else []))%list.
Proof.
  intros L. unfold detectFraudInReceipt, flag.
  destruct (String.eqb_spec receiptText "") as [E|E];
    [subst; cbn in L; lia|].
  destruct (Z.ltb_spec (Z.of_nat (String.length receiptText)) 20) as [S|S];
    [lia|]. cbn [orb].
  destruct (truthyN amount); cbn [andb];
    [destruct (typicalMaxAmounts cat) as [m|];
     [destruct (3 * m <? 2 * orZero amount)|]|];
    destruct (Qlt_le_dec random (5 # 100)); reflexivity.
Qed.

Lemma typicalMax_pos cat m : typicalMaxAmounts cat = Some m -> 0 < m.
Proof.
  unfold typicalMaxAmounts.
  repeat match goal with
         | |- context [if ?c then _ else _] => destruct c
         end; intros H; inversion H; lia.
Qed.

(** X22.  The receipt heuristic.  Its flag is set exactly when it gives a
    reason, and it gives at most two.  A receipt text of fewer than 20
    characters is flagged for that alone, whatever the amount.  For a
    longer text and one of the six categories, the receipt passes exactly
    when the amount is at most one and a half times the typical maximum of
    the category and the random draw is at least 0.05; so one receipt in
    twenty is flagged whatever it says. *)
Theorem receipt_flag_and_reasons (random : Q) (receiptText : string)
    (amount : option Z) (cat : string) :
  let r := detectFraudInReceipt random receiptText amount cat in
  (isFraud r = true <-> reasons r <> [])
  /\ (List.length (reasons r) <= 2)%nat
  /\ ((String.length receiptText < 20)%nat ->
      r = mkFraud true ["Receipt text is too short or missing"])
  /\ ((20 <= String.length receiptText)%nat ->
      forall typicalMax,
        typicalMaxAmounts cat = Some typicalMax ->
        (isFraud r = false <->
         2 * orZero amount <= 3 * typicalMax /\ (5 # 100 <= random)%Q)).
Proof.
  cbv zeta.
  destruct (Nat.lt_ge_cases (String.length receiptText) 20) as [S|L].
  - assert (E : detectFraudInReceipt random receiptText amount cat
                = mkFraud true ["Receipt text is too short or missing"]).
    { unfold detectFraudInReceipt, flag.
      destruct (receiptText =? "")%string; [reflexivity|].
      destruct (Z.ltb_spec (Z.of_nat (String.length receiptText)) 20);
        [reflexivity|lia]. }
    rewrite E. cbn. repeat split; try discriminate; try lia.
  - rewrite (receipt_long _ _ _ _ L). cbv zeta. cbn [isFraud reasons].
    split; [|split; [|split; [lia|]]].
    + destruct (truthyN amount && _); destruct (Qlt_le_dec random (5 # 100));
        cbn; split; congruence.
    + destruct (truthyN amount && _); destruct (Qlt_le_dec random (5 # 100));
        cbn; lia.
    + intros _ m M. rewrite M. pose proof (typicalMax_pos _ _ M) as P.
      rewrite orb_false_iff, andb_false_iff, Z.ltb_ge.
      assert (A : truthyN amount = false -> orZero amount = 0).
      { destruct amount as [a|]; cbn; [|reflexivity].
        destruct (Z.eqb_spec a 0); [auto|discriminate]. }
      destruct (Qlt_le_dec random (5 # 100)) as [R|R].
      * split; [intros [_ H]; discriminate|].
        intros [_ H]. exfalso. exact (Qlt_not_le _ _ R H).
      * split; [intros [[H|H] _]; split; auto; rewrite (A H); lia|].
        intros [H _]. split; [right; exact H|reflexivity].
Qed.

(** The theorem for a long receipt text: a taxi receipt of 120.00 passes
    on a draw of 0.5. *)
Lemma receipt_flag_and_reasons_witness :
  isFraud (detectFraudInReceipt (1 # 2) "City Cabs, total INR 120.00"
                                (Some 12000) "Travelling") = false.
Proof.
  destruct (receipt_flag_and_reasons (1 # 2) "City Cabs, total INR 120.00"
              (Some 12000) "Travelling") as (_ & _ & _ & H).
  apply (H ltac:(cbn; lia) 1000000 eq_refl).
  split; [cbn; lia | discriminate].
Defined.

End FraudFacts.

(** ** The submission of the form *)

Module SubmissionFacts.

Import Text JSDate Server Client Terms StoreFacts.

(** X23.  The rule of the fraud heuristic for dates in the future cannot
    fire on a submission of the form: when the form has validated at the
    instant [now], the heuristic run at that instant on an expense with the
    date of the form gives no reason about a future date, in any time
    zone. *)
Theorem validated_date_is_not_future (formatCurrency : Z -> string -> string)
    (tza now : Z) (clientPolicies : list Policy) (f : FormState)
    (e : Expense) :
  hasBlockingErrors (validateForm formatCurrency now clientPolicies f) = false ->
  date e = f_date f ->
  ~ In "Expense dated in the future" (snd (detectFraud tza now e)).
Proof.
  unfold hasBlockingErrors, validateForm.
  cbn [err_amount err_date err_description].
  intros H D.
  apply orb_false_iff in H. destruct H as [H _].
  apply orb_false_iff in H. destruct H as [_ H].
  destruct (f_date f =? "")%string; [discriminate|].
  unfold detectFraud. cbn [snd]. rewrite D.
  assert (F : match parseDate (f_date f) with
              | Some t => if now <? t then ["Expense dated in the future"]
                          else []
              | None => []
              end = []).
  { destruct (parseDate (f_date f)) as [t|]; [|reflexivity].
    destruct (now <? t); [discriminate|reflexivity]. }
  rewrite F. rewrite !in_app_iff. intros [I|[I|[I|I]]].
  - destruct (industryBenchmarks (category e)); [|destruct I].
    destruct (_ <? _); [|destruct I]. destruct I as [I|[]]. discriminate.
  - destruct (parseDate (f_date f)); [|destruct I].
    destruct (_ || _); [|destruct I]. destruct I as [I|[]]. discriminate.
  - destruct I.
  - destruct (description e =? "")%string; [destruct I|].
    destruct (find _ _); [|destruct I]. destruct I as [I|[]]. discriminate.
Qed.

(** The theorem for a form filled on 6 March 2024 with the date of the day
    before. *)
Lemma validated_date_is_not_future_witness :
  ~ In "Expense dated in the future"
       (snd (detectFraud Examples.ist Examples.now0 Examples.pendingRow)).
Proof.
  apply (validated_date_is_not_future Examples.plainFormat Examples.ist
           Examples.now0 defaultPolicies
           (mkForm 300000 "INR" "2024-03-05" "Travelling" "Train to Delhi"
                   None None));
    reflexivity.
Defined.

Lemma addExpense_outcome tzaC tzaS now uuid db ne :
  match addExpense tzaC tzaS now uuid db ne with
  | (Normal res, db') =>
      exists row,
        db' = withRow db row /\ id row = uuid /\ r_id res = uuid
        /\ userId row = n_userId ne /\ amount row = n_amount ne
        /\ date row = n_date ne /\ category row = n_category ne
        /\ (status row = "approved" \/ status row = "pending")
  | (Throw _, db') => db' = db
  end.
Proof.
  unfold addExpense, api_addExpense.
  destruct (detectFraud tzaC now _) as [isFraud reasons].
  match goal with |- context [postExpense tzaS now db ?b] => set (body := b) end.
  destruct (postExpense_cases tzaS now db body)
    as [[err ->] | [[err ->] | (st & n & M & C & X & ->)]]; try reflexivity.
  pose proof (ClientFacts.checkPolicy_status _ _ _ _ _ C) as St.
  assert (Ho : orElseS (Some st) "pending" = st)
    by (destruct St as [-> | ->]; reflexivity).
  rewrite Ho. eexists. split; [reflexivity|].
  cbn [storedRow ofBody id userId amount date category status r_id].
  subst body. cbn [b_id b_userId b_amount b_date b_category].
  apply missingFields_false in M. cbn in M.
  destruct M as (Mi & Mu & _ & _ & Md & Mc & _).
  injection Mi as Mi. injection Mu as Mu. injection Md as Md.
  injection Mc as Mc.
  repeat split; auto.
Qed.

Lemma submitWithRetry_outcome fuel tzaC tzaS now uuid ne :
  forall k db,
    match submitWithRetry fuel k tzaC tzaS now uuid db ne with
    | (Normal res, db') =>
        exists row j,
          db' = withRow db row /\ (k <= j < k + fuel)%nat /\ id row = uuid j
          /\ r_id res = uuid j
          /\ userId row = n_userId ne /\ amount row = n_amount ne
          /\ date row = n_date ne /\ category row = n_category ne
          /\ (status row = "approved" \/ status row = "pending")
    | (Throw _, db') => db' = db
    end.
Proof.
  induction fuel as [|fuel IH]; intros k db; cbn [submitWithRetry];
    [reflexivity|].
  pose proof (addExpense_outcome tzaC tzaS now (uuid k) db ne) as A.
  destruct (addExpense tzaC tzaS now (uuid k) db ne) as [[res|err] db'].
  - destruct A as (row & A1 & A2 & A3 & A4 & A5 & A6 & A7 & A8).
    exists row, k. repeat split; auto; lia.
  - subst db'. destruct fuel as [|fuel']; [reflexivity|].
    specialize (IH (S k) db).
    destruct (submitWithRetry (S fuel') (S k) tzaC tzaS now uuid db ne)
      as [[res|err'] db'']; [|exact IH].
    destruct IH as (row & j & I1 & I2 & I3 & I4 & I5 & I6 & I7 & I8 & I9).
    exists row, j. repeat split; auto; lia.
Qed.


End SubmissionFacts.

(** ** The policy page *)

Module PolicyPageFacts.

Import Text Server Client StoreFacts.

Lemma quarterRounded_bounds m :
  0 < m ->
  0 <= quarterRounded m <= m
  /\ m - 200 < 4 * quarterRounded m <= m + 200
  /\ (quarterRounded m = 0 <-> m < 200).
Proof.
  unfold quarterRounded. intros H. Z.to_euclidean_division_equations. lia.
Qed.

(** X25.  What the policy page saves.  A save is refused, with nothing
    sent, when the monthly limit is missing, zero or negative or the
    description is blank.  Otherwise, for a category that the page knows,
    the policy stored keeps the maximum and the daily limit of the known
    policy and gets as weekly limit a quarter of the monthly limit, rounded
    to whole units: never above the monthly limit, and zero exactly when
    the monthly limit is below 2.00, in which case the weekly check of the
    server passes every total. *)
Theorem saved_policy_quarters_the_month (currentUser : option User)
    (clientPolicies : list Policy) (db : Db) (ep existing : Policy) :
  find (fun p => (p_category p =? p_category ep)%string) clientPolicies
  = Some existing ->
  match handleSave currentUser clientPolicies db (Some ep) with
  | (Saved, db') =>
      exists m w,
        monthlyLimit ep = Some m /\ 0 < m /\ w = quarterRounded m
        /\ trim (p_description ep) <> ""
        /\ (forall old, getPolicy db (p_category ep) = Some old ->
              getPolicy db' (p_category ep)
              = Some (mkPolicy (p_category ep) (maxAmount existing)
                               (dailyLimit existing) (Some w) (Some m)
                               (p_description ep) (p_currency ep)))
        /\ 0 <= w <= m /\ m - 200 < 4 * w <= m + 200
        /\ (w = 0 <-> m < 200)
        /\ (m < 200 -> forall total, exceeds (Some w) total = false)
  | (Invalid _, db') =>
      db' = db
      /\ (orZero (monthlyLimit ep) <= 0 \/ trim (p_description ep) = "")
  | (NothingToSave, _) => False
  | (SaveFailed _, _) => False
  end.
Proof.
  intros F. unfold handleSave.
  destruct (Z.leb_spec (orZero (monthlyLimit ep)) 0) as [L|L]; [auto|].
  destruct (String.eqb_spec (trim (p_description ep)) "") as [T|T]; [auto|].
  rewrite F. unfold updatePolicy, putPolicy. cbn [p_category].
  destruct (monthlyLimit ep) as [m|] eqn:M; [|cbn in L; lia].
  cbn [orZero] in *.
  destruct (quarterRounded_bounds m L) as (B1 & B2 & B3).
  exists m, (quarterRounded m).
  repeat split; try tauto; try lia.
  - intros old G. unfold getPolicy in *. cbn [policies].
    rewrite find_map_updatePolicyRow, G. cbn [option_map].
    apply find_some in G. destruct G as [_ G].
    unfold updatePolicyRow. rewrite G. apply String.eqb_eq in G.
    cbn [maxAmount dailyLimit weeklyLimit monthlyLimit p_description
         p_currency]. rewrite G. reflexivity.
  - intros S total. apply B3 in S. rewrite S. reflexivity.
Qed.

(** The theorem for the travel policy with a monthly limit of 1.00. *)
Lemma saved_policy_quarters_the_month_witness :
  getPolicy
    (snd (handleSave (Some Examples.manager) defaultPolicies Examples.dbEmpty
                     (Some Examples.editedTravel))) "Travelling"
  = Some (mkPolicy "Travelling" None None (Some 0) (Some 100) "Transport" "INR").
Proof.
  pose proof (saved_policy_quarters_the_month (Some Examples.manager)
                defaultPolicies Examples.dbEmpty Examples.editedTravel
                (mkPolicy "Travelling" None None (Some 250000) (Some 1000000)
                   "Transportation costs including airfare, train, taxi, etc."
                   "INR") eq_refl) as H.
  destruct (handleSave (Some Examples.manager) defaultPolicies Examples.dbEmpty
                       (Some Examples.editedTravel)) as [[| | |] db'] eqn:E;
    try contradiction; try (vm_compute in E; discriminate).
  destruct H as (m & w & Hm & _ & Hw & _ & Hg & _).
  injection Hm as <-. subst w. cbn [snd].
  exact (Hg _ eq_refl).
Defined.

End PolicyPageFacts.

(** ** The summaries of the expense context *)

Module SummaryFacts.

Import Text Server Summaries Spec Terms.

Lemma list_sum_cons a l : list_sum (a :: l) = (a + list_sum l)%nat.
Proof. reflexivity. Qed.

Lemma filter_or_disjoint (p q : Expense -> bool) l :
  (forall e, p e = true -> q e = false) ->
  List.length (filter (fun e => p e || q e) l)
  = (List.length (filter p l) + List.length (filter q l))%nat.
Proof.
  intros D. induction l as [|x l IH]; cbn [filter]; [reflexivity|].
  destruct (p x) eqn:P; cbn [orb].
  - rewrite (D x P). cbn [List.length]. rewrite IH. lia.
  - destruct (q x); cbn [List.length]; rewrite IH; lia.
Qed.

Lemma summary_over (cats : list string) l :
  NoDup cats ->
  list_sum (map (fun cat =>
                   List.length (filter (fun e => (category e =? cat)%string) l))
                cats)
  = List.length
      (filter (fun e => existsb (fun cat => (category e =? cat)%string) cats) l).
Proof.
  induction cats as [|c cs IH]; intros N.
  - cbn. induction l; cbn; auto.
  - inversion N as [|? ? Hc Ncs]; subst.
    cbn [existsb]. rewrite !map_cons, list_sum_cons.
    rewrite (filter_or_disjoint
               (fun e => (category e =? c)%string)
               (fun e => existsb (fun cat => (category e =? cat)%string) cs) l).
    + rewrite (IH Ncs). reflexivity.
    + intros e E. apply String.eqb_eq in E.
      destruct (existsb _ cs) eqn:X; [|reflexivity].
      apply existsb_exists in X. destruct X as (c' & Hc' & E').
      apply String.eqb_eq in E'. exfalso. apply Hc. congruence.
Qed.

Lemma categories_NoDup : NoDup categories.
Proof.
  unfold categories. repeat constructor; cbn; intuition discriminate.
Qed.

Lemma filter_none l u : existsb (ofUser u) l = false -> filter (ofUser u) l = [].
Proof.
  induction l as [|x l IH]; [reflexivity|]. cbn [existsb filter].
  intros X. apply orb_false_iff in X. destruct X as [X1 X2].
  rewrite X1. apply IH. exact X2.
Qed.

Section NumberFacts.

Variable Num : Type.
Variable number : Z -> Num.
Variable plus : Num -> Num -> Num.

(** X26.  The summary by category has one entry per category, in the
    fixed order.  The entry of a category holds the number of the expenses
    of that category and, as its total, their amounts added to 0 one after
    the other in the order of the list, whatever the addition of numbers
    rounds.  The counts add up to the number of the expenses of the six
    categories: an expense of any other category is left out, and each of
    the others is counted once. *)
Theorem category_summary_accounts_once (expenses : list Expense) :
  map cs_category (getCategorySummary number plus expenses) = categories
  /\ (forall s, In s (getCategorySummary number plus expenses) ->
        let own :=
          filter (fun e => (category e =? cs_category s)%string) expenses in
        cs_count s = List.length own
        /\ cs_total s = addedUp number plus own)
  /\ list_sum (map cs_count (getCategorySummary number plus expenses))
     = List.length (filter inSummary expenses)
  /\ ((forall e, In e expenses -> In (category e) categories) ->
      list_sum (map cs_count (getCategorySummary number plus expenses))
      = List.length expenses).
Proof.
  assert (C : list_sum (map cs_count (getCategorySummary number plus expenses))
              = List.length (filter inSummary expenses)).
  { unfold getCategorySummary. rewrite map_map. cbn [cs_count].
    exact (summary_over categories expenses categories_NoDup). }
  split; [unfold getCategorySummary; rewrite map_map; apply map_id|].
  split.
  { intros s Hs. unfold getCategorySummary in Hs. apply in_map_iff in Hs.
    destruct Hs as (cat & <- & _). cbn. split; reflexivity. }
  split; [exact C|].
  intros A.
  assert (F : filter inSummary expenses = expenses).
  { clear -A. induction expenses as [|x l IH]; [reflexivity|]. cbn [filter].
    assert (X : inSummary x = true).
    { apply existsb_exists. exists (category x).
      split; [apply A; left; reflexivity|apply String.eqb_refl]. }
    rewrite X, IH; [reflexivity|]. intros e He. apply A. right. exact He. }
  rewrite C, F. reflexivity.
Qed.

(** The entry of a user in the map. *)
Lemma entry_addTo (m : list (UserSummary Num)) e u :
  find (fun s => (us_userId s =? u)%string) (addTo number plus m e)
  = if (userId e =? u)%string then
      match find (fun s => (us_userId s =? u)%string) m with
      | Some s => Some (mkUserSummary (us_userId s) (us_userName s)
                                      (plus (us_total s) (number (amount e)))
                                      (us_count s + 1))
      | None => Some (mkUserSummary (userId e) ""
                                    (plus (number 0) (number (amount e)))
                                    (0 + 1))
      end
    else find (fun s => (us_userId s =? u)%string) m.
Proof.
  induction m as [|s m IH]; cbn [addTo find us_userId].
  - destruct (userId e =? u)%string; reflexivity.
  - destruct (String.eqb_spec (us_userId s) (userId e)) as [E|E];
      cbn [find us_userId].
    + destruct (String.eqb_spec (userId e) u);
        destruct (String.eqb_spec (us_userId s) u); try congruence;
        reflexivity.
    + destruct (String.eqb_spec (us_userId s) u) as [E'|E'].
      * destruct (String.eqb_spec (userId e) u); [congruence|reflexivity].
      * exact IH.
Qed.

Lemma keys_addTo (m : list (UserSummary Num)) e :
  map us_userId (addTo number plus m e)
  = if existsb (fun s => (us_userId s =? userId e)%string) m
    then map us_userId m
    else (map us_userId m ++ [userId e])%list.
Proof.
  induction m as [|s m IH]; cbn [addTo map existsb app us_userId];
    [reflexivity|].
  destruct (us_userId s =? userId e)%string; cbn [orb map]; [reflexivity|].
  rewrite IH. destruct (existsb _ m); reflexivity.
Qed.

Lemma counts_addTo (m : list (UserSummary Num)) e :
  list_sum (map us_count (addTo number plus m e))
  = S (list_sum (map us_count m)).
Proof.
  induction m as [|s m IH]; cbn [addTo map].
  - reflexivity.
  - destruct (us_userId s =? userId e)%string;
      rewrite !map_cons, !list_sum_cons; cbn [us_count].
    + lia.
    + rewrite IH. lia.
Qed.

Lemma getUserSummary_snoc l e :
  getUserSummary number plus (l ++ [e])
  = addTo number plus (getUserSummary number plus l) e.
Proof. unfold getUserSummary. rewrite fold_left_app. reflexivity. Qed.

Lemma summary_keys l :
  NoDup (map us_userId (getUserSummary number plus l))
  /\ forall u, In u (map us_userId (getUserSummary number plus l))
               <-> In u (map userId l).
Proof.
  induction l as [|e l [IH1 IH2]] using rev_ind.
  - cbn. split; [constructor|tauto].
  - rewrite getUserSummary_snoc, keys_addTo, map_app. cbn [map].
    destruct (existsb _ (getUserSummary number plus l)) eqn:X.
    + split; [exact IH1|]. intros u. rewrite in_app_iff, IH2. cbn.
      split; [tauto|]. intros [H|[<-|[]]]; [exact H|].
      apply IH2. apply existsb_exists in X. destruct X as (s & Hs & E).
      apply String.eqb_eq in E. rewrite <- E. apply in_map. exact Hs.
    + split.
      * apply NoDup_app; [exact IH1 | repeat constructor; intros [] |].
        intros a Ha [<-|[]]. apply in_map_iff in Ha.
        destruct Ha as (s & Es & Hs).
        assert (T : existsb (fun s => (us_userId s =? userId e)%string)
                            (getUserSummary number plus l) = true)
          by (apply existsb_exists; exists s; split;
              [exact Hs|apply String.eqb_eq; exact Es]).
        rewrite X in T. discriminate.
      * intros u. rewrite !in_app_iff, IH2. reflexivity.
Qed.

Lemma summary_entry l u :
  find (fun s => (us_userId s =? u)%string) (getUserSummary number plus l)
  = if existsb (ofUser u) l
    then Some (mkUserSummary u "" (addedUp number plus (filter (ofUser u) l))
                             (List.length (filter (ofUser u) l)))
    else None.
Proof.
  induction l as [|e l IH] using rev_ind; [reflexivity|].
  rewrite getUserSummary_snoc, entry_addTo, IH, existsb_app, filter_app,
    length_app.
  assert (Fe : filter (ofUser u) [e]
               = if (userId e =? u)%string then [e] else []) by reflexivity.
  assert (Xe : existsb (ofUser u) [e] = (userId e =? u)%string)
    by (cbn; apply orb_false_r).
  rewrite Fe, Xe.
  destruct (String.eqb_spec (userId e) u) as [E|E].
  - rewrite orb_true_r. cbn [List.length]. unfold addedUp.
    rewrite fold_left_app. cbn [fold_left].
    destruct (existsb (ofUser u) l) eqn:X; cbn [us_userId us_userName
      us_total us_count].
    + reflexivity.
    + rewrite (filter_none _ _ X). cbn. subst u. reflexivity.
  - rewrite orb_false_r. cbn [List.length]. rewrite !app_nil_r, Nat.add_0_r.
    reflexivity.
Qed.

(** X27.  The summary by user has exactly one entry for each user that
    has an expense, and none for any other.  The entry of a user holds,
    under an empty name, the number of that user's expenses and, as its
    total, their amounts added to 0 one after the other in the order of
    the list, whatever the addition of numbers rounds.  The counts of all
    entries add up to the number of expenses. *)
Theorem user_summary_accounts_once (expenses : list Expense) :
  NoDup (map us_userId (getUserSummary number plus expenses))
  /\ (forall u, In u (map us_userId (getUserSummary number plus expenses))
                <-> In u (map userId expenses))
  /\ (forall s, In s (getUserSummary number plus expenses) ->
        s = mkUserSummary (us_userId s) ""
              (addedUp number plus (filter (ofUser (us_userId s)) expenses))
              (List.length (filter (ofUser (us_userId s)) expenses)))
  /\ list_sum (map us_count (getUserSummary number plus expenses))
     = List.length expenses.
Proof.
  destruct (summary_keys expenses) as [K1 K2].
  split; [exact K1|]. split; [exact K2|]. split.
  - intros s Hs.
    assert (F : find (fun x => (us_userId x =? us_userId s)%string)
                     (getUserSummary number plus expenses) = Some s).
    { clear -K1 Hs.
      induction (getUserSummary number plus expenses) as [|x m IH];
        [destruct Hs|]. cbn [find].
      inversion K1 as [|? ? Hx Km]; subst.
      destruct (String.eqb_spec (us_userId x) (us_userId s)) as [E|E].
      - destruct Hs as [->|Hs]; [reflexivity|]. exfalso. apply Hx.
        rewrite E. apply in_map. exact Hs.
      - destruct Hs as [->|Hs]; [contradiction|]. apply IH; assumption. }
    rewrite summary_entry in F.
    destruct (existsb _ expenses); [|discriminate].
    injection F as F. symmetry. exact F.
  - clear K1 K2. induction expenses as [|e l IH] using rev_ind; [reflexivity|].
    rewrite getUserSummary_snoc, counts_addTo, length_app, IH.
    cbn [List.length]. lia.
Qed.

End NumberFacts.

End SummaryFacts.

(** ** Dates as text *)

Module DateTextFacts.

Import Text JSDate JSDateFacts WindowFacts RateServer Terms.

Lemma agreeFrom_spec f g count :
  forall k n,
    agreeFrom f g count k = true -> k <= n < k + Z.of_nat count -> f n = g n.
Proof.
  induction count as [|count IH]; intros k n H R; [lia|].
  cbn [agreeFrom] in H. apply andb_true_iff in H. destruct H as [H1 H2].
  destruct (Z.eq_dec n k) as [->|N]; [apply String.eqb_eq; exact H1|].
  apply (IH (k + 1) n H2). lia.
Qed.

Lemma pad2_digits n : 0 <= n < 100 -> pad2 n = twoDigits n.
Proof.
  intros R. apply (agreeFrom_spec pad2 twoDigits (Z.to_nat 100) 0); [|lia].
  vm_cast_no_check (eq_refl true).
Qed.

Lemma pad4_digits n : 0 <= n < 10000 -> pad4 n = fourDigits n.
Proof.
  intros R. apply (agreeFrom_spec pad4 fourDigits (Z.to_nat 10000) 0); [|lia].
  vm_cast_no_check (eq_refl true).
Qed.

Lemma digit_digitChar k : 0 <= k <= 9 -> digit (digitChar k) = Some k.
Proof.
  intros R.
  assert (E : k = 0 \/ k = 1 \/ k = 2 \/ k = 3 \/ k = 4 \/ k = 5 \/ k = 6
              \/ k = 7 \/ k = 8 \/ k = 9) by lia.
  repeat (destruct E as [-> | E]; [reflexivity|]). subst. reflexivity.
Qed.

Lemma digit_inv c k : digit c = Some k -> 0 <= k <= 9 /\ c = digitChar k.
Proof.
  unfold digit. 
  destruct ((48 <=? Z.of_N (N_of_ascii c)) && (Z.of_N (N_of_ascii c) <=? 57))
    eqn:E; [|discriminate].
  intros H. injection H as <-.
  rewrite andb_true_iff, !Z.leb_le in E. split; [lia|].
  unfold digitChar.
  replace (48 + (Z.of_N (N_of_ascii c) - 48)) with (Z.of_N (N_of_ascii c)) by lia.
  rewrite N2Z.id, ascii_N_embedding. reflexivity.
Qed.

Lemma DateFromDay_range d :
  1 <= DateFromDay d <= DaysInMonth (YearFromDay d) (MonthFromDay d).
Proof.
  pose proof (month_of_day d) as H. cbv zeta in H.
  unfold DateFromDay, DayWithinYear. lia.
Qed.

(** The text of a calendar day of the years 0 to 9999. *)
Lemma todayOf_text t :
  0 <= YearFromDay (Day t) <= 9999 ->
  todayOf t
  = fourDigits (YearFromDay (Day t)) ++ "-"
    ++ twoDigits (MonthFromDay (Day t) + 1) ++ "-"
    ++ twoDigits (DateFromDay (Day t)).
Proof.
  intros Y. unfold todayOf, toISOString, isoYear.
  pose proof (MonthFromDay_range (Day t)) as M.
  pose proof (DateFromDay_range (Day t)) as D.
  pose proof (DaysInMonth_pos (YearFromDay (Day t)) (MonthFromDay (Day t))) as P.
  replace ((0 <=? YearFromDay (Day t)) && (YearFromDay (Day t) <=? 9999))
    with true by (symmetry; apply andb_true_iff; rewrite !Z.leb_le; lia).
  rewrite pad4_digits by lia.
  rewrite (pad2_digits (MonthFromDay (Day t) + 1)) by lia.
  rewrite (pad2_digits (DateFromDay (Day t))) by lia.
  reflexivity.
Qed.

Lemma parse_text y m d :
  0 <= y <= 9999 -> 0 <= m <= 99 -> 0 <= d <= 99 ->
  parseDate (fourDigits y ++ "-" ++ twoDigits m ++ "-" ++ twoDigits d)
  = dateOfFields y m d.
Proof.
  intros Y M D. unfold fourDigits, twoDigits. cbn [append parseDate].
  rewrite !digit_digitChar by (Z.to_euclidean_division_equations; lia).
  f_equal; Z.to_euclidean_division_equations; lia.
Qed.

(** X28.  The date that the form is opened with, and the date under
    which the server files its rates, is read back as the day it names:
    for every instant of the years 0 to 9999 the text
    [toISOString().split('T')[0]] parses to midnight UTC of the same day,
    which is not after the instant; so a form left on its initial date
    passes the check for dates in the future. *)
Theorem today_parses_back (now : Z) :
  0 <= YearFromDay (Day now) <= 9999 ->
  parseDate (todayOf now) = Some (MakeDate (Day now) 0)
  /\ MakeDate (Day now) 0 <= now
  /\ forall formatCurrency clientPolicies f,
       Client.f_date f = todayOf now ->
       Client.err_date (Client.validateForm formatCurrency now clientPolicies f)
       = None.
Proof.
  intros Y.
  pose proof (MonthFromDay_range (Day now)) as M.
  pose proof (DateFromDay_range (Day now)) as D.
  pose proof (DaysInMonth_pos (YearFromDay (Day now)) (MonthFromDay (Day now)))
    as P.
  assert (E : parseDate (todayOf now) = Some (MakeDate (Day now) 0)).
  { rewrite todayOf_text, parse_text by lia. unfold dateOfFields.
    replace (MonthFromDay (Day now) + 1 - 1) with (MonthFromDay (Day now))
      by lia.
    replace ((1 <=? MonthFromDay (Day now) + 1)
             && (MonthFromDay (Day now) + 1 <=? 12)
             && (1 <=? DateFromDay (Day now))
             && (DateFromDay (Day now)
                 <=? DaysInMonth (YearFromDay (Day now))
                                 (MonthFromDay (Day now))))
      with true
      by (symmetry; rewrite !andb_true_iff, !Z.leb_le; lia).
    rewrite MakeDay_same_month. do 2 f_equal. lia. }
  assert (L : MakeDate (Day now) 0 <= now).
  { unfold MakeDate, Day, msPerDay. Z.to_euclidean_division_equations. lia. }
  split; [exact E|]. split; [exact L|].
  intros fc pols f F. unfold Client.validateForm. cbn [Client.err_date].
  rewrite F, E.
  assert (N : (todayOf now =? "")%string = false).
  { rewrite todayOf_text by exact Y. reflexivity. }
  rewrite N. apply Z.ltb_ge in L. rewrite L. reflexivity.
Qed.

(** The theorem at 6 March 2024, 10:00 UTC. *)
Lemma today_parses_back_witness :
  todayOf Examples.now0 = "2024-03-06"
  /\ parseDate (todayOf Examples.now0) = Some (MakeDate (Day Examples.now0) 0).
Proof.
  split; [vm_compute; reflexivity|].
  apply (today_parses_back Examples.now0). vm_compute.
  split; discriminate.
Defined.

(** X29.  A date that the form submits is written back unchanged: when a
    text of the form YYYY-MM-DD names a calendar day, the instant it
    parses to is midnight UTC, and the first ten characters of the ISO
    text of that instant are the text itself. *)
Theorem written_date_round_trip (s : string) (t : Z) :
  parseDate s = Some t ->
  todayOf t = s /\ TimeWithinDay t = 0 /\ parseDate (todayOf t) = Some t.
Proof.
  intros H.
  assert (G : todayOf t = s /\ TimeWithinDay t = 0).
  { revert H. unfold parseDate.
    destruct s as [|y1 [|y2 [|y3 [|y4 [|c1 [|m1 [|m2 [|c2 [|d1 [|d2 [|]]]]]]]]]]];
      try discriminate;
      (destruct c1 as [[] [] [] [] [] [] [] []]; try discriminate);
      try (destruct c2 as [[] [] [] [] [] [] [] []]; try discriminate).
    destruct (digit y1) as [a|] eqn:Ea; [|discriminate].
    destruct (digit y2) as [b|] eqn:Eb; [|discriminate].
    destruct (digit y3) as [c|] eqn:Ec; [|discriminate].
    destruct (digit y4) as [e|] eqn:Ee; [|discriminate].
    destruct (digit m1) as [f|] eqn:Ef; [|discriminate].
    destruct (digit m2) as [g|] eqn:Eg; [|discriminate].
    destruct (digit d1) as [h|] eqn:Eh; [|discriminate].
    destruct (digit d2) as [i|] eqn:Ei; [|discriminate].
    apply digit_inv in Ea, Eb, Ec, Ee, Ef, Eg, Eh, Ei.
    destruct Ea as [Ra ->], Eb as [Rb ->], Ec as [Rc ->], Ee as [Re ->],
             Ef as [Rf ->], Eg as [Rg ->], Eh as [Rh ->], Ei as [Ri ->].
    set (y := 1000 * a + 100 * b + 10 * c + e).
    set (m := 10 * f + g). set (d := 10 * h + i).
    intros H.
    destruct (written_day 0 y m d t H ltac:(unfold msPerDay; lia))
      as (Fy & Fm & Fd).
    unfold getFullYear, getMonth, getDate, LocalTime in Fy, Fm, Fd.
    rewrite Z.add_0_r in Fy, Fm, Fd.
    unfold dateOfFields in H.
    destruct ((1 <=? m) && (m <=? 12) && (1 <=? d)
              && (d <=? DaysInMonth y (m - 1))); [|discriminate].
    injection H as <-.
    split; [|unfold TimeWithinDay, MakeDate, msPerDay;
             Z.to_euclidean_division_equations; lia].
    rewrite todayOf_text by (rewrite Fy; subst y; lia).
    rewrite Fy, Fm, Fd. replace (m - 1 + 1) with m by lia.
    unfold fourDigits, twoDigits. cbn [append].
    replace (y / 1000) with a by (subst y; Z.to_euclidean_division_equations; lia).
    replace (y / 100 mod 10) with b
      by (subst y; Z.to_euclidean_division_equations; lia).
    replace (y / 10 mod 10) with c
      by (subst y; Z.to_euclidean_division_equations; lia).
    replace (y mod 10) with e
      by (subst y; Z.to_euclidean_division_equations; lia).
    replace (m / 10) with f by (subst m; Z.to_euclidean_division_equations; lia).
    replace (m mod 10) with g by (subst m; Z.to_euclidean_division_equations; lia).
    replace (d / 10) with h by (subst d; Z.to_euclidean_division_equations; lia).
    replace (d mod 10) with i by (subst d; Z.to_euclidean_division_equations; lia).
    reflexivity. }
  destruct G as [G1 G2]. split; [exact G1|]. split; [exact G2|].
  rewrite G1. exact H.
Qed.

(** The theorem for the fifth of March 2024. *)
Lemma written_date_round_trip_witness :
  todayOf 1709596800000 = "2024-03-05".
Proof.
  apply (written_date_round_trip "2024-03-05" 1709596800000). reflexivity.
Defined.

End DateTextFacts.
